(** * AskFile browser client: view-state container, views and their handlers

    A shallow embedding of the React components of the AskFile front end
    (the four [AskFileSystem] entry variants, [ChatView], [HistoryView],
    [LoginView], [GoogleLoginButton]) as effectful state transformers, and
    the properties of the client-side state machine that the repository's
    specification states.

    A handler is a function of the values of the render that created it
    (its closure) into a computation over the page: the [useState] cells,
    [localStorage] and the log of what the user saw and what left the
    page ([alert], [confirm], [fetch], the console). What the environment
    decides (how a [fetch] settles, what the clock reads, what the user
    answers) is an argument of the handler. A run of a handler goes from
    the event to the end of the handler, the awaited call included: no
    other event is taken in between.

    Layout:
    - [Js]        : JavaScript strings (UTF-16 code units), [trim], JSON values;
    - [RegExp]    : the regular expressions used by the forms, with a matcher;
    - [Model]     : messages, file descriptors, the state container, effects;
    - [ChatView], [ChatViewV1], [HistoryView], [GoogleLoginButton],
      [LoginView] : the presentational views;
    - [AppSession], [AppSessionV1], [AppToken], [AppNoAuth] : the four
      [AskFileSystem] components, [SessionPage], the first of them driven
      by a sequence of events, and [Variants], which sets them side by
      side;
    - [Examples], [Spec] : sample pages, and the specification's vocabulary;
    - the properties. *)

From Stdlib Require Import String Ascii NArith ZArith List Bool Lia DecimalString.
From Stdlib Require Import DecimalPos DecimalN.
From stdpp Require Import base numbers option list strings gmap.

Set Default Proof Using "Type".
Set Warnings "-register-all".
Local Open Scope N_scope.

(* ===================================================================== *)
(** ** JavaScript strings and JSON values *)
(* ===================================================================== *)

Module Js.

(** A JavaScript string is a sequence of UTF-16 code units; [length],
    [trim], [===] and regular expressions without the [u] flag all work on
    code units. *)
Definition str : Type := list N.

(** An ASCII literal as a JavaScript string. *)
Definition lit (s : string) : str :=
  List.map N_of_ascii (list_ascii_of_string s).

(** [WhiteSpace] and [LineTerminator] of ECMAScript: the characters removed
    by [String.prototype.trim] and matched by the class [\s]. *)
Definition is_space (c : N) : bool :=
  (c =? 9) || (c =? 10) || (c =? 11) || (c =? 12) || (c =? 13) ||
  (c =? 32) || (c =? 160) || (c =? 5760) ||
  ((8192 <=? c) && (c <=? 8202)) ||
  (c =? 8232) || (c =? 8233) || (c =? 8239) || (c =? 8287) ||
  (c =? 12288) || (c =? 65279).

Fixpoint trimStart (s : str) : str :=
  match s with
  | c :: s' => if is_space c then trimStart s' else s
  | [] => []
  end.

Definition trimEnd (s : str) : str := rev (trimStart (rev s)).

(** [s.trim()] *)
Definition trim (s : str) : str := trimEnd (trimStart s).

(** [s === t] on strings. *)
Definition eqb (s t : str) : bool := bool_decide (s = t).

(** Template-literal rendering of a non-negative integer such as
    [response.status]. *)
Definition of_N (n : N) : str := lit (NilZero.string_of_uint (N.to_uint n)).

(** [s.substr(start, count)] for in-range arguments. *)
Definition substr (start count : nat) (s : str) : str := take count (drop start s).

Fixpoint startsWith (s sub : str) : bool :=
  match sub, s with
  | [], _ => true
  | _ :: _, [] => false
  | c :: sub', d :: s' => (c =? d) && startsWith s' sub'
  end.

(** [s.includes(sub)] *)
Fixpoint includes (s sub : str) : bool :=
  startsWith s sub ||
  match s with
  | [] => false
  | _ :: s' => includes s' sub
  end.

(** A value produced by [JSON.parse] (or [undefined], for an absent
    property). The client only ever tests numbers for truthiness and hands
    them on, so integers stand for them. *)
Inductive val : Type :=
| Undefined
| Null
| Bool (b : bool)
| Num (z : Z)
| Str (s : str)
| Arr (items : list val)
| Obj (fields : list (str * val)).

(** ToBoolean. *)
Definition truthy (v : val) : bool :=
  match v with
  | Undefined | Null => false
  | Bool b => b
  | Num z => negb (z =? 0)%Z
  | Str s => match s with [] => false | _ => true end
  | Arr _ | Obj _ => true
  end.

(** [a || b] *)
Definition or_else (a b : val) : val := if truthy a then a else b.

(** [a === b] on primitives. Values of different types are never equal;
    objects and arrays compare by identity, which is not tracked, and the
    client compares none. *)
Definition strict_equal (a b : val) : bool :=
  match a, b with
  | Undefined, Undefined => true
  | Null, Null => true
  | Bool x, Bool y => Bool.eqb x y
  | Num x, Num y => (x =? y)%Z
  | Str x, Str y => eqb x y
  | _, _ => false
  end.

(** ToString, as a template literal, string concatenation or
    [new Error(v)] applies it. *)
Fixpoint to_string (v : val) : str :=
  match v with
  | Undefined => lit "undefined"
  | Null => lit "null"
  | Bool true => lit "true"
  | Bool false => lit "false"
  | Num z => lit (NilZero.string_of_int (Z.to_int z))
  | Str s => s
  | Arr items =>
      (fix join (l : list val) : str :=
         match l with
         | [] => []
         | x :: rest =>
             match x with Undefined | Null => [] | _ => to_string x end ++
             match rest with [] => [] | _ :: _ => lit "," ++ join rest end
         end) items
  | Obj _ => lit "[object Object]"
  end.

(** What a thrown [Error] carries as far as this client looks: [message]. *)
Record error : Type := Error { message : str }.

(** Own-property lookup in an object's field list ([JSON.parse] keeps the
    last of several equal keys; a field list is read first-match, so it
    lists each key once, latest value). *)
Fixpoint lookup_field (k : str) (fields : list (str * val)) : val :=
  match fields with
  | [] => Undefined
  | (k', v) :: rest => if eqb k' k then v else lookup_field k rest
  end.

(** [v.k] for a property name [k] that is none of the built-in ones
    ([length] and the like): a [TypeError] on [null] and [undefined],
    [undefined] on primitives and arrays. The error text is the engine's
    (V8's wording is used); nothing depends on it. *)
Definition get (v : val) (k : string) : error + val :=
  match v with
  | Undefined =>
      inl (Error (lit "Cannot read properties of undefined (reading '" ++ lit k ++ lit "')"))
  | Null =>
      inl (Error (lit "Cannot read properties of null (reading '" ++ lit k ++ lit "')"))
  | Obj fields => inr (lookup_field (lit k) fields)
  | _ => inr Undefined
  end.

End Js.

Abbreviation jsstr := Js.str.

(* ===================================================================== *)
(** ** Regular expressions *)
(* ===================================================================== *)

Module RegExp.

(** Pattern syntax, as far as the client's patterns use it. A character
    class is its membership test on code units. *)
Inductive t : Type :=
| Void
| Eps
| Class (p : N -> bool)
| Cat (r1 r2 : t)
| Alt (r1 r2 : t)
| Star (r : t).

(** [r+] *)
Definition Plus (r : t) : t := Cat r (Star r).

(** A single literal character. *)
Definition Chr (c : N) : t := Class (N.eqb c).

(** The language of a pattern. *)
Inductive Matches : t -> jsstr -> Prop :=
| MEps : Matches Eps []
| MClass p c : p c = true -> Matches (Class p) [c]
| MCat r1 r2 s1 s2 : Matches r1 s1 -> Matches r2 s2 -> Matches (Cat r1 r2) (s1 ++ s2)
| MAltL r1 r2 s : Matches r1 s -> Matches (Alt r1 r2) s
| MAltR r1 r2 s : Matches r2 s -> Matches (Alt r1 r2) s
| MStarNil r : Matches (Star r) []
| MStarCons r s1 s2 : Matches r s1 -> Matches (Star r) s2 -> Matches (Star r) (s1 ++ s2).

Fixpoint nullable (r : t) : bool :=
  match r with
  | Void => false
  | Eps => true
  | Class _ => false
  | Cat r1 r2 => nullable r1 && nullable r2
  | Alt r1 r2 => nullable r1 || nullable r2
  | Star _ => true
  end.

(** Derivative of a pattern by one code unit. *)
Fixpoint deriv (c : N) (r : t) : t :=
  match r with
  | Void => Void
  | Eps => Void
  | Class p => if p c then Eps else Void
  | Cat r1 r2 =>
      if nullable r1
      then Alt (Cat (deriv c r1) r2) (deriv c r2)
      else Cat (deriv c r1) r2
  | Alt r1 r2 => Alt (deriv c r1) (deriv c r2)
  | Star r1 => Cat (deriv c r1) (Star r1)
  end.

(** [/^r$/.test(s)]: with both anchors and no flags, the whole input has to
    belong to the pattern's language. *)
Fixpoint test (r : t) (s : jsstr) : bool :=
  match s with
  | [] => nullable r
  | c :: s' => test (deriv c r) s'
  end.

End RegExp.

(* ===================================================================== *)
(** ** The data model and the effects of a handler *)
(* ===================================================================== *)

Module Model.

(** [sender] of a chat message: ['user'] or ['bot']. *)
Inductive Sender : Type := User | Bot.

(** [currentView]: ['login'], ['chat'] or ['history']. *)
Inductive View : Type := login | chat | history.

(** An entry of [chatMessages]. [text] is the typed question, the
    backend's [data.answer] or the apology text; [sources] is [[]], the
    backend's list, or absent; [isError] is absent ([false] here) except
    on the apology the [catch] block appends. *)
Module Message.
Record t : Type := mk {
  id : nat;
  text : Js.val;
  sender : Sender;
  timestamp : jsstr;
  sources : Js.val;
  isError : bool
}.
End Message.

(** The browser's [File] picked by the user, as far as it is read. *)
Module File.
Record t : Type := mk { name : jsstr; type : jsstr }.
End File.

(** [uploadedFile] when it is not [null]. [isTemporary] is [undefined] in
    the variants whose descriptor has no such field. *)
Module UploadedFile.
Record t : Type := mk {
  id : Js.val;
  name : jsstr;
  summary : Js.val;
  uploadDate : jsstr;
  isTemporary : Js.val
}.
End UploadedFile.

(** The [useState] cells of [AskFileSystem]. Only the token variant has
    [user] and only the session variants have [userSessionId]; a variant
    never touches a cell it lacks. *)
Record AppState : Type := mkApp {
  user : Js.val;
  currentView : View;
  chatMessages : list Message.t;
  currentMessage : jsstr;
  isLoading : bool;
  userHistory : Js.val;
  suggestions : list jsstr;
  uploadedFile : option UploadedFile.t;
  fileProcessing : bool;
  userSessionId : jsstr
}.

(** The view [AskFileSystem] returns from a render. *)
Inductive Screen : Type := LoginScreen | ChatScreen | HistoryScreen.

(** The local [useState] cells of [LoginView]. *)
Record Credentials : Type := mkCredentials { cred_email : jsstr; cred_password : jsstr }.

Record RegisterData : Type := mkRegisterData {
  name : jsstr;
  email : jsstr;
  password : jsstr;
  confirmPassword : jsstr
}.

Inductive LoginMode : Type := traditional | register.

Record LoginState : Type := mkLogin {
  credentials : Credentials;
  registerData : RegisterData;
  loginMode : LoginMode
}.

(** *** Requests and responses *)

Inductive Method : Type := GET | POST | DELETE.

Inductive Body : Type :=
| NoBody
| JsonBody (v : Js.val)                               (* JSON.stringify(v) *)
| FormBody (file : File.t) (fields : list (string * jsstr))   (* FormData *)
| UrlEncodedBody (fields : list (string * jsstr)).   (* URLSearchParams *)

(** A [fetch] call; the URL is [API_BASE_URL] followed by [path] and the
    query string. *)
Record Request : Type := mkRequest {
  method : Method;
  path : string;
  query : list (string * jsstr);
  headers : list (string * jsstr);
  cors : bool;
  body : Body
}.

(** A settled promise. *)
Inductive Settled (A : Type) : Type :=
| Fulfilled (a : A)
| Rejected (e : Js.error).
Arguments Fulfilled {A} a.
Arguments Rejected {A} e.

(** What the client reads of a [Response]: the two body readers settle as
    the environment decides. *)
Record Response : Type := mkResponse {
  status : N;
  statusText : jsstr;
  text : Settled jsstr;
  json : Settled Js.val
}.

(** [response.ok] *)
Definition ok (r : Response) : bool := (200 <=? status r) && (status r <=? 299).

(** *** What the user gets to see, and what leaves the page *)

(** The [alert] calls of the client, one constructor per message text. *)
Inductive AlertMsg : Type :=
| UploadPdfFirst              (* Por favor, faça o upload de um arquivo PDF antes de fazer perguntas. *)
| NoFileSelected              (* Nenhum arquivo selecionado. *)
| OnlyPdfAccepted             (* Apenas arquivos PDF são aceitos. *)
| OnlyPdfAcceptedView         (* ChatView: Apenas arquivos PDF são aceitos! ... *)
| FileProcessed (name : jsstr)      (* Arquivo "<name>" processado com sucesso! *)
| UploadFailed (message : jsstr)    (* Falha ao processar arquivo: <message> *)
| SessionDataCleared          (* Dados da sessão limpos com sucesso. *)
| DataCleared                 (* Dados limpos com sucesso. *)
| Disconnected                (* Você foi desconectado. *)
| SessionExpired              (* Sessão expirada. Por favor, faça login novamente. *)
| TextCopied                  (* Texto copiado para a área de transferência! *)
| FillEmailAndPassword        (* Por favor, preencha email e senha! *)
| InvalidEmail                (* Por favor, insira um email válido! *)
| FillAllFields               (* Preencha todos os campos! *)
| NameTooShort                (* O nome deve ter pelo menos 2 caracteres! *)
| PasswordTooShort            (* A senha deve ter pelo menos 6 caracteres! *)
| PasswordsDiffer             (* As senhas não coincidem! *)
| LoginError (detail : Js.val)      (* Erro no login: <detail> *)
| RegisterError (detail : Js.val)   (* Erro no cadastro: <detail> *)
| GoogleLoginError (detail : Js.val)  (* Erro no login com Google: <detail> *)
| ConnectionError             (* Erro de conexão. Verifique sua internet e tente novamente. *)
| GoogleConnectionError       (* Erro de conexão com Google. Tente novamente. *)
| GoogleLoginFailed           (* Falha no login com Google. Tente novamente. *)
| RegisterDone.               (* Cadastro realizado com sucesso! ... *)

(** The [window.confirm] questions. *)
Inductive ConfirmMsg : Type := ConfirmChangeFile | ConfirmClearSession | ConfirmNewSession.

Inductive Effect : Type :=
| Alert (m : AlertMsg)
| Confirm (q : ConfirmMsg) (answer : bool)
| Fetch (r : Request)
| ConsoleLog
| ConsoleError (e : Js.error)
| OpenFilePicker
| Reload.

(** The page: the component tree's state, [localStorage], and the effects
    performed so far, oldest first. *)
Record World : Type := mkWorld {
  app : AppState;
  loginView : LoginState;
  localStorage : gmap string jsstr;
  effects : list Effect
}.

(** *** Computations *)

(** How a block ends: normally, or by a [throw]. *)
Inductive Completion (A : Type) : Type :=
| Normal (a : A)
| Throw (e : Js.error).
Arguments Normal {A} a.
Arguments Throw {A} e.

Definition Eff (A : Type) : Type := World -> Completion A * World.

#[global] Instance Eff_ret : MRet Eff := fun A a w => (Normal a, w).

#[global] Instance Eff_bind : MBind Eff := fun A B k m w =>
  match m w with
  | (Normal a, w') => k a w'
  | (Throw e, w') => (Throw e, w')
  end.

(** [throw e] *)
Definition throw {A} (e : Js.error) : Eff A := fun w => (Throw e, w).

(** [try { body } catch (error) { handler error }] *)
Definition try_catch {A} (body : Eff A) (handler : Js.error -> Eff A) : Eff A :=
  fun w =>
    match body w with
    | (Normal a, w') => (Normal a, w')
    | (Throw e, w') => handler e w'
    end.

(** [try { body } finally { cleanup }], for a [cleanup] that neither
    throws nor returns. *)
Definition try_finally {A} (body : Eff A) (cleanup : Eff unit) : Eff A :=
  fun w =>
    match body w with
    | (c, w') => (c, snd (cleanup w'))
    end.

(** [await p] *)
Definition await {A} (p : Settled A) : Eff A :=
  match p with
  | Fulfilled a => mret a
  | Rejected e => throw e
  end.

(** Property access that may throw a [TypeError]. *)
Definition prop (v : Js.val) (k : string) : Eff Js.val :=
  match Js.get v k with
  | inr x => mret x
  | inl e => throw e
  end.

Definition perform (e : Effect) : Eff unit := fun w =>
  (Normal tt, mkWorld (app w) (loginView w) (localStorage w) (effects w ++ [e])).

Definition alert (m : AlertMsg) : Eff unit := perform (Alert m).

(** [window.confirm(q)], answered by the user with [answer]. *)
Definition confirm (q : ConfirmMsg) (answer : bool) : Eff bool :=
  perform (Confirm q answer) ;; mret answer.

(** [fetch(request)], settled by the network with [outcome]. *)
Definition fetch (r : Request) (outcome : Settled Response) : Eff Response :=
  perform (Fetch r) ;; await outcome.

Definition console_log : Eff unit := perform ConsoleLog.
Definition console_error (e : Js.error) : Eff unit := perform (ConsoleError e).

(** [localStorage.getItem], [removeItem], [setItem]. *)
Definition getItem (k : string) : Eff (option jsstr) := fun w =>
  (Normal (localStorage w !! k), w).

Definition removeItem (k : string) : Eff unit := fun w =>
  (Normal tt, mkWorld (app w) (loginView w) (delete k (localStorage w)) (effects w)).

Definition setItem (k : string) (v : jsstr) : Eff unit := fun w =>
  (Normal tt, mkWorld (app w) (loginView w) (<[k := v]> (localStorage w)) (effects w)).

(** A state setter called with an updater function: React applies it to
    the cell's value at that moment, not to the value the handler saw when
    it was created. *)
Definition update (f : AppState -> AppState) : Eff unit := fun w =>
  (Normal tt, mkWorld (f (app w)) (loginView w) (localStorage w) (effects w)).

Definition setUser (v : Js.val) : Eff unit :=
  update (fun a => mkApp v (currentView a) (chatMessages a) (currentMessage a)
    (isLoading a) (userHistory a) (suggestions a) (uploadedFile a)
    (fileProcessing a) (userSessionId a)).

Definition setCurrentView (v : View) : Eff unit :=
  update (fun a => mkApp (user a) v (chatMessages a) (currentMessage a)
    (isLoading a) (userHistory a) (suggestions a) (uploadedFile a)
    (fileProcessing a) (userSessionId a)).

(** [setChatMessages(prev => f prev)] *)
Definition setChatMessages_with (f : list Message.t -> list Message.t) : Eff unit :=
  update (fun a => mkApp (user a) (currentView a) (f (chatMessages a)) (currentMessage a)
    (isLoading a) (userHistory a) (suggestions a) (uploadedFile a)
    (fileProcessing a) (userSessionId a)).

(** [setChatMessages(v)] *)
Definition setChatMessages (v : list Message.t) : Eff unit :=
  setChatMessages_with (fun _ => v).

Definition setCurrentMessage (v : jsstr) : Eff unit :=
  update (fun a => mkApp (user a) (currentView a) (chatMessages a) v
    (isLoading a) (userHistory a) (suggestions a) (uploadedFile a)
    (fileProcessing a) (userSessionId a)).

Definition setIsLoading (v : bool) : Eff unit :=
  update (fun a => mkApp (user a) (currentView a) (chatMessages a) (currentMessage a)
    v (userHistory a) (suggestions a) (uploadedFile a)
    (fileProcessing a) (userSessionId a)).

Definition setUserHistory (v : Js.val) : Eff unit :=
  update (fun a => mkApp (user a) (currentView a) (chatMessages a) (currentMessage a)
    (isLoading a) v (suggestions a) (uploadedFile a)
    (fileProcessing a) (userSessionId a)).

Definition setSuggestions (v : list jsstr) : Eff unit :=
  update (fun a => mkApp (user a) (currentView a) (chatMessages a) (currentMessage a)
    (isLoading a) (userHistory a) v (uploadedFile a)
    (fileProcessing a) (userSessionId a)).

Definition setUploadedFile (v : option UploadedFile.t) : Eff unit :=
  update (fun a => mkApp (user a) (currentView a) (chatMessages a) (currentMessage a)
    (isLoading a) (userHistory a) (suggestions a) v
    (fileProcessing a) (userSessionId a)).

Definition setFileProcessing (v : bool) : Eff unit :=
  update (fun a => mkApp (user a) (currentView a) (chatMessages a) (currentMessage a)
    (isLoading a) (userHistory a) (suggestions a) (uploadedFile a)
    v (userSessionId a)).

(** The setters of [LoginView]'s own cells. *)
Definition update_login (f : LoginState -> LoginState) : Eff unit := fun w =>
  (Normal tt, mkWorld (app w) (f (loginView w)) (localStorage w) (effects w)).

Definition setCredentials (v : Credentials) : Eff unit :=
  update_login (fun l => mkLogin v (registerData l) (loginMode l)).

Definition setRegisterData (v : RegisterData) : Eff unit :=
  update_login (fun l => mkLogin (credentials l) v (loginMode l)).

Definition setLoginMode (v : LoginMode) : Eff unit :=
  update_login (fun l => mkLogin (credentials l) (registerData l) v).

(** A handler is a closure over the values of the render that created
    it. An event runs the handler of the latest render: the values it
    closes over are the current ones. After that the handler keeps reading
    its own copy while the setters act on the live cells. *)
Definition Handler : Type := AppState -> Eff unit.

Definition run (h : Handler) (w : World) : World := snd (h (app w) w).

(** The requests among a list of effects. *)
Definition requests (l : list Effect) : list Request :=
  omap (fun e => match e with Fetch r => Some r | _ => None end) l.

(** The alerts among a list of effects. *)
Definition alerts (l : list Effect) : list AlertMsg :=
  omap (fun e => match e with Alert m => Some m | _ => None end) l.

End Model.

(* ===================================================================== *)
(** ** The presentational views *)
(* ===================================================================== *)

(** A view receives the container's cells and handlers as props; a
    handler prop is the container's closure, here an [Eff] computation
    (or a function into one). *)

(** [ChatView], the version with the change-file control. *)
Module ChatView.
Import Model.

(** [handleFileChange]: [file] is [event.target.files[0]]. *)
Definition handleFileChange (handleFileUpload : File.t -> Eff unit) (file : option File.t)
  : Eff unit :=
  match file with
  | Some file =>
      if negb (Js.eqb (File.type file) (Js.lit "application/pdf"))
      then alert OnlyPdfAcceptedView
      else handleFileUpload file
  | None => mret tt
  end.




(** [disabled] of the send button. *)
Definition sendDisabled (self : AppState) : bool :=
  isLoading self || Js.eqb (Js.trim (currentMessage self)) []
  || negb (bool_decide (is_Some (uploadedFile self))).

End ChatView.

(** [ChatView], first version (components/Chatview/Chatview.js). *)
Module ChatViewV1.
Import Model.

Definition handleFileChange (handleFileUpload : File.t -> Eff unit) (file : option File.t)
  : Eff unit :=
  match file with
  | Some file =>
      if negb (Js.eqb (File.type file) (Js.lit "application/pdf"))
      then alert OnlyPdfAcceptedView
      else handleFileUpload file
  | None => mret tt
  end.

Definition sendDisabled (self : AppState) : bool :=
  isLoading self || Js.eqb (Js.trim (currentMessage self)) []
  || negb (bool_decide (is_Some (uploadedFile self))).

End ChatViewV1.

Module HistoryView.
Import Model.

(** The mount effect: "fetches the history when the component is
    mounted". *)
Definition onMount (fetchUserHistory : option (Eff unit)) : Eff unit :=
  match fetchUserHistory with
  | Some f => f
  | None => mret tt
  end.

(** [toggleExpanded]: [expandedItems], the view's own cell, is the [Set]
    of the list positions shown unfolded; the function returns the set it
    hands to [setExpandedItems]. *)
Definition toggleExpanded (index : nat) (expandedItems : gset nat) : gset nat :=
  let newExpanded := expandedItems in
  if bool_decide (index ∈ newExpanded)
  then newExpanded ∖ {[ index ]}
  else newExpanded ∪ {[ index ]}.

(** What the content area shows. *)
Inductive Content : Type :=
| Spinner                           (* Carregando histórico... *)
| EmptyHistory                      (* Nenhuma consulta realizada *)
| HistoryList (items : list Js.val).

(** The conditional of the content area:
    [isLoading ? ... : !userHistory || userHistory.length === 0 ? ... :
     userHistory.map(...)], as far as choosing the branch goes. A JSON
    value has no callable [map] unless it is an array. *)
Definition content (isLoading : bool) (userHistory : Js.val) : Js.error + Content :=
  if isLoading then inr Spinner
  else if negb (Js.truthy userHistory) then inr EmptyHistory
  else
    match userHistory with
    | Js.Arr [] => inr EmptyHistory
    | Js.Arr items => inr (HistoryList items)
    | Js.Obj fields =>
        if Js.strict_equal (Js.lookup_field (Js.lit "length") fields) (Js.Num 0)
        then inr EmptyHistory
        else inl (Js.Error (Js.lit "userHistory.map is not a function"))
    | _ => inl (Js.Error (Js.lit "userHistory.map is not a function"))
    end.

End HistoryView.

Module GoogleLoginButton.
Import Model.

(** The mock answer of the Google sign-in. *)
Definition mockGoogleResponse : Js.val :=
  Js.Obj [ (Js.lit "google_token", Js.Str (Js.lit "mock_google_token_123"));
           (Js.lit "google_id", Js.Str (Js.lit "mock_google_id_456"));
           (Js.lit "email", Js.Str (Js.lit "demo.google@gmail.com"));
           (Js.lit "name", Js.Str (Js.lit "Usu" ++ [225%N] ++ Js.lit "rio Google Demo"));
           (Js.lit "picture", Js.Str (Js.lit
              "https://api.dicebear.com/7.x/avataaars/svg?seed=GoogleUser&backgroundColor=0891b2&radius=50"));
           (Js.lit "email_verified", Js.Bool true) ].

(** [handleGoogleLogin], once its timer has fired. *)
Definition handleGoogleLogin (disabled : bool) (onSuccess : Js.val -> Eff unit)
  (onError : Js.error -> Eff unit) : Eff unit :=
  if disabled then mret tt
  else try_catch (onSuccess mockGoogleResponse) onError.

End GoogleLoginButton.

Module LoginView.
Import Model.

(** [/^[^\s@]+@[^\s@]+\.[^\s@]+$/] *)
Definition emailRegex : RegExp.t :=
  let notSpaceOrAt := RegExp.Class (fun c => negb (Js.is_space c || (c =? 64)%N)) in
  RegExp.Cat (RegExp.Plus notSpaceOrAt)
    (RegExp.Cat (RegExp.Chr 64)
       (RegExp.Cat (RegExp.Plus notSpaceOrAt)
          (RegExp.Cat (RegExp.Chr 46) (RegExp.Plus notSpaceOrAt)))).

Definition validateEmail (email : jsstr) : bool := RegExp.test emailRegex email.

Definition validateLoginForm (self : LoginState) : Eff bool :=
  if Js.eqb (cred_email (credentials self)) [] || Js.eqb (cred_password (credentials self)) []
  then alert FillEmailAndPassword ;; mret false
  else if negb (validateEmail (cred_email (credentials self)))
  then alert InvalidEmail ;; mret false
  else mret true.

Definition validateRegisterForm (self : LoginState) : Eff bool :=
  let registerData := registerData self in
  if Js.eqb (name registerData) [] || Js.eqb (email registerData) []
     || Js.eqb (password registerData) []
  then alert FillAllFields ;; mret false
  else if (length (Js.trim (name registerData)) <? 2)%nat
  then alert NameTooShort ;; mret false
  else if negb (validateEmail (email registerData))
  then alert InvalidEmail ;; mret false
  else if (length (password registerData) <? 6)%nat
  then alert PasswordTooShort ;; mret false
  else if negb (Js.eqb (password registerData) (confirmPassword registerData))
  then alert PasswordsDiffer ;; mret false
  else mret true.

Definition loginRequest (username password : jsstr) : Request :=
  mkRequest POST "/api/login" []
    [("Content-Type", Js.lit "application/x-www-form-urlencoded")] false
    (UrlEncodedBody [("username", username); ("password", password)]).

Definition registerRequest (name email password : jsstr) : Request :=
  mkRequest POST "/api/login/register" []
    [("Content-Type", Js.lit "application/json")] false
    (JsonBody (Js.Obj [ (Js.lit "name", Js.Str name);
                        (Js.lit "email", Js.Str email);
                        (Js.lit "password", Js.Str password) ])).

Definition googleRequest (userData : Js.val) : Request :=
  mkRequest POST "/api/login/google" []
    [("Content-Type", Js.lit "application/json")] false (JsonBody userData).

Definition emptyRegisterData : RegisterData := mkRegisterData [] [] [] [].

(** [useState] initial values of the view's cells. *)
Definition initialState : LoginState :=
  mkLogin (mkCredentials [] []) emptyRegisterData traditional.

(** A handler of the view closes over the view's own cells. *)
Definition Handler : Type := LoginState -> Eff unit.

Definition run (h : Handler) (w : World) : World := snd (h (loginView w) w).

Section Props.
(** The [onLoginSuccess] prop; [setIsLoading] is the container's setter. *)
Variable onLoginSuccess : Js.val -> Js.val -> Eff unit.
(** [String.prototype.toLowerCase], the engine's Unicode case mapping. *)
Variable toLowerCase : jsstr -> jsstr.

Definition handleLogin (net : Settled Response) : Handler := fun self =>
  valid ← validateLoginForm self;
  if negb valid then mret tt
  else
    setIsLoading true ;;
    try_finally
      (try_catch
         (response ← fetch (loginRequest (cred_email (credentials self))
                                         (cred_password (credentials self))) net;
          data ← await (json response);
          if ok response then
            u ← prop data "user";
            access_token ← prop data "access_token";
            onLoginSuccess u access_token ;;
            setCredentials (mkCredentials [] [])
          else
            detail ← prop data "detail";
            alert (LoginError
                     (Js.or_else detail (Js.Str (Js.lit "Email ou senha incorretos.")))))
         (fun error =>
            console_error error ;;
            alert ConnectionError))
      (setIsLoading false).

Definition handleRegister (net : Settled Response) : Handler := fun self =>
  valid ← validateRegisterForm self;
  if negb valid then mret tt
  else
    let registerData := registerData self in
    setIsLoading true ;;
    try_finally
      (try_catch
         (response ← fetch (registerRequest (Js.trim (name registerData))
                                            (toLowerCase (email registerData))
                                            (password registerData)) net;
          data ← await (json response);
          if ok response then
            alert RegisterDone ;;
            setRegisterData emptyRegisterData ;;
            setLoginMode traditional ;;
            setCredentials (mkCredentials (email registerData) [])
          else
            detail ← prop data "detail";
            let errorMessage :=
              Js.or_else detail (Js.Str (Js.lit "Erro desconhecido no cadastro.")) in
            alert (RegisterError errorMessage))
         (fun error =>
            console_error error ;;
            alert ConnectionError))
      (setIsLoading false).

Definition handleGoogleSuccess (userData : Js.val) (net : Settled Response) : Eff unit :=
  setIsLoading true ;;
  try_finally
    (try_catch
       (console_log ;;
        response ← fetch (googleRequest userData) net;
        data ← await (json response);
        if ok response then
          u ← prop data "user";
          access_token ← prop data "access_token";
          onLoginSuccess u access_token
        else
          detail ← prop data "detail";
          alert (GoogleLoginError
                   (Js.or_else detail (Js.Str (Js.lit "Erro desconhecido.")))))
       (fun error =>
          console_error error ;;
          alert GoogleConnectionError))
    (setIsLoading false).

End Props.

Definition handleGoogleError (error : Js.error) : Eff unit :=
  console_error error ;; alert GoogleLoginFailed.

(** The [onChange] of the login form's inputs:
    [setCredentials({...credentials, email: e.target.value})] and the
    like for the password. *)
Definition changeLoginEmail (value : jsstr) : Handler := fun self =>
  setCredentials (mkCredentials value (cred_password (credentials self))).

Definition changeLoginPassword (value : jsstr) : Handler := fun self =>
  setCredentials (mkCredentials (cred_email (credentials self)) value).

Definition handleTabSwitch (mode : LoginMode) : Eff unit :=
  setLoginMode mode ;;
  match mode with
  | traditional => setRegisterData emptyRegisterData
  | register => setCredentials (mkCredentials [] [])
  end.

(** The [<GoogleLoginButton onSuccess={handleGoogleSuccess}
    onError={handleGoogleError} disabled={isLoading} />] of the login
    form, clicked: [disabled] is the [isLoading] prop of the render. *)
Definition clickGoogle (onLoginSuccess : Js.val -> Js.val -> Eff unit)
  (disabled : bool) (net : Settled Response) : Eff unit :=
  GoogleLoginButton.handleGoogleLogin disabled
    (fun userData => handleGoogleSuccess onLoginSuccess userData net)
    handleGoogleError.

End LoginView.

(* ===================================================================== *)
(** ** [AskFileSystem], anonymous-session variant
       (codigo/frontend/src/App.js) *)
(* ===================================================================== *)

Module AppSession.
Import Model.

(** [useState] initial values; [sessionId] is what the initialiser of
    [userSessionId] returned. *)
Definition initialState (sessionId : jsstr) : AppState :=
  mkApp Js.Undefined chat [] [] false (Js.Arr []) [] None false sessionId.

(** [defaultUser.email] *)
Definition email (self : AppState) : jsstr :=
  userSessionId self ++ Js.lit "@askfile.com".

Definition quickSuggestions : list jsstr :=
  [ Js.lit "Resuma os principais pontos do documento";
    Js.lit "Quais s" ++ [227%N] ++ Js.lit "o as informa" ++ [231%N; 245%N]
      ++ Js.lit "es mais importantes?";
    Js.lit "Explique o contexto geral do arquivo";
    Js.lit "H" ++ [225%N] ++ Js.lit " alguma conclus" ++ [227%N]
      ++ Js.lit "o ou resultado destacado?";
    Js.lit "Quais dados num" ++ [233%N] ++ Js.lit "ricos s" ++ [227%N]
      ++ Js.lit "o mencionados?" ].


Section Typing.
(** [String.prototype.toLowerCase], the engine's Unicode case mapping. *)
Variable toLowerCase : jsstr -> jsstr.

Definition handleInputChange (value : jsstr) : Handler := fun _ =>
  setCurrentMessage value ;;
  if Js.eqb value [] then setSuggestions []
  else
    let filteredSuggestions :=
      List.filter (fun s => Js.includes (toLowerCase s) (toLowerCase value))
        quickSuggestions in
    setSuggestions filteredSuggestions.
End Typing.

Definition chatRequest (question : jsstr) (file_id : Js.val) (user_email : jsstr) : Request :=
  mkRequest POST "/api/chat" []
    [("Content-Type", Js.lit "application/json"); ("Accept", Js.lit "application/json")]
    true
    (JsonBody (Js.Obj [ (Js.lit "question", Js.Str question);
                        (Js.lit "file_id", file_id);
                        (Js.lit "user_email", Js.Str user_email) ])).

(** The text of the apology the [catch] block puts in the transcript:
    "Desculpe, não consegui obter uma resposta. Erro: <message>". *)
Definition apology (message : jsstr) : jsstr :=
  Js.lit "Desculpe, n" ++ [227%N] ++ Js.lit "o consegui obter uma resposta. Erro: "
    ++ message.

(** [handleSendMessage]. [sentAt] and [settledAt] are the two readings of
    the clock, [net] is how the [fetch] settles. *)
Definition handleSendMessage (sentAt : jsstr) (net : Settled Response) (settledAt : jsstr)
  : Handler := fun self =>
  if Js.eqb (Js.trim (currentMessage self)) [] || isLoading self then mret tt
  else
    match uploadedFile self with
    | None => alert UploadPdfFirst
    | Some file =>
        setIsLoading true ;;
        setSuggestions [] ;;
        let newUserMessage :=
          Message.mk (length (chatMessages self) + 1)%nat (Js.Str (currentMessage self))
            User sentAt (Js.Arr []) false in
        setChatMessages_with (fun prevMessages => prevMessages ++ [newUserMessage]) ;;
        let questionToSend := currentMessage self in
        setCurrentMessage [] ;;
        try_finally
          (try_catch
             (console_log ;;
              response ← fetch (chatRequest questionToSend (UploadedFile.id file) (email self)) net;
              if negb (ok response) then
                errorText ← await (text response);
                throw (Js.Error (Js.lit "HTTP " ++ Js.of_N (status response)
                                   ++ Js.lit ": " ++ errorText))
              else
                data ← await (json response);
                console_log ;;
                answer ← prop data "answer";
                srcs ← prop data "sources";
                let botMessage :=
                  Message.mk (length (chatMessages self) + 2)%nat answer Bot settledAt
                    (Js.or_else srcs (Js.Arr [])) false in
                setChatMessages_with (fun prevMessages => prevMessages ++ [botMessage]))
             (fun error =>
                console_error error ;;
                setChatMessages_with (fun prevMessages =>
                  prevMessages ++
                  [Message.mk (length prevMessages + 2)%nat
                     (Js.Str (apology (Js.message error))) Bot settledAt
                     Js.Undefined true])))
          (setIsLoading false)
    end.



Definition uploadRequest (file : File.t) (user_email : jsstr) : Request :=
  mkRequest POST "/api/upload/" [] [] true (FormBody file [("user_email", user_email)]).

(** "Resposta inválida do servidor" *)
Definition invalidResponse : jsstr :=
  Js.lit "Resposta inv" ++ [225%N] ++ Js.lit "lida do servidor".

(** [handleFileUpload]; [now] is [new Date().toISOString()]. *)
Definition handleFileUpload (file : option File.t) (net : Settled Response) (now : jsstr)
  : Handler := fun self =>
  match file with
  | None => alert NoFileSelected
  | Some file =>
      if negb (Js.eqb (File.type file) (Js.lit "application/pdf"))
      then alert OnlyPdfAccepted
      else
        setUploadedFile None ;;
        setChatMessages [] ;;
        setCurrentMessage [] ;;
        setSuggestions [] ;;
        setFileProcessing true ;;
        try_finally
          (try_catch
             (console_log ;;
              response ← fetch (uploadRequest file (email self)) net;
              if negb (ok response) then
                errorText ← await (text response);
                throw (Js.Error (Js.lit "HTTP " ++ Js.of_N (status response)
                                   ++ Js.lit ": " ++ errorText))
              else
                data ← await (json response);
                console_log ;;
                file_id ← prop data "file_id";
                if Js.truthy file_id then
                  summary ← prop data "summary";
                  file_removed ← prop data "file_removed";
                  setUploadedFile (Some (UploadedFile.mk file_id (File.name file) summary now
                                           (Js.or_else file_removed (Js.Bool false)))) ;;
                  alert (FileProcessed (File.name file)) ;;
                  console_log
                else throw (Js.Error invalidResponse))
             (fun error =>
                console_error error ;;
                alert (UploadFailed (Js.message error)) ;;
                setUploadedFile None ;;
                setChatMessages []))
          (setFileProcessing false)
  end.

(** [handleChangeFile]: [answer] is the user's reply to the confirmation,
    [picked] the file chosen in the picker it opens (none when the picker
    is dismissed); the picker's [onchange] then runs the upload. *)
Definition handleChangeFile (answer : bool) (picked : option File.t)
  (net : Settled Response) (now : jsstr) : Handler := fun self =>
  confirmChange ← confirm ConfirmChangeFile answer;
  if (confirmChange : bool) then
    setUploadedFile None ;;
    setChatMessages [] ;;
    setCurrentMessage [] ;;
    setSuggestions [] ;;
    perform OpenFilePicker ;;
    match picked with
    | Some file => handleFileUpload (Some file) net now self
    | None => mret tt
    end
  else mret tt.

Definition historyRequest (user_email : jsstr) : Request :=
  mkRequest GET "/api/history" [("user_email", user_email)]
    [("Accept", Js.lit "application/json")] true NoBody.

(** [fetchUserHistory] *)
Definition fetchUserHistory (net : Settled Response) : Handler := fun self =>
  setIsLoading true ;;
  try_finally
    (try_catch
       (console_log ;;
        response ← fetch (historyRequest (email self)) net;
        if negb (ok response) then
          errorText ← await (text response);
          throw (Js.Error (Js.lit "HTTP " ++ Js.of_N (status response)
                             ++ Js.lit ": " ++ errorText))
        else
          data ← await (json response);
          h ← prop data "history";
          setUserHistory (Js.or_else h (Js.Arr [])))
       (fun error =>
          console_error error ;;
          setUserHistory (Js.Arr [])))
    (setIsLoading false).

Definition deleteHistoryRequest (user_email : jsstr) : Request :=
  mkRequest DELETE "/api/history" [("user_email", user_email)] [] true NoBody.

(** [handleLogout]: the session is not closed, its data is cleared. *)
Definition handleLogout (answer : bool) (net : Settled Response) : Handler := fun self =>
  confirmClear ← confirm ConfirmClearSession answer;
  if (confirmClear : bool) then
    try_catch
      (fetch (deleteHistoryRequest (email self)) net ;; mret tt)
      (fun error => console_error error) ;;
    setChatMessages [] ;;
    setUploadedFile None ;;
    setUserHistory (Js.Arr []) ;;
    setCurrentMessage [] ;;
    setSuggestions [] ;;
    alert SessionDataCleared
  else mret tt.

(** The closing [switch (currentView)]. *)
Definition render (self : AppState) : Screen :=
  match currentView self with
  | history => HistoryScreen
  | _ => ChatScreen
  end.

(** [<HistoryView {...sharedProps} />] mounting: its effect runs with the
    [fetchUserHistory] of [sharedProps]. *)
Definition mountHistoryView (net : Settled Response) : Handler := fun self =>
  HistoryView.onMount (Some (fetchUserHistory net self)).


End AppSession.

(* ===================================================================== *)
(** ** The session page driven by its events *)
(* ===================================================================== *)

Module SessionPage.
Import Model.


Section Typing.
Variable toLowerCase : jsstr -> jsstr.



End Typing.

(** The value a list of named fields gives a name (the first, as
    [URLSearchParams.get] and [FormData.get] do). *)
Fixpoint field (k : string) (l : list (string * jsstr)) : option jsstr :=
  match l with
  | [] => None
  | (k', x) :: rest => if String.eqb k' k then Some x else field k rest
  end.

(** The [user_email] a request names, in its query string, its form
    fields or its JSON body. *)
Definition user_email (r : Request) : option jsstr :=
  match field "user_email" (query r) with
  | Some e => Some e
  | None =>
      match body r with
      | FormBody _ fields => field "user_email" fields
      | JsonBody (Js.Obj fields) =>
          match Js.lookup_field (Js.lit "user_email") fields with
          | Js.Str e => Some e
          | _ => None
          end
      | _ => None
      end
  end.


End SessionPage.

(* ===================================================================== *)
(** ** [AskFileSystem], anonymous-session variant, first version
       (the copy that also offers "new session") *)
(* ===================================================================== *)

Module AppSessionV1.
Import Model.

Definition initialState (sessionId : jsstr) : AppState :=
  mkApp Js.Undefined chat [] [] false (Js.Arr []) [] None false sessionId.

Definition email (self : AppState) : jsstr :=
  userSessionId self ++ Js.lit "@askfile.com".

(** [generateSessionId]: [now] is [Date.now()] and [random36] is
    [Math.random().toString(36)]. *)
Definition generateSessionId (now : N) (random36 : jsstr) : jsstr :=
  Js.lit "user_" ++ Js.of_N now ++ Js.lit "_" ++ Js.substr 2 9 random36.

(** Mounting the component: every cell takes its initial value, the
    session identifier being read from [localStorage] or created there. *)
Definition mount (now : N) (random36 : jsstr) : Eff unit :=
  saved ← getItem "askfile_session_id";
  match (saved : option jsstr) with
  | Some (c :: s) => update (fun _ => initialState (c :: s))
  | _ =>
      let sessionId := generateSessionId now random36 in
      setItem "askfile_session_id" sessionId ;;
      update (fun _ => initialState sessionId)
  end.

Definition chatRequest (question : jsstr) (file_id : Js.val) (user_email : jsstr) : Request :=
  mkRequest POST "/api/chat" [] [("Content-Type", Js.lit "application/json")] false
    (JsonBody (Js.Obj [ (Js.lit "question", Js.Str question);
                        (Js.lit "file_id", file_id);
                        (Js.lit "user_email", Js.Str user_email) ])).

(** "Desculpe, não consegui obter uma resposta. (Erro: <message>)" *)
Definition apology (message : jsstr) : jsstr :=
  Js.lit "Desculpe, n" ++ [227%N] ++ Js.lit "o consegui obter uma resposta. (Erro: "
    ++ message ++ Js.lit ")".

Definition httpError (r : Response) : Js.error :=
  Js.Error (Js.lit "HTTP error! status: " ++ Js.of_N (status r)).

Definition handleSendMessage (sentAt : jsstr) (net : Settled Response) (settledAt : jsstr)
  : Handler := fun self =>
  if Js.eqb (Js.trim (currentMessage self)) [] || isLoading self then mret tt
  else
    match uploadedFile self with
    | None => alert UploadPdfFirst
    | Some file =>
        setIsLoading true ;;
        setSuggestions [] ;;
        let newUserMessage :=
          Message.mk (length (chatMessages self) + 1)%nat (Js.Str (currentMessage self))
            User sentAt (Js.Arr []) false in
        setChatMessages_with (fun prevMessages => prevMessages ++ [newUserMessage]) ;;
        let questionToSend := currentMessage self in
        setCurrentMessage [] ;;
        try_finally
          (try_catch
             (response ← fetch (chatRequest questionToSend (UploadedFile.id file) (email self)) net;
              if negb (ok response) then throw (httpError response)
              else
                data ← await (json response);
                console_log ;;
                answer ← prop data "answer";
                srcs ← prop data "sources";
                let botMessage :=
                  Message.mk (length (chatMessages self) + 2)%nat answer Bot settledAt
                    (Js.or_else srcs (Js.Arr [])) false in
                setChatMessages_with (fun prevMessages => prevMessages ++ [botMessage]))
             (fun error =>
                console_error error ;;
                setChatMessages_with (fun prevMessages =>
                  prevMessages ++
                  [Message.mk (length prevMessages + 2)%nat
                     (Js.Str (apology (Js.message error))) Bot settledAt
                     Js.Undefined true])))
          (setIsLoading false)
    end.

Definition uploadRequest (file : File.t) (user_email : jsstr) : Request :=
  mkRequest POST "/api/upload" [] [] false (FormBody file [("user_email", user_email)]).

(** [new Error(data.detail || `Erro ao processar arquivo: ${response.statusText}`)] *)
Definition uploadError (detail : Js.val) (r : Response) : Js.error :=
  Js.Error (Js.to_string
    (Js.or_else detail (Js.Str (Js.lit "Erro ao processar arquivo: " ++ statusText r)))).

Definition handleFileUpload (file : option File.t) (net : Settled Response) (now : jsstr)
  : Handler := fun self =>
  match file with
  | None => alert NoFileSelected
  | Some file =>
      if negb (Js.eqb (File.type file) (Js.lit "application/pdf"))
      then alert OnlyPdfAccepted
      else
        setUploadedFile None ;;
        setChatMessages [] ;;
        setCurrentMessage [] ;;
        setSuggestions [] ;;
        setFileProcessing true ;;
        try_finally
          (try_catch
             (response ← fetch (uploadRequest file (email self)) net;
              data ← await (json response);
              if ok response then
                file_id ← prop data "file_id";
                summary ← prop data "summary";
                file_removed ← prop data "file_removed";
                setUploadedFile (Some (UploadedFile.mk file_id (File.name file) summary now
                                         (Js.or_else file_removed (Js.Bool false)))) ;;
                alert (FileProcessed (File.name file)) ;;
                console_log
              else
                detail ← prop data "detail";
                throw (uploadError detail response))
             (fun error =>
                console_error error ;;
                alert (UploadFailed (Js.message error)) ;;
                setUploadedFile None ;;
                setChatMessages []))
          (setFileProcessing false)
  end.

Definition historyRequest (user_email : jsstr) : Request :=
  mkRequest GET "/api/history" [("user_email", user_email)] [] false NoBody.

Definition fetchUserHistory (net : Settled Response) : Handler := fun self =>
  setIsLoading true ;;
  try_finally
    (try_catch
       (response ← fetch (historyRequest (email self)) net;
        if negb (ok response) then throw (httpError response)
        else
          data ← await (json response);
          h ← prop data "history";
          setUserHistory (Js.or_else h (Js.Arr [])))
       (fun error =>
          console_error error ;;
          setUserHistory (Js.Arr [])))
    (setIsLoading false).

Definition deleteHistoryRequest (user_email : jsstr) : Request :=
  mkRequest DELETE "/api/history" [("user_email", user_email)] [] false NoBody.

Definition handleLogout (answer : bool) (net : Settled Response) : Handler := fun self =>
  confirmClear ← confirm ConfirmClearSession answer;
  if (confirmClear : bool) then
    try_catch
      (fetch (deleteHistoryRequest (email self)) net ;; mret tt)
      (fun error => console_error error) ;;
    setChatMessages [] ;;
    setUploadedFile None ;;
    setUserHistory (Js.Arr []) ;;
    setCurrentMessage [] ;;
    setSuggestions [] ;;
    alert SessionDataCleared
  else mret tt.

(** [handleNewSession]: the stored identifier is dropped and the page is
    reloaded, which mounts the component afresh ([now] and [random36] are
    what the new mount reads). *)
Definition handleNewSession (answer : bool) (now : N) (random36 : jsstr) : Handler := fun _ =>
  confirmNew ← confirm ConfirmNewSession answer;
  if (confirmNew : bool) then
    removeItem "askfile_session_id" ;;
    perform Reload ;;
    mount now random36
  else mret tt.

End AppSessionV1.

(* ===================================================================== *)
(** ** [AskFileSystem], token-authenticated variant *)
(* ===================================================================== *)

Module AppToken.
Import Model.

Definition initialState : AppState :=
  mkApp Js.Null login [] [] false (Js.Arr []) [] None false [].

(** The mount effect that restores a saved login; [parsed] is how
    [JSON.parse(savedUser)] ends. *)
Definition restoreUser (parsed : Settled Js.val) : Eff unit :=
  token ← getItem "token";
  savedUser ← getItem "user";
  match (token : option jsstr), (savedUser : option jsstr) with
  | Some (_ :: _), Some (_ :: _) =>
      try_catch
        (userData ← await parsed;
         setUser userData ;;
         setCurrentView chat)
        (fun error =>
           console_error error ;;
           removeItem "token" ;;
           removeItem "user")
  | _, _ => mret tt
  end.

(** Mounting the component (a page load): every cell takes its initial
    value, those of [LoginView] included, and the restoring effect runs. *)
Definition mount (parsed : Settled Js.val) : Eff unit :=
  update (fun _ => initialState) ;;
  update_login (fun _ => LoginView.initialState) ;;
  restoreUser parsed.

(** [onLoginSuccess]; [JSON_stringify] is the engine's serialiser. *)
Definition onLoginSuccess (JSON_stringify : Js.val -> jsstr) (userData token : Js.val)
  : Eff unit :=
  console_log ;;
  setUser userData ;;
  setCurrentView chat ;;
  (if Js.truthy token then setItem "token" (Js.to_string token) else mret tt) ;;
  (if Js.truthy userData then setItem "user" (JSON_stringify userData) else mret tt).

Definition handleLogout : Handler := fun _ =>
  setUser Js.Null ;;
  setChatMessages [] ;;
  setUploadedFile None ;;
  setCurrentView login ;;
  removeItem "token" ;;
  removeItem "user" ;;
  alert Disconnected.

(** [`Bearer ${token}`] for what [localStorage.getItem('token')] gave. *)
Definition bearer (token : option jsstr) : jsstr :=
  Js.lit "Bearer " ++ match token with Some s => s | None => Js.lit "null" end.

Definition chatRequest (token : option jsstr) (question : jsstr) (file_id : Js.val) : Request :=
  mkRequest POST "/api/chat" []
    [("Content-Type", Js.lit "application/json"); ("Authorization", bearer token)] false
    (JsonBody (Js.Obj [ (Js.lit "question", Js.Str question);
                        (Js.lit "file_id", file_id) ])).

(** "Desculpe, não consegui obter uma resposta. Por favor, tente
    novamente. (Erro: <message>)" *)
Definition apology (message : jsstr) : jsstr :=
  Js.lit "Desculpe, n" ++ [227%N]
    ++ Js.lit "o consegui obter uma resposta. Por favor, tente novamente. (Erro: "
    ++ message ++ Js.lit ")".

Definition httpError (r : Response) : Js.error :=
  Js.Error (Js.lit "HTTP error! status: " ++ Js.of_N (status r)).

Definition handleSendMessage (sentAt : jsstr) (net : Settled Response) (settledAt : jsstr)
  : Handler := fun self =>
  if Js.eqb (Js.trim (currentMessage self)) [] || isLoading self then mret tt
  else
    match uploadedFile self with
    | None => alert UploadPdfFirst
    | Some file =>
        setIsLoading true ;;
        setSuggestions [] ;;
        let newUserMessage :=
          Message.mk (length (chatMessages self) + 1)%nat (Js.Str (currentMessage self))
            User sentAt (Js.Arr []) false in
        setChatMessages_with (fun prevMessages => prevMessages ++ [newUserMessage]) ;;
        let questionToSend := currentMessage self in
        setCurrentMessage [] ;;
        try_finally
          (try_catch
             (token ← getItem "token";
              response ← fetch (chatRequest token questionToSend (UploadedFile.id file)) net;
              if negb (ok response) then
                if (status response =? 401)%N then
                  alert SessionExpired ;;
                  handleLogout self
                else throw (httpError response)
              else
                data ← await (json response);
                console_log ;;
                answer ← prop data "answer";
                srcs ← prop data "sources";
                let botMessage :=
                  Message.mk (length (chatMessages self) + 2)%nat answer Bot settledAt
                    (Js.or_else srcs (Js.Arr [])) false in
                setChatMessages_with (fun prevMessages => prevMessages ++ [botMessage]))
             (fun error =>
                console_error error ;;
                setChatMessages_with (fun prevMessages =>
                  prevMessages ++
                  [Message.mk (length prevMessages + 2)%nat
                     (Js.Str (apology (Js.message error))) Bot settledAt
                     Js.Undefined true])))
          (setIsLoading false)
    end.

Definition uploadRequest (token : option jsstr) (file : File.t) : Request :=
  mkRequest POST "/api/upload" [] [("Authorization", bearer token)] false (FormBody file []).

Definition uploadError (detail : Js.val) (r : Response) : Js.error :=
  Js.Error (Js.to_string
    (Js.or_else detail (Js.Str (Js.lit "Erro ao processar arquivo: " ++ statusText r)))).

(** [handleFileUpload]. The type test is written
    [!file.type === 'application/pdf']: the negation applies to
    [file.type] alone, and its boolean is compared with the string. *)
Definition handleFileUpload (file : option File.t) (net : Settled Response) (now : jsstr)
  : Handler := fun self =>
  match file with
  | None => alert NoFileSelected
  | Some file =>
      if Js.strict_equal (Js.Bool (negb (Js.truthy (Js.Str (File.type file)))))
                         (Js.Str (Js.lit "application/pdf"))
      then alert OnlyPdfAccepted
      else
        setFileProcessing true ;;
        try_finally
          (try_catch
             (token ← getItem "token";
              response ← fetch (uploadRequest token file) net;
              data ← await (json response);
              if ok response then
                file_id ← prop data "file_id";
                summary ← prop data "summary";
                setUploadedFile (Some (UploadedFile.mk file_id (File.name file) summary now
                                         Js.Undefined)) ;;
                setChatMessages [] ;;
                alert (FileProcessed (File.name file))
              else
                detail ← prop data "detail";
                throw (uploadError detail response))
             (fun error =>
                console_error error ;;
                alert (UploadFailed (Js.message error))))
          (setFileProcessing false)
  end.

Definition historyRequest (token : option jsstr) : Request :=
  mkRequest GET "/api/history" [] [("Authorization", bearer token)] false NoBody.

Definition fetchUserHistory (net : Settled Response) : Handler := fun self =>
  if negb (Js.truthy (user self)) then mret tt
  else
    setIsLoading true ;;
    try_finally
      (try_catch
         (token ← getItem "token";
          response ← fetch (historyRequest token) net;
          if negb (ok response) then throw (httpError response)
          else
            data ← await (json response);
            h ← prop data "history";
            setUserHistory h)
         (fun error =>
            console_error error ;;
            setUserHistory (Js.Arr [])))
      (setIsLoading false).

(** The effect that follows a render: in the history view a logged-in
    user's history is fetched. *)
Definition historyEffect (net : Settled Response) : Handler := fun self =>
  match currentView self with
  | history => if Js.truthy (user self) then fetchUserHistory net self else mret tt
  | _ => mret tt
  end.

(** [if (!user) return <LoginView/>], then the [switch (currentView)]. *)
Definition render (self : AppState) : Screen :=
  if negb (Js.truthy (user self)) then LoginScreen
  else
    match currentView self with
    | history => HistoryScreen
    | _ => ChatScreen
    end.

End AppToken.

(* ===================================================================== *)
(** ** [AskFileSystem], variant without authentication *)
(* ===================================================================== *)

Module AppNoAuth.
Import Model.

Definition initialState : AppState :=
  mkApp Js.Undefined chat [] [] false (Js.Arr []) [] None false [].

(** [defaultUser.email] *)
Definition email : jsstr := Js.lit "usuario@askfile.com".

Definition chatRequest (question : jsstr) (file_id : Js.val) : Request :=
  mkRequest POST "/api/chat" [] [("Content-Type", Js.lit "application/json")] false
    (JsonBody (Js.Obj [ (Js.lit "question", Js.Str question);
                        (Js.lit "file_id", file_id);
                        (Js.lit "user_email", Js.Str email) ])).

Definition handleSendMessage (sentAt : jsstr) (net : Settled Response) (settledAt : jsstr)
  : Handler := fun self =>
  if Js.eqb (Js.trim (currentMessage self)) [] || isLoading self then mret tt
  else
    match uploadedFile self with
    | None => alert UploadPdfFirst
    | Some file =>
        setIsLoading true ;;
        setSuggestions [] ;;
        let newUserMessage :=
          Message.mk (length (chatMessages self) + 1)%nat (Js.Str (currentMessage self))
            User sentAt (Js.Arr []) false in
        setChatMessages_with (fun prevMessages => prevMessages ++ [newUserMessage]) ;;
        let questionToSend := currentMessage self in
        setCurrentMessage [] ;;
        try_finally
          (try_catch
             (response ← fetch (chatRequest questionToSend (UploadedFile.id file)) net;
              if negb (ok response) then throw (AppToken.httpError response)
              else
                data ← await (json response);
                console_log ;;
                answer ← prop data "answer";
                srcs ← prop data "sources";
                let botMessage :=
                  Message.mk (length (chatMessages self) + 2)%nat answer Bot settledAt
                    (Js.or_else srcs (Js.Arr [])) false in
                setChatMessages_with (fun prevMessages => prevMessages ++ [botMessage]))
             (fun error =>
                console_error error ;;
                setChatMessages_with (fun prevMessages =>
                  prevMessages ++
                  [Message.mk (length prevMessages + 2)%nat
                     (Js.Str (AppToken.apology (Js.message error))) Bot settledAt
                     Js.Undefined true])))
          (setIsLoading false)
    end.

Definition uploadRequest (file : File.t) : Request :=
  mkRequest POST "/api/upload" [] [] false (FormBody file [("user_email", email)]).

(** [handleFileUpload], with the same [!file.type === 'application/pdf']
    test as the token variant. *)
Definition handleFileUpload (file : option File.t) (net : Settled Response) (now : jsstr)
  : Handler := fun self =>
  match file with
  | None => alert NoFileSelected
  | Some file =>
      if Js.strict_equal (Js.Bool (negb (Js.truthy (Js.Str (File.type file)))))
                         (Js.Str (Js.lit "application/pdf"))
      then alert OnlyPdfAccepted
      else
        setFileProcessing true ;;
        try_finally
          (try_catch
             (response ← fetch (uploadRequest file) net;
              data ← await (json response);
              if ok response then
                file_id ← prop data "file_id";
                summary ← prop data "summary";
                setUploadedFile (Some (UploadedFile.mk file_id (File.name file) summary now
                                         Js.Undefined)) ;;
                setChatMessages [] ;;
                alert (FileProcessed (File.name file))
              else
                detail ← prop data "detail";
                throw (AppToken.uploadError detail response))
             (fun error =>
                console_error error ;;
                alert (UploadFailed (Js.message error))))
          (setFileProcessing false)
  end.

Definition historyRequest : Request :=
  mkRequest GET "/api/history" [("user_email", email)] [] false NoBody.

Definition fetchUserHistory (net : Settled Response) : Handler := fun self =>
  setIsLoading true ;;
  try_finally
    (try_catch
       (response ← fetch historyRequest net;
        if negb (ok response) then throw (AppToken.httpError response)
        else
          data ← await (json response);
          h ← prop data "history";
          setUserHistory h)
       (fun error =>
          console_error error ;;
          setUserHistory (Js.Arr [])))
    (setIsLoading false).

(** [handleLogout]: "now it only clears the data". *)
Definition handleLogout : Handler := fun _ =>
  setChatMessages [] ;;
  setUploadedFile None ;;
  setUserHistory (Js.Arr []) ;;
  alert DataCleared.

End AppNoAuth.

(* ===================================================================== *)
(** ** The four variants side by side *)
(* ===================================================================== *)

Module Variants.
Import Model.

(** The coexisting [AskFileSystem] entry components. *)
Inductive Variant : Type := Session | SessionV1 | Token | NoAuth.

Definition handleSendMessage (v : Variant)
  : jsstr -> Settled Response -> jsstr -> Handler :=
  match v with
  | Session => AppSession.handleSendMessage
  | SessionV1 => AppSessionV1.handleSendMessage
  | Token => AppToken.handleSendMessage
  | NoAuth => AppNoAuth.handleSendMessage
  end.

Definition handleFileUpload (v : Variant)
  : option File.t -> Settled Response -> jsstr -> Handler :=
  match v with
  | Session => AppSession.handleFileUpload
  | SessionV1 => AppSessionV1.handleFileUpload
  | Token => AppToken.handleFileUpload
  | NoAuth => AppNoAuth.handleFileUpload
  end.

Definition fetchUserHistory (v : Variant) : Settled Response -> Handler :=
  match v with
  | Session => AppSession.fetchUserHistory
  | SessionV1 => AppSessionV1.fetchUserHistory
  | Token => AppToken.fetchUserHistory
  | NoAuth => AppNoAuth.fetchUserHistory
  end.

(** [handleLogout]; only the session variants ask for confirmation
    ([answer]) and call the backend ([net]). *)
Definition handleLogout (v : Variant) (answer : bool) (net : Settled Response) : Handler :=
  match v with
  | Session => AppSession.handleLogout answer net
  | SessionV1 => AppSessionV1.handleLogout answer net
  | Token => AppToken.handleLogout
  | NoAuth => AppNoAuth.handleLogout
  end.

(** The request each variant builds, on the page [w]: for a question about
    the file [file_id], for the upload of [file], for the history. *)
Definition chatRequest (v : Variant) (w : World) (question : jsstr) (file_id : Js.val)
  : Request :=
  match v with
  | Session => AppSession.chatRequest question file_id (AppSession.email (app w))
  | SessionV1 => AppSessionV1.chatRequest question file_id (AppSessionV1.email (app w))
  | Token => AppToken.chatRequest (localStorage w !! "token") question file_id
  | NoAuth => AppNoAuth.chatRequest question file_id
  end.

Definition uploadRequest (v : Variant) (w : World) (file : File.t) : Request :=
  match v with
  | Session => AppSession.uploadRequest file (AppSession.email (app w))
  | SessionV1 => AppSessionV1.uploadRequest file (AppSessionV1.email (app w))
  | Token => AppToken.uploadRequest (localStorage w !! "token") file
  | NoAuth => AppNoAuth.uploadRequest file
  end.

Definition historyRequest (v : Variant) (w : World) : Request :=
  match v with
  | Session => AppSession.historyRequest (AppSession.email (app w))
  | SessionV1 => AppSessionV1.historyRequest (AppSessionV1.email (app w))
  | Token => AppToken.historyRequest (localStorage w !! "token")
  | NoAuth => AppNoAuth.historyRequest
  end.

(** The value [useState] gives [currentView] on mount. *)
Definition initialView (v : Variant) : View :=
  match v with
  | Session => currentView (AppSession.initialState [])
  | SessionV1 => currentView (AppSessionV1.initialState [])
  | Token => currentView AppToken.initialState
  | NoAuth => currentView AppNoAuth.initialState
  end.

(** The variants that clear the page's data before an upload and record
    [isTemporary]. *)
Definition clearsBeforeUpload (v : Variant) : bool :=
  match v with
  | Session | SessionV1 => true
  | Token | NoAuth => false
  end.

End Variants.

(* ===================================================================== *)
(** ** Sample pages, files and responses *)
(* ===================================================================== *)

Module Examples.
Import Model.

(** JSON text of a value whose strings need no escaping. *)
Fixpoint show (v : Js.val) : jsstr :=
  match v with
  | Js.Undefined | Js.Null => Js.lit "null"
  | Js.Str s => [34%N] ++ s ++ [34%N]
  | Js.Arr items =>
      Js.lit "[" ++
      (fix elems (l : list Js.val) : jsstr :=
         match l with
         | [] => []
         | x :: rest =>
             show x ++ match rest with [] => [] | _ :: _ => Js.lit "," ++ elems rest end
         end) items ++ Js.lit "]"
  | Js.Obj fields =>
      Js.lit "{" ++
      (fix members (l : list (jsstr * Js.val)) : jsstr :=
         match l with
         | [] => []
         | (k, x) :: rest =>
             [34%N] ++ k ++ [34%N] ++ Js.lit ":" ++ show x ++
             match rest with [] => [] | _ :: _ => Js.lit "," ++ members rest end
         end) fields ++ Js.lit "}"
  | other => Js.to_string other
  end.

(** A response with a JSON body. *)
Definition jsonResponse (status : N) (statusText : string) (data : Js.val) : Response :=
  mkResponse status (Js.lit statusText) (Fulfilled (show data)) (Fulfilled data).

Definition respond (status : N) (statusText : string) (data : Js.val) : Settled Response :=
  Fulfilled (jsonResponse status statusText data).

(** A response whose body is plain text, not JSON. *)
Definition textResponse (status : N) (statusText body : string) : Response :=
  mkResponse status (Js.lit statusText) (Fulfilled (Js.lit body))
    (Rejected (Js.Error (Js.lit "Unexpected token in JSON at position 0"))).

Definition respondText (status : N) (statusText body : string) : Settled Response :=
  Fulfilled (textResponse status statusText body).

Definition offline : Settled Response := Rejected (Js.Error (Js.lit "Failed to fetch")).

Definition serverError : Settled Response :=
  respondText 500 "Internal Server Error" "Internal Server Error".

Definition unauthorized : Settled Response :=
  respond 401 "Unauthorized" (Js.Obj [(Js.lit "detail", Js.Str (Js.lit "Not authenticated"))]).

Definition answered : Settled Response :=
  respond 200 "OK" (Js.Obj [ (Js.lit "answer", Js.Str (Js.lit "It is about whales."));
                             (Js.lit "sources", Js.Arr []) ]).

Definition uploaded : Settled Response :=
  respond 200 "OK" (Js.Obj [ (Js.lit "file_id", Js.Str (Js.lit "f-2"));
                             (Js.lit "summary", Js.Str (Js.lit "A book about whales."));
                             (Js.lit "file_removed", Js.Bool true) ]).

Definition pastQuestion : Js.val :=
  Js.Obj [ (Js.lit "question", Js.Str (Js.lit "Who is Ishmael?"));
           (Js.lit "answer", Js.Str (Js.lit "The narrator.")) ].

Definition historyOf (entries : list Js.val) : Settled Response :=
  respond 200 "OK" (Js.Obj [(Js.lit "history", Js.Arr entries)]).

Definition report_pdf : File.t := File.mk (Js.lit "report.pdf") (Js.lit "application/pdf").
Definition notes_txt : File.t := File.mk (Js.lit "notes.txt") (Js.lit "text/plain").

Definition indexed : UploadedFile.t :=
  UploadedFile.mk (Js.Str (Js.lit "f-1")) (Js.lit "report.pdf")
    (Js.Str (Js.lit "A report.")) (Js.lit "2025-01-01T00:00:00.000Z") (Js.Bool true).

Definition sessionId : jsstr := Js.lit "user_1700000000000_k3j9x2m1q".

Definition blankLogin : LoginState :=
  mkLogin (mkCredentials [] []) LoginView.emptyRegisterData traditional.

Definition page (a : AppState) (storage : gmap string jsstr) : World :=
  mkWorld a blankLogin storage [].

Definition sessionStorage : gmap string jsstr := {[ "askfile_session_id" := sessionId ]}.

(** A session page just mounted: no file, nothing typed. *)
Definition fresh : World := page (AppSession.initialState sessionId) sessionStorage.

(** A session page with nothing uploaded and [q] in the input cell. *)
Definition typedNoFile (q : jsstr) : World :=
  page (mkApp Js.Undefined chat [] q false (Js.Arr []) [] None false sessionId)
    sessionStorage.

(** A session page with a file indexed, transcript [msgs] and [q] typed. *)
Definition asking (msgs : list Message.t) (q : jsstr) : World :=
  page (mkApp Js.Undefined chat msgs q false (Js.Arr []) [] (Some indexed) false sessionId)
    sessionStorage.

Definition alice : Js.val :=
  Js.Obj [ (Js.lit "email", Js.Str (Js.lit "alice@example.com"));
           (Js.lit "name", Js.Str (Js.lit "Alice")) ].

Definition tokenStorage : gmap string jsstr :=
  {[ "token" := Js.lit "tok-123"; "user" := show alice ]}.

(** A token page of a logged-in user in view [v], file indexed, [q] typed,
    with [sugg] suggested. *)
Definition loggedIn (v : View) (q : jsstr) (sugg : list jsstr) : World :=
  page (mkApp alice v [] q false (Js.Arr []) sugg (Some indexed) false []) tokenStorage.

(** [toLowerCase] on Basic Latin, where it is the engine's. *)
Definition asciiLower (s : jsstr) : jsstr :=
  List.map (fun c => if ((65 <=? c) && (c <=? 90))%N then (c + 32)%N else c) s.

End Examples.

(* ===================================================================== *)
(** ** The vocabulary of the specification *)
(* ===================================================================== *)

Module Spec.
Import Model.

(** A call fails when the network rejects it or the response's status is
    not 2xx. *)
Definition failed (net : Settled Response) : Prop :=
  match net with
  | Rejected _ => True
  | Fulfilled r => ok r = false
  end.

(** What a settled history fetch delivers: the response's [history] when
    the call succeeded with a JSON object that has one, the empty list
    otherwise. *)
Definition fetchedHistory (net : Settled Response) : Js.val :=
  match net with
  | Fulfilled r =>
      if ok r then
        match json r with
        | Fulfilled (Js.Obj fields) =>
            Js.or_else (Js.lookup_field (Js.lit "history") fields) (Js.Arr [])
        | _ => Js.Arr []
        end
      else Js.Arr []
  | Rejected _ => Js.Arr []
  end.

(** The [id]s of the transcript, in order. *)
Definition ids (w : World) : list nat := List.map Message.id (chatMessages (app w)).

(** One exchange: what the user types, and how the chat call goes. *)
Record Turn : Type := mkTurn {
  question : jsstr;
  sentAt : jsstr;
  outcome : Settled Response;
  settledAt : jsstr
}.

(** The user types the question and sends it, and the call settles before
    anything else happens on the page (session variant). *)
Definition ask (toLowerCase : jsstr -> jsstr) (w : World) (t : Turn) : World :=
  run (AppSession.handleSendMessage (sentAt t) (outcome t) (settledAt t))
    (run (AppSession.handleInputChange toLowerCase (question t)) w).

(** A sequence of exchanges. *)
Definition converse (toLowerCase : jsstr -> jsstr) (turns : list Turn) (w : World) : World :=
  fold_left (ask toLowerCase) turns w.

(** The page is ready for a question: nothing in flight, a file indexed. *)
Definition Ready (w : World) (file : UploadedFile.t) : Prop :=
  isLoading (app w) = false /\ uploadedFile (app w) = Some file.

(** The transcript is numbered 1, 2, 3, ... *)
Definition Numbered (w : World) : Prop :=
  ids w = seq 1 (length (chatMessages (app w))).

(** An exchange is answered when its question is not blank and the
    response is 2xx with a JSON object. *)
Definition Answered (t : Turn) : Prop :=
  Js.trim (question t) <> [] /\
  exists (r : Response) (fields : list (jsstr * Js.val)),
    outcome t = Fulfilled r /\ ok r = true /\ json r = Fulfilled (Js.Obj fields).

(** A non-empty run of characters that are neither white space nor [@]. *)
Definition emailPart (s : jsstr) : Prop :=
  s <> [] /\ forallb (fun c => negb (Js.is_space c || (c =? 64)%N)) s = true.

(** A registration form that "passes validation", in the specification's
    words: name, email and password non-empty, trimmed name of at least 2
    characters, email matching the email pattern, password of at least 6
    characters, password equal to its confirmation. *)
Definition registerFormOk (d : RegisterData) : Prop :=
  name d <> [] /\ email d <> [] /\ password d <> [] /\
  (2 <= length (Js.trim (name d)))%nat /\
  RegExp.Matches LoginView.emailRegex (email d) /\
  (6 <= length (password d))%nat /\
  password d = confirmPassword d.

(** A login form that passes validation: email and password non-empty,
    email matching the email pattern. *)
Definition loginFormOk (c : Credentials) : Prop :=
  cred_email c <> [] /\ cred_password c <> [] /\
  RegExp.Matches LoginView.emailRegex (cred_email c).

(** [sub] occurs in [s]. *)
Definition occursIn (sub s : jsstr) : Prop :=
  exists pre post : jsstr, s = pre ++ sub ++ post.

End Spec.

(* ===================================================================== *)
(** ** Facts about strings and patterns *)
(* ===================================================================== *)

Section JsFacts.

Lemma eqb_eq (s u : jsstr) : Js.eqb s u = true <-> s = u.
Proof. unfold Js.eqb. apply bool_decide_eq_true. Qed.

Lemma eqb_neq (s u : jsstr) : Js.eqb s u = false <-> s <> u.
Proof. unfold Js.eqb. apply bool_decide_eq_false. Qed.

Lemma trimStart_all_space (s : jsstr) :
  Js.trimStart s = [] <-> forallb Js.is_space s = true.
Proof.
  induction s as [|c s IH]; simpl; [tauto|].
  destruct (Js.is_space c); simpl; [exact IH|].
  split; intros H; discriminate H.
Qed.

(** The trimmed string is empty exactly when the string is all blanks. *)
Lemma trim_empty_iff (s : jsstr) :
  Js.trim s = [] <-> forallb Js.is_space s = true.
Proof.
  unfold Js.trim, Js.trimEnd. split.
  - intros H. apply trimStart_all_space.
    destruct (Js.trimStart s) as [|c u] eqn:E; [reflexivity|].
    exfalso.
    assert (Hns : Js.is_space c = false).
    { clear H. revert c u E. induction s as [|d s IH]; intros c u E; simpl in E.
      - discriminate E.
      - destruct (Js.is_space d) eqn:Hd; [eauto|].
        injection E as -> ->. exact Hd. }
    assert (Hr : forallb Js.is_space (rev (c :: u)) = true).
    { apply trimStart_all_space.
      apply (f_equal (@rev N)) in H. rewrite rev_involutive in H. exact H. }
    rewrite forallb_forall in Hr.
    specialize (Hr c). rewrite <- in_rev in Hr.
    rewrite Hr in Hns; [discriminate Hns|left; reflexivity].
  - intros H. apply trimStart_all_space in H. rewrite H. reflexivity.
Qed.

End JsFacts.

Section RegExpFacts.

Import RegExp.

Lemma nullable_spec (r : t) : nullable r = true <-> Matches r [].
Proof.
  induction r as [| |p|r1 IH1 r2 IH2|r1 IH1 r2 IH2|r IH]; simpl.
  - split; [discriminate|]. intros H; inversion H.
  - split; [constructor|reflexivity].
  - split; [discriminate|]. intros H; inversion H.
  - rewrite andb_true_iff, IH1, IH2. split.
    + intros [H1 H2]. apply (MCat _ _ [] [] H1 H2).
    + intros H. inversion H as [| |? ? s1 s2 H1 H2 E1 E2| | | |]; subst.
      apply app_eq_nil in E2 as [-> ->]. tauto.
  - rewrite orb_true_iff, IH1, IH2. split.
    + intros [H|H]; [apply MAltL|apply MAltR]; exact H.
    + intros H. inversion H; subst; tauto.
  - split; [constructor|reflexivity].
Qed.

Lemma deriv_sound (r : t) : forall c s, Matches (deriv c r) s -> Matches r (c :: s).
Proof.
  induction r as [| |p|r1 IH1 r2 IH2|r1 IH1 r2 IH2|r IH]; simpl; intros c s H.
  - inversion H.
  - inversion H.
  - destruct (p c) eqn:E; inversion H; subst. constructor. exact E.
  - destruct (nullable r1) eqn:En.
    + inversion H as [| | |? ? ? H1| ? ? ? H1| |]; subst.
      * inversion H1 as [| |? ? s1 s2 Ha Hb| | | |]; subst.
        apply (MCat _ _ (c :: s1) s2); auto.
      * apply nullable_spec in En.
        apply (MCat _ _ [] (c :: s)); auto.
    + inversion H as [| |? ? s1 s2 Ha Hb| | | |]; subst.
      apply (MCat _ _ (c :: s1) s2); auto.
  - inversion H; subst; [apply MAltL|apply MAltR]; auto.
  - inversion H as [| |? ? s1 s2 Ha Hb| | | |]; subst.
    apply (MStarCons _ (c :: s1) s2); auto.
Qed.

Lemma deriv_complete (r : t) s0 :
  Matches r s0 -> forall c s, s0 = c :: s -> Matches (deriv c r) s.
Proof.
  induction 1 as [|p d Hp|r1 r2 s1 s2 H1 IH1 H2 IH2|r1 r2 u H IH|r1 r2 u H IH
                 |r|r s1 s2 H1 IH1 H2 IH2]; intros c s E; simpl.
  - discriminate E.
  - injection E as -> <-. rewrite Hp. constructor.
  - destruct s1 as [|d s1]; simpl in E.
    + assert (Hn : nullable r1 = true) by (apply nullable_spec; exact H1).
      rewrite Hn. apply MAltR. apply IH2. exact E.
    + injection E as <- <-.
      assert (Hd : Matches (Cat (deriv d r1) r2) (s1 ++ s2))
        by (constructor; auto).
      destruct (nullable r1); [apply MAltL|]; exact Hd.
  - apply MAltL. apply IH. exact E.
  - apply MAltR. apply IH. exact E.
  - discriminate E.
  - destruct s1 as [|d s1]; simpl in E.
    + apply IH2 in E. simpl in E. exact E.
    + injection E as <- <-. constructor; auto.
Qed.

(** The matcher decides membership in the pattern's language. *)
Lemma test_spec (s : jsstr) : forall r, test r s = true <-> Matches r s.
Proof.
  induction s as [|c s IH]; intros r; simpl.
  - apply nullable_spec.
  - rewrite IH. split.
    + apply deriv_sound.
    + intros H. apply (deriv_complete _ _ H). reflexivity.
Qed.

(** [p+] matches the non-empty strings made of characters of [p]. *)
Lemma Matches_Star_Class p s :
  Matches (Star (Class p)) s <-> forallb p s = true.
Proof.
  split.
  - remember (Star (Class p)) as r eqn:Er. intros H.
    induction H as [| | | | | |r s1 s2 H1 _ H2 IH2]; try discriminate Er.
    + reflexivity.
    + injection Er as ->. inversion H1; subst. simpl.
      rewrite IH2 by reflexivity. rewrite andb_true_r. assumption.
  - induction s as [|c s IH]; simpl; intros H.
    + constructor.
    + apply andb_true_iff in H as [Hc Hs].
      apply (MStarCons _ [c] s); [constructor; exact Hc|auto].
Qed.

Lemma Matches_Plus_Class p s :
  Matches (Plus (Class p)) s <-> s <> [] /\ forallb p s = true.
Proof.
  unfold Plus. split.
  - intros H. inversion H as [| |? ? s1 s2 H1 H2| | | |]; subst.
    inversion H1; subst. apply Matches_Star_Class in H2.
    simpl. split; [discriminate|]. apply andb_true_iff. split; assumption.
  - intros [Hne H]. destruct s as [|c s]; [contradiction|].
    simpl in H. apply andb_true_iff in H as [Hc Hs].
    apply (MCat _ _ [c] s); [constructor; exact Hc|].
    apply Matches_Star_Class. exact Hs.
Qed.

End RegExpFacts.

(* ===================================================================== *)
(** ** Reasoning about handlers *)
(* ===================================================================== *)

(** Runs the monad and the primitive effects on the page at hand, leaving
    the handlers' own tests to be decided. *)
Ltac eff_run :=
  cbv [Model.run LoginView.run mbind mret Model.Eff_bind Model.Eff_ret
       Model.throw Model.try_catch Model.try_finally Model.await Model.prop
       Model.perform Model.alert Model.confirm Model.fetch
       Model.console_log Model.console_error
       Model.getItem Model.removeItem Model.setItem
       Model.update Model.update_login
       Model.setUser Model.setCurrentView Model.setChatMessages_with
       Model.setChatMessages Model.setCurrentMessage Model.setIsLoading
       Model.setUserHistory Model.setSuggestions Model.setUploadedFile
       Model.setFileProcessing Model.setCredentials Model.setRegisterData
       Model.setLoginMode
       Model.app Model.loginView Model.localStorage Model.effects
       Model.user Model.currentView Model.chatMessages Model.currentMessage
       Model.isLoading Model.userHistory Model.suggestions Model.uploadedFile
       Model.fileProcessing Model.userSessionId
       Model.credentials Model.registerData Model.loginMode
       fst snd negb].

(** Names the cells of a page, so that reading a cell computes. *)
Ltac open_world w :=
  let a := fresh "a" in
  let l := fresh "l" in
  destruct w as [a l ? ?]; destruct a; destruct l;
  cbn [Model.app Model.loginView Model.localStorage Model.effects
       Model.user Model.currentView Model.chatMessages Model.currentMessage
       Model.isLoading Model.userHistory Model.suggestions Model.uploadedFile
       Model.fileProcessing Model.userSessionId
       Model.credentials Model.registerData Model.loginMode] in *.


(** Brings a list of effects built by appending into the shape
    [old ++ [e1; ...; en]]. *)
Ltac effects_norm :=
  repeat rewrite <- app_assoc; cbn [Datatypes.app].

(** Follows a handler through the ways its call can settle. *)
Ltac settle :=
  repeat (eff_run;
    match goal with
    | |- context [match ?n with Model.Fulfilled _ => _ | Model.Rejected _ => _ end] =>
        destruct n eqn:?
    | |- context [if Model.ok ?r then _ else _] => destruct (Model.ok r) eqn:?
    | |- context [if (Model.status ?r =? 401)%N then _ else _] =>
        destruct (Model.status r =? 401)%N eqn:?
    | |- context [if Js.truthy ?x then _ else _] => destruct (Js.truthy x) eqn:?
    | |- context [Js.get ?d _] => is_var d; destruct d; cbn [Js.get]
    end).

(** Uses what is known of a stored item where the handler reads it. *)
Ltac read_storage H :=
  match type of H with
  | _ = ?v =>
      match goal with
      | |- context [match ?x with Some _ => _ | None => _ end] =>
          replace x with v by (symmetry; exact H)
      end
  end.




Section EffectFacts.
Import Model.

Lemma requests_app (l1 l2 : list Effect) :
  requests (l1 ++ l2) = requests l1 ++ requests l2.
Proof. unfold requests. apply omap_app. Qed.

Lemma alerts_app (l1 l2 : list Effect) :
  alerts (l1 ++ l2) = alerts l1 ++ alerts l2.
Proof. unfold alerts. apply omap_app. Qed.

Lemma ok_bounds (r : Response) :
  ok r = true <-> (200 <= status r <= 299)%N.
Proof.
  unfold ok. rewrite andb_true_iff, !N.leb_le. tauto.
Qed.

Lemma unauthorized_not_ok (r : Response) : status r = 401%N -> ok r = false.
Proof. intros E. unfold ok. rewrite E. reflexivity. Qed.

End EffectFacts.

(* ===================================================================== *)
(** ** Sending a message: the guards *)
(* ===================================================================== *)

Section SendGuards.
Import Model.

(** The guards of [handleSendMessage] are the same in the four variants:
    what the handler does when one of them stops it. *)
Lemma send_stopped (v : Variants.Variant) (w : World) sentAt net settledAt :
  Js.eqb (Js.trim (currentMessage (app w))) [] || isLoading (app w) = true
  \/ uploadedFile (app w) = None ->
  Variants.handleSendMessage v sentAt net settledAt (app w) w =
  if Js.eqb (Js.trim (currentMessage (app w))) [] || isLoading (app w)
  then (Normal tt, w)
  else alert UploadPdfFirst w.
Proof.
  intros H.
  destruct v; cbv [Variants.handleSendMessage AppSession.handleSendMessage
    AppSessionV1.handleSendMessage AppToken.handleSendMessage
    AppNoAuth.handleSendMessage];
    (destruct (Js.eqb (Js.trim (currentMessage (app w))) [] || isLoading (app w));
     [reflexivity|]);
    (destruct H as [H|H]; [discriminate H|]); rewrite H; reflexivity.
Qed.

(** C1 (as amended). In every variant, when the trimmed message is empty,
    or [isLoading] is set, or no file descriptor is present,
    [handleSendMessage] changes no cell and nothing in [localStorage] and
    issues no request; it shows the upload-first alert exactly when it is
    the missing file that stops it (text present, not loading), and
    nothing at all when the empty text or the loading flag does. *)
Theorem send_blocked_is_noop (v : Variants.Variant) (w : World) sentAt net settledAt :
  Js.trim (currentMessage (app w)) = [] \/ isLoading (app w) = true
  \/ uploadedFile (app w) = None ->
  let w' := run (Variants.handleSendMessage v sentAt net settledAt) w in
  app w' = app w /\ loginView w' = loginView w /\ localStorage w' = localStorage w /\
  requests (effects w') = requests (effects w) /\
  effects w' = effects w ++
    (if Js.eqb (Js.trim (currentMessage (app w))) [] || isLoading (app w)
     then [] else [Alert UploadPdfFirst]).
Proof.
  intros H w'. subst w'. unfold run.
  rewrite send_stopped.
  - destruct (Js.eqb (Js.trim (currentMessage (app w))) [] || isLoading (app w)).
    + cbn [snd]. rewrite app_nil_r. tauto.
    + destruct w. eff_run. rewrite requests_app. cbn. rewrite app_nil_r. tauto.
  - destruct H as [H|[H|H]].
    + left. rewrite H. reflexivity.
    + left. rewrite H. apply orb_true_r.
    + right. exact H.
Qed.

(** The theorem at a page with a question typed and no file: the alert. *)
Lemma send_blocked_is_noop_witness :
  uploadedFile (app (Examples.typedNoFile (Js.lit "What is this?"))) = None /\
  effects (run (AppSession.handleSendMessage (Js.lit "10:00:00") Examples.answered
                  (Js.lit "10:00:01"))
             (Examples.typedNoFile (Js.lit "What is this?")))
  = [Alert UploadPdfFirst].
Proof.
  split; [reflexivity|].
  apply (send_blocked_is_noop Variants.Session
           (Examples.typedNoFile (Js.lit "What is this?"))
           (Js.lit "10:00:00") Examples.answered (Js.lit "10:00:01")).
  right; right; reflexivity.
Defined.

(** C1 as stated fails where both the text and the file are missing: the
    first guard returns before the file is looked at, and no alert is
    shown. *)
Lemma send_without_text_or_file_shows_no_alert :
  uploadedFile (app Examples.fresh) = None /\
  effects (run (AppSession.handleSendMessage (Js.lit "10:00:00") Examples.answered
                  (Js.lit "10:00:01")) Examples.fresh) = [].
Proof. split; reflexivity. Qed.


End SendGuards.

(* ===================================================================== *)
(** ** Uploading a file *)
(* ===================================================================== *)

Section Upload.
Import Model.

(** The session variants compare [file.type] with the PDF type and turn
    anything else away: one alert, no request, nothing changed. *)
Lemma session_upload_rejects_non_pdf (v : Variants.Variant) (file : File.t) net now w :
  Variants.clearsBeforeUpload v = true ->
  File.type file <> Js.lit "application/pdf" ->
  run (Variants.handleFileUpload v (Some file) net now) w =
  mkWorld (app w) (loginView w) (localStorage w) (effects w ++ [Alert OnlyPdfAccepted]).
Proof.
  intros Hv Hty. apply eqb_neq in Hty.
  destruct v; try discriminate Hv;
    cbv [run Variants.handleFileUpload AppSession.handleFileUpload
         AppSessionV1.handleFileUpload];
    rewrite Hty; reflexivity.
Qed.

(** In the token and no-auth variants the test is
    [!file.type === 'application/pdf'], a boolean compared with a string:
    it is false for every file. *)
Lemma negated_type_test_is_false (file : File.t) :
  Js.strict_equal (Js.Bool (negb (Js.truthy (Js.Str (File.type file)))))
    (Js.Str (Js.lit "application/pdf")) = false.
Proof. reflexivity. Qed.

(** So in those variants every file, whatever its type, is sent. *)
Lemma token_upload_sends_any_file (file : File.t) net now w :
  requests (effects (run (AppToken.handleFileUpload (Some file) net now) w)) =
  requests (effects w) ++ [AppToken.uploadRequest (localStorage w !! "token") file].
Proof.
  open_world w. cbv [AppToken.handleFileUpload].
  rewrite negated_type_test_is_false. eff_run.
  destruct net as [r|e]; eff_run.
  - destruct (json r) as [data|e]; eff_run.
    + destruct (ok r); destruct data; cbn [Js.get]; eff_run; effects_norm;
        rewrite requests_app; reflexivity.
    + effects_norm. rewrite requests_app. reflexivity.
  - effects_norm. rewrite requests_app. reflexivity.
Qed.

Lemma noauth_upload_sends_any_file (file : File.t) net now w :
  requests (effects (run (AppNoAuth.handleFileUpload (Some file) net now) w)) =
  requests (effects w) ++ [AppNoAuth.uploadRequest file].
Proof.
  open_world w. cbv [AppNoAuth.handleFileUpload].
  rewrite negated_type_test_is_false. eff_run.
  destruct net as [r|e]; eff_run.
  - destruct (json r) as [data|e]; eff_run.
    + destruct (ok r); destruct data; cbn [Js.get]; eff_run; effects_norm;
        rewrite requests_app; reflexivity.
    + effects_norm. rewrite requests_app. reflexivity.
  - effects_norm. rewrite requests_app. reflexivity.
Qed.

(** C2, at a text file. The session variants answer with the alert and
    nothing else; the token and no-auth variants post the file to
    [/api/upload] and, the backend accepting it, install it as the
    uploaded file. *)
Theorem text_file_upload_by_variant :
  File.type Examples.notes_txt <> Js.lit "application/pdf" /\
  effects (run (AppSession.handleFileUpload (Some Examples.notes_txt) Examples.uploaded
                  (Js.lit "2025-01-02T00:00:00.000Z")) Examples.fresh)
    = [Alert OnlyPdfAccepted] /\
  effects (run (AppSessionV1.handleFileUpload (Some Examples.notes_txt) Examples.uploaded
                  (Js.lit "2025-01-02T00:00:00.000Z")) Examples.fresh)
    = [Alert OnlyPdfAccepted] /\
  effects (run (AppToken.handleFileUpload (Some Examples.notes_txt) Examples.uploaded
                  (Js.lit "2025-01-02T00:00:00.000Z")) (Examples.loggedIn chat [] []))
    = [Fetch (AppToken.uploadRequest (Some (Js.lit "tok-123")) Examples.notes_txt);
       Alert (FileProcessed (Js.lit "notes.txt"))] /\
  effects (run (AppNoAuth.handleFileUpload (Some Examples.notes_txt) Examples.uploaded
                  (Js.lit "2025-01-02T00:00:00.000Z"))
             (Examples.page AppNoAuth.initialState ∅))
    = [Fetch (AppNoAuth.uploadRequest Examples.notes_txt);
       Alert (FileProcessed (Js.lit "notes.txt"))] /\
  (UploadedFile.name <$>
     uploadedFile (app (run (AppToken.handleFileUpload (Some Examples.notes_txt)
                               Examples.uploaded (Js.lit "2025-01-02T00:00:00.000Z"))
                          (Examples.loggedIn chat [] []))))
    = Some (Js.lit "notes.txt").
Proof.
  split; [intros H; discriminate H|].
  repeat split; vm_compute; reflexivity.
Qed.

(** What a successful upload leaves behind, variant by variant. *)
Lemma upload_success (v : Variants.Variant) (file : File.t) (r : Response)
    (fields : list (jsstr * Js.val)) now w :
  File.type file = Js.lit "application/pdf" ->
  ok r = true ->
  json r = Fulfilled (Js.Obj fields) ->
  Js.truthy (Js.lookup_field (Js.lit "file_id") fields) = true ->
  app (run (Variants.handleFileUpload v (Some file) (Fulfilled r) now) w) =
  mkApp (user (app w)) (currentView (app w)) []
    (if Variants.clearsBeforeUpload v then [] else currentMessage (app w))
    (isLoading (app w)) (userHistory (app w))
    (if Variants.clearsBeforeUpload v then [] else suggestions (app w))
    (Some (UploadedFile.mk
             (Js.lookup_field (Js.lit "file_id") fields)
             (File.name file)
             (Js.lookup_field (Js.lit "summary") fields)
             now
             (if Variants.clearsBeforeUpload v
              then Js.or_else (Js.lookup_field (Js.lit "file_removed") fields)
                     (Js.Bool false)
              else Js.Undefined)))
    false (userSessionId (app w)).
Proof.
  intros Hty Hok Hjson Hid.
  apply eqb_eq in Hty. open_world w.
  destruct v;
    cbv [Variants.handleFileUpload Variants.clearsBeforeUpload
         AppSession.handleFileUpload AppSessionV1.handleFileUpload
         AppToken.handleFileUpload AppNoAuth.handleFileUpload];
    rewrite ?Hty; eff_run; rewrite ?Hok; eff_run; rewrite ?Hjson; eff_run;
    cbn [Js.get]; rewrite ?Hid; reflexivity.
Qed.

(** C3 (as amended). After a successful upload whose response carries a
    [file_id], in every variant the transcript is empty and the file
    descriptor has the response's id and summary and the selected file's
    name. The session variants also take the temporary flag from the
    response ([file_removed], [false] when absent) and reset the
    suggestions; the token and no-auth variants keep no temporary flag and
    leave the suggestions as they were. *)
Theorem upload_success_resets (v : Variants.Variant) (file : File.t) (r : Response)
    (fields : list (jsstr * Js.val)) now w :
  File.type file = Js.lit "application/pdf" ->
  ok r = true ->
  json r = Fulfilled (Js.Obj fields) ->
  Js.truthy (Js.lookup_field (Js.lit "file_id") fields) = true ->
  let w' := run (Variants.handleFileUpload v (Some file) (Fulfilled r) now) w in
  chatMessages (app w') = [] /\
  uploadedFile (app w') =
    Some (UploadedFile.mk
            (Js.lookup_field (Js.lit "file_id") fields)
            (File.name file)
            (Js.lookup_field (Js.lit "summary") fields)
            now
            (if Variants.clearsBeforeUpload v
             then Js.or_else (Js.lookup_field (Js.lit "file_removed") fields)
                    (Js.Bool false)
             else Js.Undefined)) /\
  suggestions (app w') =
    (if Variants.clearsBeforeUpload v then [] else suggestions (app w)).
Proof.
  intros Hty Hok Hjson Hid w'. subst w'.
  rewrite (upload_success v file r fields now w Hty Hok Hjson Hid).
  repeat split.
Qed.

(** The theorem at a session page with an old transcript and suggestions. *)
Lemma upload_success_resets_witness :
  let old := Message.mk 1 (Js.Str (Js.lit "Hi")) User (Js.lit "09:00:00") (Js.Arr []) false in
  let w := Examples.page
             (mkApp Js.Undefined chat [old] (Js.lit "Res") false (Js.Arr [])
                [Js.lit "Resuma os principais pontos do documento"]
                (Some Examples.indexed) false Examples.sessionId)
             Examples.sessionStorage in
  let w' := run (AppSession.handleFileUpload (Some Examples.report_pdf) Examples.uploaded
                   (Js.lit "2025-01-02T00:00:00.000Z")) w in
  chatMessages (app w') = [] /\
  uploadedFile (app w') =
    Some (UploadedFile.mk (Js.Str (Js.lit "f-2")) (Js.lit "report.pdf")
            (Js.Str (Js.lit "A book about whales.")) (Js.lit "2025-01-02T00:00:00.000Z")
            (Js.Bool true)) /\
  suggestions (app w') = [].
Proof.
  intros old w.
  pose proof (upload_success_resets Variants.Session Examples.report_pdf
    (Examples.jsonResponse 200 "OK"
       (Js.Obj [ (Js.lit "file_id", Js.Str (Js.lit "f-2"));
                 (Js.lit "summary", Js.Str (Js.lit "A book about whales."));
                 (Js.lit "file_removed", Js.Bool true) ]))
    [ (Js.lit "file_id", Js.Str (Js.lit "f-2"));
      (Js.lit "summary", Js.Str (Js.lit "A book about whales."));
      (Js.lit "file_removed", Js.Bool true) ]
    (Js.lit "2025-01-02T00:00:00.000Z") w
    eq_refl eq_refl eq_refl eq_refl) as (H1 & H2 & H3).
  vm_compute in H1. vm_compute in H2. vm_compute in H3.
  vm_compute. exact (conj H1 (conj H2 H3)).
Defined.

(** C3 as stated fails in the token variant: the suggestions survive the
    upload, and the descriptor has no temporary flag although the response
    said [file_removed: true]. *)
Lemma token_upload_keeps_suggestions :
  let w := Examples.loggedIn chat (Js.lit "Res")
             [Js.lit "Resuma os principais pontos do documento"] in
  let w' := run (AppToken.handleFileUpload (Some Examples.report_pdf) Examples.uploaded
                   (Js.lit "2025-01-02T00:00:00.000Z")) w in
  suggestions (app w') = [Js.lit "Resuma os principais pontos do documento"] /\
  (UploadedFile.id <$> uploadedFile (app w')) = Some (Js.Str (Js.lit "f-2")) /\
  (UploadedFile.isTemporary <$> uploadedFile (app w')) = Some Js.Undefined.
Proof. repeat split. Qed.

End Upload.

(* ===================================================================== *)
(** ** Sending a message: a failed call *)
(* ===================================================================== *)

Section ChatFailure.
Import Model.

(** The state a failed chat call leaves, session variant: the question
    and one apology are appended, the input is cleared, loading is over,
    and no alert is shown. *)
Lemma session_send_failed (w : World) (file : UploadedFile.t) sentAt net settledAt :
  Js.trim (currentMessage (app w)) <> [] ->
  isLoading (app w) = false ->
  uploadedFile (app w) = Some file ->
  Spec.failed net ->
  exists message : jsstr,
    app (run (AppSession.handleSendMessage sentAt net settledAt) w) =
    mkApp (user (app w)) (currentView (app w))
      (chatMessages (app w) ++
         [ Message.mk (length (chatMessages (app w)) + 1)
             (Js.Str (currentMessage (app w))) User sentAt (Js.Arr []) false;
           Message.mk (length (chatMessages (app w)) + 3)
             (Js.Str (AppSession.apology message)) Bot settledAt Js.Undefined true ])
      [] false (userHistory (app w)) [] (Some file)
      (fileProcessing (app w)) (userSessionId (app w))
    /\ alerts (effects (run (AppSession.handleSendMessage sentAt net settledAt) w))
       = alerts (effects w).
Proof.
  intros Htxt Hload Hfile Hfail.
  apply eqb_neq in Htxt. open_world w.
  cbv [AppSession.handleSendMessage run].
  eff_run. rewrite Htxt, Hload, Hfile. cbn [orb].
  assert (Hid : forall (l : list Message.t) (m : Message.t),
             (length (l ++ [m]) + 2 = length l + 3)%nat).
  { intros l m. rewrite length_app. cbn. lia. }
  destruct net as [r|e]; cbn in Hfail.
  - destruct (text r) as [tx|e] eqn:Et.
    + exists (Js.lit "HTTP " ++ Js.of_N (status r) ++ Js.lit ": " ++ tx).
      eff_run. rewrite Hfail. eff_run.
      rewrite Hid. effects_norm. rewrite alerts_app, app_nil_r.
      split; reflexivity.
    + exists (Js.message e).
      eff_run. rewrite Hfail. eff_run.
      rewrite Hid. effects_norm. rewrite alerts_app, app_nil_r.
      split; reflexivity.
  - exists (Js.message e).
    eff_run. rewrite Hid. effects_norm. rewrite alerts_app, app_nil_r.
    split; reflexivity.
Qed.

(** C4. When the chat call fails (the network rejects it, or the status is
    not 2xx), the transcript after [handleSendMessage] is the transcript
    before it followed by the user's message, as built at send time, and
    by exactly one bot message with the error flag set. *)
Theorem failed_chat_appends_one_error (w : World) (file : UploadedFile.t)
    sentAt net settledAt :
  Js.trim (currentMessage (app w)) <> [] ->
  isLoading (app w) = false ->
  uploadedFile (app w) = Some file ->
  Spec.failed net ->
  let w' := run (AppSession.handleSendMessage sentAt net settledAt) w in
  let userMessage :=
    Message.mk (length (chatMessages (app w)) + 1) (Js.Str (currentMessage (app w)))
      User sentAt (Js.Arr []) false in
  exists reply : Message.t,
    Message.sender reply = Bot /\ Message.isError reply = true /\
    chatMessages (app w') = chatMessages (app w) ++ [userMessage; reply].
Proof.
  intros Htxt Hload Hfile Hfail w' userMessage. subst w' userMessage.
  destruct (session_send_failed w file sentAt net settledAt Htxt Hload Hfile Hfail)
    as (message & Happ & _).
  rewrite Happ. cbn [chatMessages].
  eexists. split; [|split; [|reflexivity]]; reflexivity.
Qed.

(** The theorem at a page with one earlier exchange, the backend
    answering 500. *)
Lemma failed_chat_appends_one_error_witness :
  let q1 := Message.mk 1 (Js.Str (Js.lit "Hi")) User (Js.lit "09:00:00") (Js.Arr []) false in
  let a1 := Message.mk 2 (Js.Str (Js.lit "Hello")) Bot (Js.lit "09:00:01") (Js.Arr []) false in
  let w := Examples.asking [q1; a1] (Js.lit "What is it about?") in
  let w' := run (AppSession.handleSendMessage (Js.lit "10:00:00") Examples.serverError
                   (Js.lit "10:00:01")) w in
  Spec.failed Examples.serverError /\
  exists reply : Message.t,
    Message.sender reply = Bot /\ Message.isError reply = true /\
    chatMessages (app w') =
      [q1; a1;
       Message.mk 3 (Js.Str (Js.lit "What is it about?")) User (Js.lit "10:00:00")
         (Js.Arr []) false;
       reply].
Proof.
  intros q1 a1 w.
  assert (Htxt : Js.trim (currentMessage (app w)) <> []) by (intros H; discriminate H).
  assert (Hfail : Spec.failed Examples.serverError) by reflexivity.
  split; [exact Hfail|].
  pose proof (failed_chat_appends_one_error w Examples.indexed (Js.lit "10:00:00")
                Examples.serverError (Js.lit "10:00:01") Htxt eq_refl eq_refl Hfail) as H.
  vm_compute in H. vm_compute. exact H.
Defined.

End ChatFailure.

(* ===================================================================== *)
(** ** Message identifiers over a conversation *)
(* ===================================================================== *)

Section MessageIds.
Import Model.

Variable toLowerCase : jsstr -> jsstr.

(** Typing puts the text in the input cell and touches neither the
    transcript, nor the loading flag, nor the file. *)
Lemma typing_sets_message (q : jsstr) (w : World) :
  let w' := run (AppSession.handleInputChange toLowerCase q) w in
  currentMessage (app w') = q /\ chatMessages (app w') = chatMessages (app w) /\
  isLoading (app w') = isLoading (app w) /\ uploadedFile (app w') = uploadedFile (app w).
Proof.
  open_world w. cbv [AppSession.handleInputChange]. eff_run.
  destruct (Js.eqb q []); eff_run; repeat split.
Qed.

(** Whatever becomes of the call, sending appends the question, numbered
    one more than the length of the transcript the handler saw, and ends
    with the page ready again. *)
Lemma session_send_appends_question (w : World) (file : UploadedFile.t)
    sentAt net settledAt :
  Js.trim (currentMessage (app w)) <> [] ->
  Spec.Ready w file ->
  let w' := run (AppSession.handleSendMessage sentAt net settledAt) w in
  Spec.Ready w' file /\
  exists rest : list Message.t,
    chatMessages (app w') =
    chatMessages (app w) ++
      Message.mk (length (chatMessages (app w)) + 1) (Js.Str (currentMessage (app w)))
        User sentAt (Js.Arr []) false :: rest.
Proof.
  intros Htxt [Hload Hfile].
  apply eqb_neq in Htxt. open_world w.
  cbv [AppSession.handleSendMessage Spec.Ready].
  eff_run. rewrite Htxt, Hload, Hfile. cbn [orb].
  destruct net as [r|e]; eff_run.
  - destruct (ok r); eff_run.
    + destruct (json r) as [data|e]; eff_run.
      * destruct data; cbn [Js.get]; eff_run; rewrite <- app_assoc;
          (split; [split; reflexivity|]); eexists; reflexivity.
      * rewrite <- app_assoc; (split; [split; reflexivity|]); eexists; reflexivity.
    + destruct (text r); eff_run; rewrite <- app_assoc;
        (split; [split; reflexivity|]); eexists; reflexivity.
  - rewrite <- app_assoc; (split; [split; reflexivity|]); eexists; reflexivity.
Qed.

(** An answered call appends the question and the answer, numbered one
    and two more than the length of the transcript the handler saw. *)
Lemma session_send_answered (w : World) (file : UploadedFile.t) (r : Response)
    (fields : list (jsstr * Js.val)) sentAt settledAt :
  Js.trim (currentMessage (app w)) <> [] ->
  Spec.Ready w file ->
  ok r = true ->
  json r = Fulfilled (Js.Obj fields) ->
  chatMessages (app (run (AppSession.handleSendMessage sentAt (Fulfilled r) settledAt) w)) =
  chatMessages (app w) ++
    [ Message.mk (length (chatMessages (app w)) + 1) (Js.Str (currentMessage (app w)))
        User sentAt (Js.Arr []) false;
      Message.mk (length (chatMessages (app w)) + 2)
        (Js.lookup_field (Js.lit "answer") fields) Bot settledAt
        (Js.or_else (Js.lookup_field (Js.lit "sources") fields) (Js.Arr [])) false ].
Proof.
  intros Htxt [Hload Hfile] Hok Hjson.
  apply eqb_neq in Htxt. open_world w.
  cbv [AppSession.handleSendMessage].
  eff_run. rewrite Htxt, Hload, Hfile. cbn [orb].
  rewrite Hok. eff_run. rewrite Hjson. eff_run. cbn [Js.get]. eff_run.
  rewrite <- app_assoc. reflexivity.
Qed.

(** One exchange whose call fails: the apology is numbered three more
    than the length of the transcript before the exchange. *)
Lemma ask_failed (w : World) (file : UploadedFile.t) (t : Spec.Turn) :
  Js.trim (Spec.question t) <> [] ->
  Spec.Ready w file ->
  Spec.failed (Spec.outcome t) ->
  Spec.Ready (Spec.ask toLowerCase w t) file /\
  exists q e : Message.t,
    Message.id q = (length (chatMessages (app w)) + 1)%nat /\
    Message.id e = (length (chatMessages (app w)) + 3)%nat /\
    chatMessages (app (Spec.ask toLowerCase w t)) = chatMessages (app w) ++ [q; e].
Proof.
  intros Htxt [Hload Hfile] Hfail. unfold Spec.ask.
  destruct (typing_sets_message (Spec.question t) w) as (Hq & Hm & Hl & Hf).
  set (w1 := run (AppSession.handleInputChange toLowerCase (Spec.question t)) w) in *.
  assert (Hr1 : Spec.Ready w1 file) by (split; congruence).
  assert (Ht1 : Js.trim (currentMessage (app w1)) <> []) by (rewrite Hq; exact Htxt).
  split.
  - apply (session_send_appends_question w1 file); assumption.
  - destruct (session_send_failed w1 file (Spec.sentAt t) (Spec.outcome t)
                (Spec.settledAt t) Ht1 (proj1 Hr1) (proj2 Hr1) Hfail)
      as (message & Happ & _).
    rewrite Happ. cbn [chatMessages]. rewrite Hm.
    eexists. eexists. split; [|split; [|reflexivity]]; reflexivity.
Qed.

(** One exchange, however the call goes. *)
Lemma ask_appends_question (w : World) (file : UploadedFile.t) (t : Spec.Turn) :
  Js.trim (Spec.question t) <> [] ->
  Spec.Ready w file ->
  Spec.Ready (Spec.ask toLowerCase w t) file /\
  exists (q : Message.t) (rest : list Message.t),
    Message.id q = (length (chatMessages (app w)) + 1)%nat /\
    chatMessages (app (Spec.ask toLowerCase w t)) = chatMessages (app w) ++ q :: rest.
Proof.
  intros Htxt [Hload Hfile]. unfold Spec.ask.
  destruct (typing_sets_message (Spec.question t) w) as (Hq & Hm & Hl & Hf).
  set (w1 := run (AppSession.handleInputChange toLowerCase (Spec.question t)) w) in *.
  assert (Hr1 : Spec.Ready w1 file) by (split; congruence).
  assert (Ht1 : Js.trim (currentMessage (app w1)) <> []) by (rewrite Hq; exact Htxt).
  destruct (session_send_appends_question w1 file (Spec.sentAt t) (Spec.outcome t)
              (Spec.settledAt t) Ht1 Hr1) as (Hr2 & rest & Hc).
  split; [exact Hr2|].
  rewrite Hc, Hm. eexists. exists rest. split; [|reflexivity]; reflexivity.
Qed.

(** The defect behind C9, in general: after an exchange whose call
    failed, the next question gets the number the apology already has. *)
Lemma failed_call_then_question_repeats_an_id (w : World) (file : UploadedFile.t)
    (t1 t2 : Spec.Turn) :
  Spec.Ready w file ->
  Js.trim (Spec.question t1) <> [] ->
  Js.trim (Spec.question t2) <> [] ->
  Spec.failed (Spec.outcome t1) ->
  ~ NoDup (Spec.ids (Spec.converse toLowerCase [t1; t2] w)).
Proof.
  intros Hr Hq1 Hq2 Hfail. cbn [Spec.converse fold_left].
  destruct (ask_failed w file t1 Hq1 Hr Hfail) as (Hr1 & q & e & Hidq & Hide & Hc1).
  destruct (ask_appends_question _ file t2 Hq2 Hr1) as (_ & q2 & rest & Hid2 & Hc2).
  unfold Spec.ids. rewrite Hc2, Hc1.
  rewrite Hc1 in Hid2. rewrite length_app in Hid2. cbn [length] in Hid2.
  rewrite <- app_assoc, !map_app. cbn [map Datatypes.app].
  intros Hnd. apply NoDup_app in Hnd as (_ & _ & Hnd).
  apply NoDup_cons in Hnd as (_ & Hnd).
  apply NoDup_cons in Hnd as (Hnin & _).
  apply Hnin. rewrite Hide, Hid2.
  replace (length (chatMessages (app w)) + 2 + 1)%nat
    with (length (chatMessages (app w)) + 3)%nat by lia.
  left.
Qed.

Lemma ask_answered (w : World) (file : UploadedFile.t) (t : Spec.Turn) :
  Spec.Ready w file -> Spec.Numbered w -> Spec.Answered t ->
  Spec.Ready (Spec.ask toLowerCase w t) file /\ Spec.Numbered (Spec.ask toLowerCase w t).
Proof.
  intros Hr Hn (Htxt & r & fields & Hout & Hok & Hjson).
  split; [apply ask_appends_question; assumption|].
  destruct Hr as [Hload Hfile]. unfold Spec.ask, Spec.Numbered, Spec.ids in *.
  destruct (typing_sets_message (Spec.question t) w) as (Hq & Hm & Hl & Hf).
  set (w1 := run (AppSession.handleInputChange toLowerCase (Spec.question t)) w) in *.
  assert (Hr1 : Spec.Ready w1 file) by (split; congruence).
  assert (Ht1 : Js.trim (currentMessage (app w1)) <> []) by (rewrite Hq; exact Htxt).
  rewrite Hout.
  rewrite (session_send_answered w1 file r fields _ _ Ht1 Hr1 Hok Hjson).
  rewrite Hm, map_app, length_app, Hn. cbn [map length Message.id].
  rewrite seq_app. cbn [seq]. f_equal. f_equal; [lia|]. f_equal. lia.
Qed.

(** As long as every call is answered, the numbering stays 1, 2, 3, ...
    and no identifier repeats. *)
Lemma answered_conversation_keeps_ids_distinct (turns : list Spec.Turn) :
  forall (w : World) (file : UploadedFile.t),
    Spec.Ready w file -> Spec.Numbered w -> Forall Spec.Answered turns ->
    NoDup (Spec.ids (Spec.converse toLowerCase turns w)).
Proof.
  assert (Hinv : forall (w : World) (file : UploadedFile.t),
             Spec.Ready w file -> Spec.Numbered w -> Forall Spec.Answered turns ->
             Spec.Numbered (Spec.converse toLowerCase turns w)).
  { induction turns as [|t turns IH]; intros w file Hr Hn Hall; cbn.
    - exact Hn.
    - apply Forall_cons in Hall as [Ht Hall].
      destruct (ask_answered w file t Hr Hn Ht) as [Hr' Hn'].
      apply (IH _ file); assumption. }
  intros w file Hr Hn Hall.
  rewrite (Hinv w file Hr Hn Hall). apply NoDup_seq.
Qed.

End MessageIds.

Section MessageIdsAtAFailure.
Import Model.

(** C9, at a failure. On a page with a file indexed and an empty
    transcript, a question whose call fails followed by a question that is
    answered leaves the identifiers 1, 3, 3, 4: the apology and the second
    question share the identifier 3. *)
Theorem ids_repeat_after_failed_call :
  let turns :=
    [ Spec.mkTurn (Js.lit "What is it about?") (Js.lit "10:00:00") Examples.offline
        (Js.lit "10:00:05");
      Spec.mkTurn (Js.lit "Who wrote it?") (Js.lit "10:01:00") Examples.answered
        (Js.lit "10:01:02") ] in
  let w := Spec.converse Examples.asciiLower turns (Examples.asking [] []) in
  Spec.ids w = [1; 3; 3; 4]%nat /\
  List.map Message.isError (chatMessages (app w)) = [false; true; false; false] /\
  ~ NoDup (Spec.ids w).
Proof.
  intros turns w.
  assert (E : Spec.ids w = [1; 3; 3; 4]%nat) by (vm_compute; reflexivity).
  split; [exact E|]. split; [vm_compute; reflexivity|].
  rewrite E. intros H.
  apply NoDup_cons in H as [_ H]. apply NoDup_cons in H as [H _].
  apply H. left.
Qed.

End MessageIdsAtAFailure.

(* ===================================================================== *)
(** ** The history view *)
(* ===================================================================== *)

Section History.
Import Model.

(** [fetchUserHistory] of the session variant: one GET, and the mirror
    becomes what the fetch delivered, whatever it held before. *)
Lemma session_history_fetch (w : World) (net : Settled Response) :
  let w' := run (AppSession.fetchUserHistory net) w in
  requests (effects w') =
    requests (effects w) ++ [AppSession.historyRequest (AppSession.email (app w))] /\
  alerts (effects w') = alerts (effects w) /\
  chatMessages (app w') = chatMessages (app w) /\
  userHistory (app w') = Spec.fetchedHistory net.
Proof.
  open_world w. cbv [AppSession.fetchUserHistory Spec.fetchedHistory]. eff_run.
  destruct net as [r|e]; eff_run.
  - destruct (ok r); eff_run.
    + destruct (json r) as [data|e]; eff_run.
      * destruct data; cbn [Js.get]; eff_run; effects_norm;
          rewrite requests_app, alerts_app, ?app_nil_r; repeat split.
      * effects_norm. rewrite requests_app, alerts_app, ?app_nil_r. repeat split.
    + destruct (text r); eff_run; effects_norm;
        rewrite requests_app, alerts_app, ?app_nil_r; repeat split.
  - effects_norm. rewrite requests_app, alerts_app, ?app_nil_r. repeat split.
Qed.

(** C5. Mounting the history view issues the history GET. When the call
    succeeds with a [history] list the mirror becomes that list; when it
    fails the mirror becomes the empty list; in every case the new mirror
    is a function of the fetch result alone: nothing of the previous
    mirror (or of the page) goes into it. *)
Theorem history_mount_refetches_and_replaces (w : World) (net : Settled Response) :
  let w' := run (AppSession.mountHistoryView net) w in
  requests (effects w') =
    requests (effects w) ++ [AppSession.historyRequest (AppSession.email (app w))] /\
  (forall r fields entries,
      net = Fulfilled r -> ok r = true -> json r = Fulfilled (Js.Obj fields) ->
      Js.lookup_field (Js.lit "history") fields = Js.Arr entries ->
      userHistory (app w') = Js.Arr entries) /\
  (Spec.failed net -> userHistory (app w') = Js.Arr []) /\
  (forall w2 : World,
      userHistory (app (run (AppSession.mountHistoryView net) w2)) = userHistory (app w')).
Proof.
  intros w'. subst w'.
  assert (E : forall w0, run (AppSession.mountHistoryView net) w0
                         = run (AppSession.fetchUserHistory net) w0) by reflexivity.
  rewrite E.
  destruct (session_history_fetch w net) as (Hreq & _ & _ & Hmirror).
  split; [exact Hreq|]. rewrite Hmirror.
  split; [|split].
  - intros r fields entries -> Hok Hjson Hh. unfold Spec.fetchedHistory.
    rewrite Hok, Hjson, Hh. reflexivity.
  - intros Hfail. unfold Spec.fetchedHistory, Spec.failed in *.
    destruct net as [r|e]; [rewrite Hfail|]; reflexivity.
  - intros w2. rewrite E. apply (session_history_fetch w2 net).
Qed.

(** The theorem at a page whose mirror holds an older list. *)
Lemma history_mount_refetches_and_replaces_witness :
  let w := Examples.page
             (mkApp Js.Undefined history [] [] false
                (Js.Arr [Js.Str (Js.lit "stale"); Examples.pastQuestion]) [] None false
                Examples.sessionId)
             Examples.sessionStorage in
  let w' := run (AppSession.mountHistoryView (Examples.historyOf [Examples.pastQuestion])) w in
  requests (effects w') =
    [AppSession.historyRequest (Examples.sessionId ++ Js.lit "@askfile.com")] /\
  userHistory (app w') = Js.Arr [Examples.pastQuestion].
Proof.
  intros w w'.
  destruct (history_mount_refetches_and_replaces w
              (Examples.historyOf [Examples.pastQuestion])) as (Hreq & Hok & _).
  split.
  - exact Hreq.
  - exact (Hok _ _ _ eq_refl eq_refl eq_refl eq_refl).
Defined.

End History.

(* ===================================================================== *)
(** ** Logout and new session *)
(* ===================================================================== *)

Section Logout.
Import Model.

Lemma session_logout_confirmed (w : World) (net : Settled Response) :
  let w' := run (AppSession.handleLogout true net) w in
  app w' = mkApp (user (app w)) (currentView (app w)) [] [] (isLoading (app w))
             (Js.Arr []) [] None (fileProcessing (app w)) (userSessionId (app w)) /\
  localStorage w' = localStorage w.
Proof.
  open_world w. cbv [AppSession.handleLogout]. eff_run.
  destruct net as [r|e]; eff_run; split; reflexivity.
Qed.

Lemma sessionV1_logout_confirmed (w : World) (net : Settled Response) :
  let w' := run (AppSessionV1.handleLogout true net) w in
  app w' = mkApp (user (app w)) (currentView (app w)) [] [] (isLoading (app w))
             (Js.Arr []) [] None (fileProcessing (app w)) (userSessionId (app w)) /\
  localStorage w' = localStorage w.
Proof.
  open_world w. cbv [AppSessionV1.handleLogout]. eff_run.
  destruct net as [r|e]; eff_run; split; reflexivity.
Qed.

Lemma token_logout (w : World) :
  run AppToken.handleLogout w =
  mkWorld
    (mkApp Js.Null login [] (currentMessage (app w)) (isLoading (app w))
       (userHistory (app w)) (suggestions (app w)) None (fileProcessing (app w))
       (userSessionId (app w)))
    (loginView w)
    (delete "user" (delete "token" (localStorage w)))
    (effects w ++ [Alert Disconnected]).
Proof. open_world w. reflexivity. Qed.

(** A new session reloads the page: every cell is back at its initial
    value and a fresh identifier replaces the stored one. *)
Lemma new_session_confirmed (w : World) (now : N) (random36 : jsstr) :
  let w' := run (AppSessionV1.handleNewSession true now random36) w in
  app w' = AppSessionV1.initialState (AppSessionV1.generateSessionId now random36) /\
  localStorage w' !! "askfile_session_id" =
    Some (AppSessionV1.generateSessionId now random36).
Proof.
  open_world w. cbv [AppSessionV1.handleNewSession AppSessionV1.mount]. eff_run.
  rewrite lookup_delete_eq. eff_run.
  split; [reflexivity|]. apply lookup_insert_eq.
Qed.

(** C6 (as amended). A confirmed logout leaves the transcript empty and
    the file descriptor cleared in every variant. In the token variant it
    also clears the user record, removes the token and the user from
    [localStorage] and sets the view to the initial one, login. In the
    session and no-auth variants, which store no credentials, it leaves
    [localStorage] and the view as they were. A confirmed new session
    (first session variant) puts every cell, the view included, back to
    its initial value under a fresh session identifier. *)
Theorem confirmed_logout_clears (v : Variants.Variant) (w : World) (net : Settled Response) :
  let w' := run (Variants.handleLogout v true net) w in
  chatMessages (app w') = [] /\ uploadedFile (app w') = None /\
  match v with
  | Variants.Token =>
      user (app w') = Js.Null /\
      localStorage w' !! "token" = None /\ localStorage w' !! "user" = None /\
      currentView (app w') = Variants.initialView Variants.Token
  | _ =>
      localStorage w' = localStorage w /\ currentView (app w') = currentView (app w)
  end /\
  forall (now : N) (random36 : jsstr),
    let w'' := run (AppSessionV1.handleNewSession true now random36) w in
    chatMessages (app w'') = [] /\ uploadedFile (app w'') = None /\
    currentView (app w'') = Variants.initialView Variants.SessionV1 /\
    userSessionId (app w'') = AppSessionV1.generateSessionId now random36 /\
    localStorage w'' !! "askfile_session_id" = Some (userSessionId (app w'')).
Proof.
  intros w'. subst w'.
  assert (Hnew : forall (now : N) (random36 : jsstr),
    let w'' := run (AppSessionV1.handleNewSession true now random36) w in
    chatMessages (app w'') = [] /\ uploadedFile (app w'') = None /\
    currentView (app w'') = Variants.initialView Variants.SessionV1 /\
    userSessionId (app w'') = AppSessionV1.generateSessionId now random36 /\
    localStorage w'' !! "askfile_session_id" = Some (userSessionId (app w''))).
  { intros now random36 w''. subst w''.
    destruct (new_session_confirmed w now random36) as [Happ Hst].
    rewrite Happ, Hst. repeat split. }
  destruct v; cbv [Variants.handleLogout]; refine (conj _ (conj _ (conj _ Hnew))).
  - rewrite (proj1 (session_logout_confirmed w net)). reflexivity.
  - rewrite (proj1 (session_logout_confirmed w net)). reflexivity.
  - destruct (session_logout_confirmed w net) as [Happ Hst].
    rewrite Happ, Hst. split; reflexivity.
  - rewrite (proj1 (sessionV1_logout_confirmed w net)). reflexivity.
  - rewrite (proj1 (sessionV1_logout_confirmed w net)). reflexivity.
  - destruct (sessionV1_logout_confirmed w net) as [Happ Hst].
    rewrite Happ, Hst. split; reflexivity.
  - rewrite token_logout. reflexivity.
  - rewrite token_logout. reflexivity.
  - rewrite token_logout. cbn [app localStorage user currentView].
    split; [reflexivity|]. split; [|split; [|reflexivity]].
    + rewrite lookup_delete_ne by discriminate. apply lookup_delete_eq.
    + apply lookup_delete_eq.
  - open_world w. reflexivity.
  - open_world w. reflexivity.
  - open_world w. split; reflexivity.
Qed.

(** The theorem at a logged-in token page: the credentials are gone. *)
Lemma confirmed_logout_clears_witness :
  let w := Examples.loggedIn history (Js.lit "draft") [] in
  let w' := run AppToken.handleLogout w in
  localStorage w !! "token" = Some (Js.lit "tok-123") /\
  chatMessages (app w') = [] /\ uploadedFile (app w') = None /\
  user (app w') = Js.Null /\
  localStorage w' !! "token" = None /\ localStorage w' !! "user" = None /\
  currentView (app w') = login.
Proof.
  intros w w'.
  destruct (confirmed_logout_clears Variants.Token w Examples.offline)
    as (H1 & H2 & (H3 & H4 & H5 & H6) & _).
  split; [reflexivity|].
  repeat split; assumption.
Defined.

(** C6 as stated fails in the session variant: its logout does not touch
    the view, so from the history view it does not return to the initial
    view, chat. *)
Lemma session_logout_keeps_the_view :
  let w := Examples.page
             (mkApp Js.Undefined history [] [] false (Js.Arr []) [] (Some Examples.indexed)
                false Examples.sessionId)
             Examples.sessionStorage in
  let w' := run (AppSession.handleLogout true (Examples.respond 200 "OK" (Js.Obj []))) w in
  currentView (app w') = history /\
  Variants.initialView Variants.Session = chat /\
  uploadedFile (app w') = None.
Proof. repeat split. Qed.

End Logout.

(* ===================================================================== *)
(** ** Registration *)
(* ===================================================================== *)

Section Register.
Import Model.

Variable toLowerCase : jsstr -> jsstr.

Lemma registerFormOk_decidable (d : RegisterData) :
  Spec.registerFormOk d \/ ~ Spec.registerFormOk d.
Proof.
  unfold Spec.registerFormOk.
  destruct (decide (name d = [])) as [?|H1]; [right; tauto|].
  destruct (decide (email d = [])) as [?|H2]; [right; tauto|].
  destruct (decide (password d = [])) as [?|H3]; [right; tauto|].
  destruct (decide (2 <= length (Js.trim (name d)))%nat) as [H4|?]; [|right; tauto].
  destruct (RegExp.test LoginView.emailRegex (email d)) eqn:H5.
  - apply test_spec in H5.
    destruct (decide (6 <= length (password d))%nat) as [H6|?]; [|right; tauto].
    destruct (decide (password d = confirmPassword d)) as [H7|?]; [|right; tauto].
    left. tauto.
  - right. intros (_ & _ & _ & _ & Hm & _). apply test_spec in Hm. congruence.
Qed.

(** A form that passes: [validateRegisterForm] returns [true] and does
    nothing else. *)
Lemma validateRegisterForm_accepts (self : LoginState) (w : World) :
  Spec.registerFormOk (registerData self) ->
  LoginView.validateRegisterForm self w = (Normal true, w).
Proof.
  intros (H1 & H2 & H3 & H4 & H5 & H6 & H7).
  apply eqb_neq in H1, H2, H3. apply test_spec in H5. apply eqb_eq in H7.
  apply Nat.ltb_ge in H4, H6.
  cbv [LoginView.validateRegisterForm LoginView.validateEmail].
  rewrite H1, H2, H3, H4, H5, H6, H7. reflexivity.
Qed.

(** A form that does not: it returns [false] after exactly one alert. *)
Lemma validateRegisterForm_rejects (self : LoginState) (w : World) :
  ~ Spec.registerFormOk (registerData self) ->
  exists m : AlertMsg,
    LoginView.validateRegisterForm self w =
    (Normal false,
     mkWorld (app w) (loginView w) (localStorage w) (effects w ++ [Alert m])).
Proof.
  intros Hno. destruct w as [a l st ef].
  cbv [LoginView.validateRegisterForm LoginView.validateEmail].
  destruct (Js.eqb (name (registerData self)) []) eqn:H1;
    [eexists; reflexivity|].
  destruct (Js.eqb (email (registerData self)) []) eqn:H2;
    [eexists; reflexivity|].
  destruct (Js.eqb (password (registerData self)) []) eqn:H3;
    [eexists; reflexivity|].
  cbn [orb].
  destruct (length (Js.trim (name (registerData self))) <? 2)%nat eqn:H4;
    [eexists; reflexivity|].
  destruct (RegExp.test LoginView.emailRegex (email (registerData self))) eqn:H5;
    [|eexists; reflexivity].
  cbn [negb].
  destruct (length (password (registerData self)) <? 6)%nat eqn:H6;
    [eexists; reflexivity|].
  destruct (Js.eqb (password (registerData self)) (confirmPassword (registerData self)))
    eqn:H7; [|eexists; reflexivity].
  exfalso. apply Hno.
  apply eqb_neq in H1, H2, H3. apply test_spec in H5. apply eqb_eq in H7.
  apply Nat.ltb_ge in H4, H6.
  unfold Spec.registerFormOk. tauto.
Qed.

(** With a form that passes, [handleRegister] posts the registration,
    once, however the call then goes. *)
Lemma register_valid_posts (net : Settled Response) (w : World) :
  Spec.registerFormOk (registerData (loginView w)) ->
  requests (effects (LoginView.run (LoginView.handleRegister toLowerCase net) w)) =
  requests (effects w) ++
    [LoginView.registerRequest (Js.trim (name (registerData (loginView w))))
       (toLowerCase (email (registerData (loginView w))))
       (password (registerData (loginView w)))].
Proof.
  intros Hok. destruct w as [a l st ef]. cbn [loginView] in Hok.
  cbv [LoginView.handleRegister]. eff_run.
  rewrite (validateRegisterForm_accepts l _ Hok). eff_run.
  destruct net as [r|e]; eff_run.
  - destruct (json r) as [data|e]; eff_run.
    + destruct (ok r); eff_run.
      * effects_norm. rewrite requests_app. reflexivity.
      * destruct data; cbn [Js.get]; eff_run; effects_norm;
          rewrite requests_app; reflexivity.
    + effects_norm. rewrite requests_app. reflexivity.
  - effects_norm. rewrite requests_app. reflexivity.
Qed.

(** With a form that does not, it shows the alert and returns. *)
Lemma register_invalid_alerts (net : Settled Response) (w : World) :
  ~ Spec.registerFormOk (registerData (loginView w)) ->
  exists m : AlertMsg,
    LoginView.run (LoginView.handleRegister toLowerCase net) w =
    mkWorld (app w) (loginView w) (localStorage w) (effects w ++ [Alert m]).
Proof.
  intros Hno.
  destruct (validateRegisterForm_rejects (loginView w) w Hno) as [m Hm].
  exists m. cbv [LoginView.handleRegister LoginView.run mbind Eff_bind].
  rewrite Hm. reflexivity.
Qed.

(** C10. [handleRegister] issues a request exactly when the form passes
    validation (name, email and password non-empty, trimmed name of at
    least 2 characters, email matching the pattern, password of at least 6
    characters and equal to its confirmation); the request is the
    registration POST; when a condition fails, one alert is shown, no
    request is made and nothing else changes. *)
Theorem register_requests_iff_form_valid (net : Settled Response) (w : World) :
  let d := registerData (loginView w) in
  let w' := LoginView.run (LoginView.handleRegister toLowerCase net) w in
  ((exists req : Request, requests (effects w') = requests (effects w) ++ [req])
   <-> Spec.registerFormOk d) /\
  (Spec.registerFormOk d ->
   requests (effects w') =
     requests (effects w) ++
       [LoginView.registerRequest (Js.trim (name d)) (toLowerCase (email d)) (password d)]) /\
  (~ Spec.registerFormOk d ->
   exists m : AlertMsg,
     effects w' = effects w ++ [Alert m] /\ requests (effects w') = requests (effects w) /\
     app w' = app w /\ loginView w' = loginView w /\ localStorage w' = localStorage w).
Proof.
  intros d w'. subst d w'.
  assert (Hbad : ~ Spec.registerFormOk (registerData (loginView w)) ->
    exists m : AlertMsg,
      effects (LoginView.run (LoginView.handleRegister toLowerCase net) w)
        = effects w ++ [Alert m] /\
      requests (effects (LoginView.run (LoginView.handleRegister toLowerCase net) w))
        = requests (effects w) /\
      app (LoginView.run (LoginView.handleRegister toLowerCase net) w) = app w /\
      loginView (LoginView.run (LoginView.handleRegister toLowerCase net) w) = loginView w /\
      localStorage (LoginView.run (LoginView.handleRegister toLowerCase net) w)
        = localStorage w).
  { intros Hno. destruct (register_invalid_alerts net w Hno) as [m Hm].
    exists m. rewrite Hm. cbn [effects app loginView localStorage].
    rewrite requests_app. cbn. rewrite app_nil_r. repeat split. }
  split; [|split; [apply register_valid_posts|exact Hbad]].
  split.
  - intros [req Hreq].
    destruct (registerFormOk_decidable (registerData (loginView w))) as [Hok|Hno];
      [exact Hok|].
    destruct (Hbad Hno) as (m & _ & Hsame & _).
    rewrite Hsame in Hreq.
    rewrite <- (app_nil_r (requests (effects w))) in Hreq at 1.
    apply app_inv_head in Hreq. discriminate Hreq.
  - intros Hok. eexists. apply register_valid_posts. exact Hok.
Qed.

End Register.

Section RegisterWitness.
Import Model.

(** The theorem at a filled-in form: the request goes out. *)
Lemma register_requests_iff_form_valid_witness :
  let d := mkRegisterData (Js.lit " Ana ") (Js.lit "Ana@Example.com")
             (Js.lit "s3cret!") (Js.lit "s3cret!") in
  let w := mkWorld AppToken.initialState
             (mkLogin (mkCredentials [] []) d register) ∅ [] in
  Spec.registerFormOk d /\
  requests (effects (LoginView.run
                       (LoginView.handleRegister Examples.asciiLower Examples.serverError) w))
  = [LoginView.registerRequest (Js.lit "Ana") (Js.lit "ana@example.com") (Js.lit "s3cret!")].
Proof.
  intros d w.
  assert (Hok : Spec.registerFormOk d).
  { unfold Spec.registerFormOk.
    split; [intros H; discriminate H|].
    split; [intros H; discriminate H|].
    split; [intros H; discriminate H|].
    split; [vm_compute; lia|].
    split; [apply test_spec; vm_compute; reflexivity|].
    split; [vm_compute; lia|reflexivity]. }
  split; [exact Hok|].
  exact (proj1 (proj2 (register_requests_iff_form_valid Examples.asciiLower
                         Examples.serverError w)) Hok).
Defined.

End RegisterWitness.

(* ===================================================================== *)
(** ** Responses that are not 2xx *)
(* ===================================================================== *)

Section Non2xx.
Import Model.



(** The form [validateLoginForm] lets through. *)
Lemma validateLoginForm_accepts (self : LoginState) (w : World) :
  cred_email (credentials self) <> [] ->
  cred_password (credentials self) <> [] ->
  LoginView.validateEmail (cred_email (credentials self)) = true ->
  LoginView.validateLoginForm self w = (Normal true, w).
Proof.
  intros H1 H2 H3. apply eqb_neq in H1, H2.
  cbv [LoginView.validateLoginForm]. rewrite H1, H2, H3. reflexivity.
Qed.








End Non2xx.

(* ===================================================================== *)
(** ** Status 401 in the token variant *)
(* ===================================================================== *)

Section Unauthorized.
Import Model.

(** The chat call answered 401: the session-expired alert, then
    [handleLogout]. *)
Lemma token_send_unauthorized (w : World) (file : UploadedFile.t) (r : Response)
    sentAt settledAt :
  Js.trim (currentMessage (app w)) <> [] ->
  isLoading (app w) = false ->
  uploadedFile (app w) = Some file ->
  status r = 401%N ->
  run (AppToken.handleSendMessage sentAt (Fulfilled r) settledAt) w =
  mkWorld
    (mkApp Js.Null login [] [] false (userHistory (app w)) [] None
       (fileProcessing (app w)) (userSessionId (app w)))
    (loginView w)
    (delete "user" (delete "token" (localStorage w)))
    (effects w ++
       [ Fetch (AppToken.chatRequest (localStorage w !! "token") (currentMessage (app w))
                  (UploadedFile.id file));
         Alert SessionExpired;
         Alert Disconnected ]).
Proof.
  intros Htxt Hload Hfile Hst.
  pose proof (unauthorized_not_ok r Hst) as Hok.
  apply eqb_neq in Htxt. open_world w.
  cbv [AppToken.handleSendMessage AppToken.handleLogout].
  eff_run. rewrite Htxt, Hload, Hfile. cbn [orb].
  rewrite Hok, Hst. cbn [N.eqb Pos.eqb]. eff_run. effects_norm. reflexivity.
Qed.

(** [fetchUserHistory] touches neither the user record, nor
    [localStorage], nor the view, whatever the response. *)
Lemma token_history_keeps_session (w : World) (net : Settled Response) :
  let w' := run (AppToken.fetchUserHistory net) w in
  user (app w') = user (app w) /\ localStorage w' = localStorage w /\
  currentView (app w') = currentView (app w).
Proof.
  open_world w. cbv [AppToken.fetchUserHistory]. eff_run.
  match goal with |- context [Js.truthy ?u] => destruct (Js.truthy u) end; eff_run;
    [|repeat split].
  destruct net as [r|e]; eff_run; [|repeat split].
  destruct (ok r); eff_run; [|repeat split].
  destruct (json r) as [data|e]; eff_run; [|repeat split].
  destruct data; cbn [Js.get]; eff_run; repeat split.
Qed.

(** Neither does [handleFileUpload]. *)
Lemma token_upload_keeps_session (w : World) (file : File.t) (net : Settled Response) now :
  let w' := run (AppToken.handleFileUpload (Some file) net now) w in
  user (app w') = user (app w) /\ localStorage w' = localStorage w /\
  currentView (app w') = currentView (app w).
Proof.
  open_world w. cbv [AppToken.handleFileUpload].
  rewrite negated_type_test_is_false. eff_run.
  destruct net as [r|e]; eff_run; [|repeat split].
  destruct (json r) as [data|e]; eff_run; [|repeat split].
  destruct (ok r); destruct data; cbn [Js.get]; eff_run; repeat split.
Qed.

(** C8 (as amended). In the token variant a 401 answer to the chat call
    forces a logout: the user record is cleared, token and user are
    removed from [localStorage], the view is login (and the transcript and
    the file descriptor are cleared, after a session-expired alert). A 401
    answer to the history fetch or to the upload does not: user record,
    [localStorage] and view stay as they were. *)
Theorem unauthorized_forces_logout_on_chat_only (r : Response) (w : World) :
  status r = 401%N ->
  (forall (file : UploadedFile.t) sentAt settledAt,
      Js.trim (currentMessage (app w)) <> [] ->
      isLoading (app w) = false ->
      uploadedFile (app w) = Some file ->
      let w' := run (AppToken.handleSendMessage sentAt (Fulfilled r) settledAt) w in
      user (app w') = Js.Null /\
      localStorage w' !! "token" = None /\ localStorage w' !! "user" = None /\
      currentView (app w') = login /\
      chatMessages (app w') = [] /\ uploadedFile (app w') = None /\
      alerts (effects w') = alerts (effects w) ++ [SessionExpired; Disconnected]) /\
  (let w' := run (AppToken.fetchUserHistory (Fulfilled r)) w in
   user (app w') = user (app w) /\ localStorage w' = localStorage w /\
   currentView (app w') = currentView (app w)) /\
  (forall (file : File.t) now,
      let w' := run (AppToken.handleFileUpload (Some file) (Fulfilled r) now) w in
      user (app w') = user (app w) /\ localStorage w' = localStorage w /\
      currentView (app w') = currentView (app w)).
Proof.
  intros Hst. split; [|split].
  - intros file sentAt settledAt Htxt Hload Hfile w'. subst w'.
    rewrite (token_send_unauthorized w file r sentAt settledAt Htxt Hload Hfile Hst).
    cbn [app localStorage effects user currentView chatMessages uploadedFile].
    split; [reflexivity|].
    split; [rewrite lookup_delete_ne by discriminate; apply lookup_delete_eq|].
    split; [apply lookup_delete_eq|].
    rewrite alerts_app. repeat split.
  - apply token_history_keeps_session.
  - intros file now. apply token_upload_keeps_session.
Qed.

(** The theorem at a logged-in page whose question is answered 401. *)
Lemma unauthorized_forces_logout_on_chat_only_witness :
  let w := Examples.loggedIn chat (Js.lit "What is it about?") [] in
  let w' := run (AppToken.handleSendMessage (Js.lit "10:00:00") Examples.unauthorized
                   (Js.lit "10:00:01")) w in
  user (app w) = Examples.alice /\ localStorage w !! "token" = Some (Js.lit "tok-123") /\
  user (app w') = Js.Null /\
  localStorage w' !! "token" = None /\ localStorage w' !! "user" = None /\
  currentView (app w') = login /\
  alerts (effects w') = [SessionExpired; Disconnected].
Proof.
  intros w w'.
  assert (Htxt : Js.trim (currentMessage (app w)) <> []) by (intros H; discriminate H).
  destruct (proj1 (unauthorized_forces_logout_on_chat_only
                     (Examples.jsonResponse 401 "Unauthorized"
                        (Js.Obj [(Js.lit "detail", Js.Str (Js.lit "Not authenticated"))]))
                     w eq_refl)
              Examples.indexed (Js.lit "10:00:00") (Js.lit "10:00:01")
              Htxt eq_refl eq_refl)
    as (H1 & H2 & H3 & H4 & _ & _ & H5).
  split; [reflexivity|]. split; [reflexivity|].
  split; [exact H1|]. split; [exact H2|]. split; [exact H3|]. split; [exact H4|].
  exact H5.
Defined.

(** C8 as stated fails for the history call: answered 401, the page stays
    logged in, with the token still stored and the history view shown. *)
Lemma unauthorized_history_keeps_session :
  let w := Examples.loggedIn history [] [] in
  let w' := run (AppToken.fetchUserHistory Examples.unauthorized) w in
  user (app w') = Examples.alice /\
  localStorage w' !! "token" = Some (Js.lit "tok-123") /\
  currentView (app w') = history /\
  AppToken.render (app w') = HistoryScreen /\
  alerts (effects w') = [].
Proof. repeat split. Qed.

End Unauthorized.

(* ===================================================================== *)
(** ** The shape of an accepted email address *)
(* ===================================================================== *)

Section EmailShape.
Import RegExp.

Lemma Matches_Cat_iff (r1 r2 : t) (s : jsstr) :
  Matches (Cat r1 r2) s <->
  exists s1 s2 : jsstr, s = s1 ++ s2 /\ Matches r1 s1 /\ Matches r2 s2.
Proof.
  split.
  - intros H. inversion H; subst. eauto.
  - intros (s1 & s2 & -> & H1 & H2). constructor; assumption.
Qed.

Lemma Matches_Chr_iff (c : N) (s : jsstr) : Matches (Chr c) s <-> s = [c].
Proof.
  unfold Chr. split.
  - intros H. inversion H as [|p d Hd| | | | |]; subst.
    apply N.eqb_eq in Hd. subst. reflexivity.
  - intros ->. constructor. apply N.eqb_refl.
Qed.

(** [validateEmail] accepts exactly the strings [a@b.c] whose three parts
    are non-empty and free of white space and of [@] (the parts after the
    [@] may themselves contain dots). *)
Lemma validateEmail_shape (s : jsstr) :
  LoginView.validateEmail s = true <->
  exists a b c : jsstr,
    s = a ++ [64%N] ++ b ++ [46%N] ++ c /\
    Spec.emailPart a /\ Spec.emailPart b /\ Spec.emailPart c.
Proof.
  unfold LoginView.validateEmail, LoginView.emailRegex, Spec.emailPart.
  rewrite test_spec. cbv zeta.
  rewrite Matches_Cat_iff. split.
  - intros (a & s1 & -> & Ha & H).
    apply Matches_Cat_iff in H as (at_ & s2 & -> & Hat & H).
    apply Matches_Chr_iff in Hat as ->.
    apply Matches_Cat_iff in H as (b & s3 & -> & Hb & H).
    apply Matches_Cat_iff in H as (dot & c & -> & Hdot & Hc).
    apply Matches_Chr_iff in Hdot as ->.
    apply Matches_Plus_Class in Ha, Hb, Hc.
    exists a, b, c. tauto.
  - intros (a & b & c & -> & Ha & Hb & Hc).
    apply Matches_Plus_Class in Ha, Hb, Hc.
    exists a, ([64%N] ++ b ++ [46%N] ++ c). split; [reflexivity|]. split; [exact Ha|].
    apply Matches_Cat_iff. exists [64%N], (b ++ [46%N] ++ c).
    split; [reflexivity|]. split; [apply Matches_Chr_iff; reflexivity|].
    apply Matches_Cat_iff. exists b, ([46%N] ++ c).
    split; [reflexivity|]. split; [exact Hb|].
    apply Matches_Cat_iff. exists [46%N], c.
    split; [reflexivity|]. split; [apply Matches_Chr_iff; reflexivity|exact Hc].
Qed.

End EmailShape.

(* ===================================================================== *)
(** ** The lemmas above at sample pages *)
(* ===================================================================== *)

Section Samples.
Import Model.

(** Two answered exchanges on a page with a file: identifiers 1 to 4. *)
Lemma answered_conversation_keeps_ids_distinct_witness :
  let turns :=
    [ Spec.mkTurn (Js.lit "What is it about?") (Js.lit "10:00:00") Examples.answered
        (Js.lit "10:00:05");
      Spec.mkTurn (Js.lit "Who wrote it?") (Js.lit "10:01:00") Examples.answered
        (Js.lit "10:01:02") ] in
  Forall Spec.Answered turns /\
  NoDup (Spec.ids (Spec.converse Examples.asciiLower turns (Examples.asking [] []))).
Proof.
  intros turns.
  assert (Hall : Forall Spec.Answered turns).
  { repeat constructor; try (intros H; discriminate H);
      eexists; eexists; repeat split. }
  split; [exact Hall|].
  apply (answered_conversation_keeps_ids_distinct Examples.asciiLower turns
           (Examples.asking [] []) Examples.indexed).
  - split; reflexivity.
  - reflexivity.
  - exact Hall.
Defined.

(** A text file offered to the session variant: turned away. *)
Lemma session_upload_rejects_non_pdf_witness :
  File.type Examples.notes_txt <> Js.lit "application/pdf" /\
  run (Variants.handleFileUpload Variants.Session (Some Examples.notes_txt)
         Examples.uploaded (Js.lit "2025-01-02T00:00:00.000Z")) Examples.fresh =
  mkWorld (app Examples.fresh) (loginView Examples.fresh) (localStorage Examples.fresh)
    (effects Examples.fresh ++ [Alert OnlyPdfAccepted]).
Proof.
  assert (Hty : File.type Examples.notes_txt <> Js.lit "application/pdf")
    by (intros H; discriminate H).
  split; [exact Hty|].
  exact (session_upload_rejects_non_pdf Variants.Session Examples.notes_txt
           Examples.uploaded (Js.lit "2025-01-02T00:00:00.000Z") Examples.fresh
           eq_refl Hty).
Defined.

End Samples.

(* ===================================================================== *)
(** ** Sending a message: every variant, every outcome *)
(* ===================================================================== *)

Section SendOutcomes.
Import Model.

(** A send that passes the guards issues the variant's chat request,
    once, with the question as typed and the file's identifier. *)
Lemma send_requests (v : Variants.Variant) (w : World) (file : UploadedFile.t)
    sentAt net settledAt :
  Js.trim (currentMessage (app w)) <> [] ->
  isLoading (app w) = false ->
  uploadedFile (app w) = Some file ->
  requests (effects (run (Variants.handleSendMessage v sentAt net settledAt) w)) =
  requests (effects w) ++
    [Variants.chatRequest v w (currentMessage (app w)) (UploadedFile.id file)].
Proof.
  intros Htxt Hload Hfile. apply eqb_neq in Htxt. open_world w. subst.
  destruct v;
    cbv [Variants.handleSendMessage Variants.chatRequest
         AppSession.handleSendMessage AppSessionV1.handleSendMessage
         AppToken.handleSendMessage AppNoAuth.handleSendMessage
         AppToken.handleLogout AppSession.email AppSessionV1.email];
    eff_run; rewrite Htxt; cbn [orb]; settle;
    effects_norm; rewrite requests_app; reflexivity.
Qed.

(** In every variant and however the call goes, a send that passes the
    guards issues exactly one request, ends with the loading flag down,
    the input and the suggestions empty, and leaves the transcript as it
    was followed by the question (numbered one more than the length the
    handler saw) and exactly one bot message, the answer or the apology,
    the file in place and no alert shown. The one exception is the token
    variant answered 401, where the logout empties transcript, file and
    user. *)
Theorem send_appends_question_and_one_reply (v : Variants.Variant) (w : World)
    (file : UploadedFile.t) sentAt net settledAt :
  Js.trim (currentMessage (app w)) <> [] ->
  isLoading (app w) = false ->
  uploadedFile (app w) = Some file ->
  let w' := run (Variants.handleSendMessage v sentAt net settledAt) w in
  let question :=
    Message.mk (length (chatMessages (app w)) + 1) (Js.Str (currentMessage (app w)))
      User sentAt (Js.Arr []) false in
  requests (effects w') =
    requests (effects w) ++
      [Variants.chatRequest v w (currentMessage (app w)) (UploadedFile.id file)] /\
  isLoading (app w') = false /\ currentMessage (app w') = [] /\
  suggestions (app w') = [] /\
  ((exists reply : Message.t,
       Message.sender reply = Bot /\ Message.timestamp reply = settledAt /\
       chatMessages (app w') = chatMessages (app w) ++ [question; reply] /\
       uploadedFile (app w') = Some file /\
       alerts (effects w') = alerts (effects w))
   \/ (v = Variants.Token /\ (exists r, net = Fulfilled r /\ status r = 401%N) /\
       chatMessages (app w') = [] /\ uploadedFile (app w') = None /\
       user (app w') = Js.Null)).
Proof.
  intros Htxt Hload Hfile w' question. subst w' question.
  split; [apply send_requests; assumption|].
  apply eqb_neq in Htxt. open_world w. subst.
  destruct v;
    cbv [Variants.handleSendMessage
         AppSession.handleSendMessage AppSessionV1.handleSendMessage
         AppToken.handleSendMessage AppNoAuth.handleSendMessage
         AppToken.handleLogout];
    eff_run; rewrite Htxt; cbn [orb]; settle.
  all: split; [reflexivity|]; split; [reflexivity|]; split; [reflexivity|].
  all: try (left; eexists; effects_norm; rewrite ?alerts_app, ?app_nil_r, <- ?app_assoc;
            cbn [Datatypes.app Message.sender Message.timestamp];
            split; [|split; [|split; [reflexivity|split; reflexivity]]]; reflexivity).
  all: right; split; [reflexivity|]; split; [|repeat split].
  all: eexists; split; [reflexivity|]; apply N.eqb_eq; assumption.
Qed.
End SendOutcomes.

(* ===================================================================== *)
(** ** Uploading a file: every variant, every outcome *)
(* ===================================================================== *)

Section UploadOutcomes.
Import Model.

(** The upload of a PDF issues the variant's upload request, once. *)
Lemma upload_requests (v : Variants.Variant) (file : File.t) net now w :
  File.type file = Js.lit "application/pdf" ->
  requests (effects (run (Variants.handleFileUpload v (Some file) net now) w)) =
  requests (effects w) ++ [Variants.uploadRequest v w file].
Proof.
  intros Hty. apply eqb_eq in Hty. open_world w.
  destruct v;
    cbv [Variants.handleFileUpload Variants.uploadRequest
         AppSession.handleFileUpload AppSessionV1.handleFileUpload
         AppToken.handleFileUpload AppNoAuth.handleFileUpload
         AppSession.email AppSessionV1.email];
    rewrite ?Hty, ?negated_type_test_is_false; settle;
    effects_norm; rewrite requests_app; reflexivity.
Qed.

(** In every variant and however the call goes, the upload of a PDF
    issues one request, ends with [fileProcessing] down, and ends in
    exactly one of two alerts. After "processed", the transcript is empty
    and a descriptor with the file's name and the upload date is in place.
    After "failed", the session variants are left with no file and no
    transcript (they cleared both before the call), while the token and
    no-auth variants keep the file and the transcript they had. *)
Theorem upload_ends_in_one_alert (v : Variants.Variant) (file : File.t) net now w :
  File.type file = Js.lit "application/pdf" ->
  let w' := run (Variants.handleFileUpload v (Some file) net now) w in
  requests (effects w') = requests (effects w) ++ [Variants.uploadRequest v w file] /\
  fileProcessing (app w') = false /\
  ((alerts (effects w') = alerts (effects w) ++ [FileProcessed (File.name file)] /\
    chatMessages (app w') = [] /\
    exists d : UploadedFile.t,
      uploadedFile (app w') = Some d /\
      UploadedFile.name d = File.name file /\ UploadedFile.uploadDate d = now)
   \/ (exists message : jsstr,
         alerts (effects w') = alerts (effects w) ++ [UploadFailed message] /\
         if Variants.clearsBeforeUpload v
         then uploadedFile (app w') = None /\ chatMessages (app w') = []
         else uploadedFile (app w') = uploadedFile (app w) /\
              chatMessages (app w') = chatMessages (app w))).
Proof.
  intros Hty w'. subst w'.
  split; [apply upload_requests; assumption|].
  apply eqb_eq in Hty. open_world w.
  destruct v;
    cbv [Variants.handleFileUpload Variants.clearsBeforeUpload
         AppSession.handleFileUpload AppSessionV1.handleFileUpload
         AppToken.handleFileUpload AppNoAuth.handleFileUpload];
    rewrite ?Hty, ?negated_type_test_is_false; settle.
  all: split; [reflexivity|]; effects_norm; rewrite alerts_app; cbn [alerts omap].
  all: try (left; split; [reflexivity|]; split; [reflexivity|];
            eexists; split; [reflexivity|]; split; reflexivity).
  all: try (right; eexists; split; [reflexivity|]; split; reflexivity).
Qed.

(** A file chosen in [ChatView]'s input reaches the backend exactly when
    its type is [application/pdf], in every variant: the view's own test
    stops the others with its alert before the container's
    [handleFileUpload] runs (so also in the token and no-auth variants,
    whose own test lets everything through), a PDF is handed to
    [handleFileUpload] unchanged, and a dismissed picker does nothing.
    Both versions of the view agree. *)
Theorem picked_file_is_sent_iff_pdf (v : Variants.Variant) (file : option File.t)
    net now w :
  let handleFileUpload :=
    fun f : File.t => Variants.handleFileUpload v (Some f) net now (app w) in
  let w' := snd (ChatView.handleFileChange handleFileUpload file w) in
  ((exists req : Request, requests (effects w') = requests (effects w) ++ [req])
   <-> exists f : File.t, file = Some f /\ File.type f = Js.lit "application/pdf") /\
  (forall f : File.t,
      file = Some f -> File.type f = Js.lit "application/pdf" ->
      w' = run (Variants.handleFileUpload v (Some f) net now) w) /\
  (forall f : File.t,
      file = Some f -> File.type f <> Js.lit "application/pdf" ->
      w' = mkWorld (app w) (loginView w) (localStorage w)
             (effects w ++ [Alert OnlyPdfAcceptedView])) /\
  (file = None -> w' = w) /\
  snd (ChatViewV1.handleFileChange handleFileUpload file w) = w'.
Proof.
  intros handleFileUpload w'. subst handleFileUpload w'.
  assert (Hpdf : forall f : File.t,
             File.type f = Js.lit "application/pdf" ->
             snd (ChatView.handleFileChange
                    (fun f => Variants.handleFileUpload v (Some f) net now (app w))
                    (Some f) w)
             = run (Variants.handleFileUpload v (Some f) net now) w).
  { intros f Hty. apply eqb_eq in Hty.
    cbv [ChatView.handleFileChange run]. rewrite Hty. reflexivity. }
  assert (Hnot : forall f : File.t,
             File.type f <> Js.lit "application/pdf" ->
             snd (ChatView.handleFileChange
                    (fun f => Variants.handleFileUpload v (Some f) net now (app w))
                    (Some f) w)
             = mkWorld (app w) (loginView w) (localStorage w)
                 (effects w ++ [Alert OnlyPdfAcceptedView])).
  { intros f Hty. apply eqb_neq in Hty.
    cbv [ChatView.handleFileChange]. rewrite Hty. reflexivity. }
  split; [|split; [|split; [|split]]].
  - split.
    + intros [req Hreq]. destruct file as [f|].
      * destruct (decide (File.type f = Js.lit "application/pdf")) as [Hty|Hty];
          [exists f; split; [reflexivity|exact Hty]|].
        rewrite (Hnot f Hty) in Hreq. cbn [effects] in Hreq.
        rewrite requests_app in Hreq. apply app_inv_head in Hreq. discriminate Hreq.
      * cbn in Hreq. rewrite <- (app_nil_r (requests (effects w))) in Hreq at 1.
        apply app_inv_head in Hreq. discriminate Hreq.
    + intros (f & -> & Hty). eexists. rewrite (Hpdf f Hty).
      apply upload_requests. exact Hty.
  - intros f -> Hty. apply Hpdf. exact Hty.
  - intros f -> Hty. apply Hnot. exact Hty.
  - intros ->. destruct w. reflexivity.
  - reflexivity.
Qed.

(** [handleChangeFile]: once the user confirms, the current file, the
    transcript, the input and the suggestions are gone before a new file
    is chosen: if the picker is dismissed the page is left without a
    file, and whatever file is there afterwards is the newly picked PDF,
    never the old one. If the user declines, nothing but the question
    itself has happened. *)
Theorem change_file_confirmed_drops_old_file (picked : option File.t) net now w :
  let w' := run (AppSession.handleChangeFile true picked net now) w in
  chatMessages (app w') = [] /\ currentMessage (app w') = [] /\
  suggestions (app w') = [] /\
  (uploadedFile (app w') = None \/
   exists (f : File.t) (d : UploadedFile.t),
     picked = Some f /\ File.type f = Js.lit "application/pdf" /\
     uploadedFile (app w') = Some d /\
     UploadedFile.name d = File.name f /\ UploadedFile.uploadDate d = now) /\
  (picked = None ->
   uploadedFile (app w') = None /\
   effects w' = effects w ++ [Confirm ConfirmChangeFile true; OpenFilePicker]) /\
  run (AppSession.handleChangeFile false picked net now) w =
    mkWorld (app w) (loginView w) (localStorage w)
      (effects w ++ [Confirm ConfirmChangeFile false]).
Proof.
  intros w'. subst w'. open_world w.
  cbv [AppSession.handleChangeFile AppSession.handleFileUpload]. eff_run.
  destruct picked as [f|]; eff_run.
  - destruct (Js.eqb (File.type f) (Js.lit "application/pdf")) eqn:Hty; settle.
    all: split; [reflexivity|]; split; [reflexivity|]; split; [reflexivity|].
    all: split; [|split; [intros H; discriminate H|reflexivity]].
    all: try (left; reflexivity).
    all: right; exists f; eexists; apply eqb_eq in Hty;
      split; [reflexivity|]; split; [exact Hty|]; split; [reflexivity|];
      split; reflexivity.
  - effects_norm. repeat split. left. reflexivity.
Qed.
End UploadOutcomes.

(* ===================================================================== *)
(** ** The session identifier *)
(* ===================================================================== *)

Section SessionIdentity.
Import Model.

(** Literals and decimal renderings are injective. *)
Lemma lit_inj (s u : string) : Js.lit s = Js.lit u -> s = u.
Proof.
  unfold Js.lit. intros H.
  rewrite <- (string_of_list_ascii_of_string s), <- (string_of_list_ascii_of_string u).
  f_equal.
  revert H. generalize (list_ascii_of_string s) (list_ascii_of_string u).
  induction l as [|a l IH]; intros [|b l']; cbn; intros H; try discriminate H.
  - reflexivity.
  - injection H as Hab Hl.
    rewrite <- (ascii_N_embedding a), <- (ascii_N_embedding b), Hab.
    f_equal. apply IH. exact Hl.
Qed.

Lemma of_N_inj (n m : N) : Js.of_N n = Js.of_N m -> n = m.
Proof.
  unfold Js.of_N. intros H. apply lit_inj in H.
  assert (Hnn : forall k : N, N.to_uint k <> Decimal.Nil).
  { intros [|p]; [discriminate|apply DecimalPos.Unsigned.to_uint_nonnil]. }
  pose proof (NilZero.usu _ (Hnn n)) as Hn.
  pose proof (NilZero.usu _ (Hnn m)) as Hm.
  rewrite H, Hm in Hn. injection Hn as Hn.
  rewrite <- (DecimalN.Unsigned.of_to n), <- (DecimalN.Unsigned.of_to m), Hn.
  reflexivity.
Qed.

(** The decimal rendering of a number consists of digits. *)
Lemma of_N_digits (n : N) : Forall (fun c => 48 <= c <= 57) (Js.of_N n).
Proof.
  unfold Js.of_N, Js.lit.
  assert (H : forall d : Decimal.uint,
             Forall (fun c => 48 <= c <= 57)
               (List.map N_of_ascii (list_ascii_of_string (NilEmpty.string_of_uint d)))).
  { induction d; cbn; constructor; try exact IHd; lia. }
  destruct (N.to_uint n) eqn:E; try (rewrite <- E; exact (H (N.to_uint n)));
  cbn; try (constructor; [lia|]); try exact (H _).
  constructor.
Qed.

(** Two strings cut at the first occurrence of a separator. *)
Lemma app_sep_inj (sep : N) (l1 l2 r1 r2 : jsstr) :
  Forall (fun c => c <> sep) l1 -> Forall (fun c => c <> sep) l2 ->
  l1 ++ sep :: r1 = l2 ++ sep :: r2 -> l1 = l2 /\ r1 = r2.
Proof.
  revert l2. induction l1 as [|a l1 IH]; intros [|b l2] H1 H2 E; cbn in E.
  - injection E as ->. split; reflexivity.
  - injection E as <- _. apply Forall_cons in H2 as [Hb _]. contradiction.
  - injection E as -> _. apply Forall_cons in H1 as [Ha _]. contradiction.
  - injection E as -> E.
    apply Forall_cons in H1 as [_ H1]. apply Forall_cons in H2 as [_ H2].
    destruct (IH l2 H1 H2 E) as [-> ->]. split; reflexivity.
Qed.

(** Two generated session identifiers are equal only if they were made
    at the same clock reading with the same random suffix (the nine
    characters after ["0."]): the decimal clock reading cannot run into
    the suffix, since it holds no underscore. *)
Theorem generateSessionId_injective (now1 now2 : N) (random1 random2 : jsstr) :
  AppSessionV1.generateSessionId now1 random1 = AppSessionV1.generateSessionId now2 random2
  <-> now1 = now2 /\ Js.substr 2 9 random1 = Js.substr 2 9 random2.
Proof.
  unfold AppSessionV1.generateSessionId. split.
  - intros E. apply app_inv_head in E.
    change (Js.lit "_") with [95] in E. cbn [Datatypes.app] in E.
    apply app_sep_inj in E as [En Er].
    + split; [apply of_N_inj; exact En|exact Er].
    + eapply Forall_impl; [apply of_N_digits|]. cbn. intros c Hc ->. lia.
    + eapply Forall_impl; [apply of_N_digits|]. cbn. intros c Hc ->. lia.
  - intros [-> ->]. reflexivity.
Qed.

End SessionIdentity.

Section SessionMount.
Import Model.

(** A generated identifier starts with [user_]. *)
Lemma generateSessionId_nonempty (now : N) (random36 : jsstr) :
  AppSessionV1.generateSessionId now random36 <> [].
Proof. intros H. discriminate H. Qed.

(** Mounting the session variant: the page ends with a non-empty session
    identifier that is also the stored one, every other cell at its
    initial value. A stored non-empty identifier is kept and nothing is
    written; a missing or empty one is replaced by a generated one.
    Mounting again (a reload) keeps the identifier, and so does a reload
    after a confirmed logout: only a new session changes it. *)
Theorem mount_keeps_stored_session (now : N) (random36 : jsstr) (w : World) :
  let w' := snd (AppSessionV1.mount now random36 w) in
  userSessionId (app w') <> [] /\
  localStorage w' !! "askfile_session_id" = Some (userSessionId (app w')) /\
  app w' = AppSessionV1.initialState (userSessionId (app w')) /\
  (forall id : jsstr,
      localStorage w !! "askfile_session_id" = Some id -> id <> [] ->
      userSessionId (app w') = id /\ localStorage w' = localStorage w) /\
  (localStorage w !! "askfile_session_id" = None \/
   localStorage w !! "askfile_session_id" = Some [] ->
   userSessionId (app w') = AppSessionV1.generateSessionId now random36) /\
  (forall (now2 : N) (random2 : jsstr),
      let w'' := snd (AppSessionV1.mount now2 random2 w') in
      userSessionId (app w'') = userSessionId (app w') /\
      localStorage w'' = localStorage w') /\
  (forall (net : Settled Response) (now2 : N) (random2 : jsstr),
      let w'' := snd (AppSessionV1.mount now2 random2
                        (run (AppSessionV1.handleLogout true net) w')) in
      userSessionId (app w'') = userSessionId (app w')).
Proof.
  intros w'.
  assert (Hstored : forall (n : N) (r : jsstr) (w0 : World) (c : N) (s : jsstr),
             localStorage w0 !! "askfile_session_id" = Some (c :: s) ->
             snd (AppSessionV1.mount n r w0) =
             mkWorld (AppSessionV1.initialState (c :: s)) (loginView w0)
               (localStorage w0) (effects w0)).
  { intros n r w0 c s H. destruct w0 as [a l st ef]. cbn [localStorage] in H.
    cbv [AppSessionV1.mount]. eff_run. read_storage H. reflexivity. }
  assert (Hfresh : forall (n : N) (r : jsstr) (w0 : World),
             localStorage w0 !! "askfile_session_id" = None \/
             localStorage w0 !! "askfile_session_id" = Some [] ->
             snd (AppSessionV1.mount n r w0) =
             mkWorld (AppSessionV1.initialState (AppSessionV1.generateSessionId n r))
               (loginView w0)
               (<["askfile_session_id" := AppSessionV1.generateSessionId n r]>
                  (localStorage w0))
               (effects w0)).
  { intros n r w0 H. destruct w0 as [a l st ef]. cbn [localStorage] in H.
    cbv [AppSessionV1.mount]. eff_run.
    destruct H as [H|H]; read_storage H; reflexivity. }
  assert (Hcases : exists id : jsstr,
             id <> [] /\ app w' = AppSessionV1.initialState id /\
             localStorage w' !! "askfile_session_id" = Some id).
  { subst w'. destruct (localStorage w !! "askfile_session_id") as [[|c s]|] eqn:E.
    - rewrite (Hfresh now random36 w (or_intror E)).
      eexists. split; [apply generateSessionId_nonempty|].
      split; [reflexivity|]. apply lookup_insert_eq.
    - rewrite (Hstored now random36 w c s E).
      eexists. split; [|split; [reflexivity|exact E]]. discriminate.
    - rewrite (Hfresh now random36 w (or_introl E)).
      eexists. split; [apply generateSessionId_nonempty|].
      split; [reflexivity|]. apply lookup_insert_eq. }
  destruct Hcases as (id & Hid & Happ & Hst).
  assert (Hagain : forall (w0 : World) (n : N) (r : jsstr),
             localStorage w0 !! "askfile_session_id" = Some id ->
             userSessionId (app (snd (AppSessionV1.mount n r w0))) = id /\
             localStorage (snd (AppSessionV1.mount n r w0)) = localStorage w0).
  { intros w0 n r H. destruct id as [|c s]; [contradiction|].
    rewrite (Hstored n r w0 c s H). split; reflexivity. }
  rewrite Happ. cbn [userSessionId AppSessionV1.initialState].
  split; [exact Hid|]. split; [exact Hst|]. split; [reflexivity|].
  split; [|split; [|split]].
  - intros id' E Hne. subst w'. destruct id' as [|c s]; [contradiction|].
    rewrite (Hstored now random36 w c s E) in Happ |- *.
    cbn [app localStorage] in *. injection Happ as <-. split; reflexivity.
  - intros E. subst w'. rewrite (Hfresh now random36 w E) in Happ.
    cbn [app] in Happ. injection Happ as <-. reflexivity.
  - intros now2 random2. cbn zeta. apply Hagain. exact Hst.
  - intros net now2 random2. cbn zeta. apply Hagain.
    rewrite (proj2 (sessionV1_logout_confirmed w' net)). exact Hst.
Qed.

End SessionMount.

(* ===================================================================== *)
(** ** Logging in *)
(* ===================================================================== *)

Section Login.
Import Model.

Variable JSON_stringify : Js.val -> jsstr.

(** The login form passes or does not. *)
Lemma loginFormOk_decidable (c : Credentials) :
  Spec.loginFormOk c \/ ~ Spec.loginFormOk c.
Proof.
  unfold Spec.loginFormOk.
  destruct (decide (cred_email c = [])) as [?|H1]; [right; tauto|].
  destruct (decide (cred_password c = [])) as [?|H2]; [right; tauto|].
  destruct (RegExp.test LoginView.emailRegex (cred_email c)) eqn:H3.
  - apply test_spec in H3. left. tauto.
  - right. intros (_ & _ & Hm). apply test_spec in Hm. congruence.
Qed.

(** A form that passes: [validateLoginForm] returns [true] and does
    nothing else. *)
Lemma validateLoginForm_passes (self : LoginState) (w : World) :
  Spec.loginFormOk (credentials self) ->
  LoginView.validateLoginForm self w = (Normal true, w).
Proof.
  intros (H1 & H2 & H3). apply validateLoginForm_accepts; try assumption.
  apply test_spec. exact H3.
Qed.

(** A form that does not: it returns [false] after exactly one alert. *)
Lemma validateLoginForm_rejects (self : LoginState) (w : World) :
  ~ Spec.loginFormOk (credentials self) ->
  exists m : AlertMsg,
    LoginView.validateLoginForm self w =
    (Normal false,
     mkWorld (app w) (loginView w) (localStorage w) (effects w ++ [Alert m])).
Proof.
  intros Hno. destruct w as [a l st ef].
  cbv [LoginView.validateLoginForm LoginView.validateEmail].
  destruct (Js.eqb (cred_email (credentials self)) []) eqn:H1;
    [eexists; reflexivity|].
  destruct (Js.eqb (cred_password (credentials self)) []) eqn:H2;
    [eexists; reflexivity|].
  cbn [orb].
  destruct (RegExp.test LoginView.emailRegex (cred_email (credentials self))) eqn:H3;
    [|eexists; reflexivity].
  exfalso. apply Hno.
  apply eqb_neq in H1, H2. apply test_spec in H3.
  unfold Spec.loginFormOk. tauto.
Qed.

(** With a form that passes, [handleLogin] posts the credentials, once,
    however the call then goes. *)
Lemma login_valid_posts (net : Settled Response) (w : World) :
  Spec.loginFormOk (credentials (loginView w)) ->
  requests (effects (LoginView.run
                       (LoginView.handleLogin (AppToken.onLoginSuccess JSON_stringify) net)
                       w)) =
  requests (effects w) ++
    [LoginView.loginRequest (cred_email (credentials (loginView w)))
       (cred_password (credentials (loginView w)))].
Proof.
  intros Hok. destruct w as [a l st ef]. cbn [loginView] in Hok.
  cbv [LoginView.handleLogin AppToken.onLoginSuccess]. eff_run.
  rewrite (validateLoginForm_passes l _ Hok). settle;
    effects_norm; rewrite requests_app; reflexivity.
Qed.

(** [handleLogin] issues a request exactly when the form passes
    validation (email and password non-empty, email matching the
    pattern); the request is the login POST with the email and the
    password as typed; when a condition fails, one alert is shown ("fill
    in email and password" or "invalid email") and nothing else
    happens. *)
Theorem login_requests_iff_form_valid (net : Settled Response) (w : World) :
  let c := credentials (loginView w) in
  let w' := LoginView.run
              (LoginView.handleLogin (AppToken.onLoginSuccess JSON_stringify) net) w in
  ((exists req : Request, requests (effects w') = requests (effects w) ++ [req])
   <-> Spec.loginFormOk c) /\
  (Spec.loginFormOk c ->
   requests (effects w') =
     requests (effects w) ++ [LoginView.loginRequest (cred_email c) (cred_password c)]) /\
  (~ Spec.loginFormOk c ->
   exists m : AlertMsg,
     (m = FillEmailAndPassword \/ m = InvalidEmail) /\
     w' = mkWorld (app w) (loginView w) (localStorage w) (effects w ++ [Alert m])).
Proof.
  intros c w'. subst c w'.
  assert (Hbad : ~ Spec.loginFormOk (credentials (loginView w)) ->
    exists m : AlertMsg,
      (m = FillEmailAndPassword \/ m = InvalidEmail) /\
      LoginView.run (LoginView.handleLogin (AppToken.onLoginSuccess JSON_stringify) net) w
      = mkWorld (app w) (loginView w) (localStorage w) (effects w ++ [Alert m])).
  { intros Hno. destruct (validateLoginForm_rejects (loginView w) w Hno) as [m Hm].
    exists m. split.
    - revert Hm. destruct w as [a l st ef].
      cbv [LoginView.validateLoginForm]. clear Hno.
      repeat match goal with
             | |- context [if ?b then _ else _] => destruct b
             end; intros Hm; injection Hm as Hm; try discriminate Hm;
        apply app_inv_head in Hm; injection Hm as <-; tauto.
    - cbv [LoginView.handleLogin LoginView.run mbind Eff_bind].
      rewrite Hm. reflexivity. }
  split; [|split; [apply login_valid_posts|exact Hbad]].
  split.
  - intros [req Hreq].
    destruct (loginFormOk_decidable (credentials (loginView w))) as [Hok|Hno];
      [exact Hok|].
    destruct (Hbad Hno) as (m & _ & Hsame).
    rewrite Hsame in Hreq. cbn [effects] in Hreq.
    rewrite requests_app in Hreq. apply app_inv_head in Hreq. discriminate Hreq.
  - intros Hok. eexists. apply login_valid_posts. exact Hok.
Qed.

End Login.

Section LoginSuccess.
Import Model.

Variable JSON_stringify : Js.val -> jsstr.
Variable toLowerCase : jsstr -> jsstr.


(** After a registration answered 2xx the form is back on the login tab
    with the registration form emptied and the login email filled in with
    the address as it was typed; the page is not logged in and nothing is
    stored. Entering the password and logging in then posts that address
    unchanged, whereas the registration posted it in lower case. *)
Theorem register_then_login_posts_email_as_typed (r : Response) (data : Js.val)
    (net : Settled Response) (w : World) :
  let d := registerData (loginView w) in
  Spec.registerFormOk d ->
  ok r = true ->
  json r = Fulfilled data ->
  let w1 := LoginView.run (LoginView.handleRegister toLowerCase (Fulfilled r)) w in
  let w2 := LoginView.run (LoginView.changeLoginPassword (password d)) w1 in
  let w3 := LoginView.run
              (LoginView.handleLogin (AppToken.onLoginSuccess JSON_stringify) net) w2 in
  loginView w1 =
    mkLogin (mkCredentials (email d) []) LoginView.emptyRegisterData traditional /\
  alerts (effects w1) = alerts (effects w) ++ [RegisterDone] /\
  isLoading (app w1) = false /\ user (app w1) = user (app w) /\
  localStorage w1 = localStorage w /\
  requests (effects w3) =
    requests (effects w) ++
      [ LoginView.registerRequest (Js.trim (name d)) (toLowerCase (email d)) (password d);
        LoginView.loginRequest (email d) (password d) ].
Proof.
  intros d Hform Hok Hjson w1 w2 w3.
  assert (H1 : w1 =
    mkWorld
      (mkApp (user (app w)) (currentView (app w)) (chatMessages (app w))
         (currentMessage (app w)) false (userHistory (app w)) (suggestions (app w))
         (uploadedFile (app w)) (fileProcessing (app w)) (userSessionId (app w)))
      (mkLogin (mkCredentials (email d) []) LoginView.emptyRegisterData traditional)
      (localStorage w)
      (effects w ++
         [ Fetch (LoginView.registerRequest (Js.trim (name d)) (toLowerCase (email d))
                    (password d));
           Alert RegisterDone ])).
  { subst w1 w2 w3 d. destruct w as [a l st ef]. cbn [loginView] in Hform.
    cbv [LoginView.handleRegister]. eff_run.
    rewrite (validateRegisterForm_accepts l _ Hform). eff_run.
    rewrite Hjson. eff_run. rewrite Hok. eff_run. effects_norm. reflexivity. }
  assert (Hlogin : Spec.loginFormOk (mkCredentials (email d) (password d))).
  { destruct Hform as (_ & He & Hp & _ & Hm & _). repeat split; assumption. }
  assert (H2 : w2 =
    mkWorld (app w1)
      (mkLogin (mkCredentials (email d) (password d)) LoginView.emptyRegisterData
         traditional)
      (localStorage w1) (effects w1)).
  { subst w2. rewrite H1. reflexivity. }
  split; [rewrite H1; reflexivity|].
  split; [rewrite H1; cbn [effects]; rewrite alerts_app; reflexivity|].
  split; [rewrite H1; reflexivity|]. split; [rewrite H1; reflexivity|].
  split; [rewrite H1; reflexivity|].
  subst w3. rewrite (login_valid_posts JSON_stringify net w2).
  - rewrite H2. cbn [effects loginView credentials cred_email cred_password].
    rewrite H1. cbn [effects]. rewrite requests_app, <- app_assoc. reflexivity.
  - rewrite H2. exact Hlogin.
Qed.

(** The Google button: disabled, a click does nothing. Enabled, it posts
    the mock profile to [/api/login/google], once, and ends with loading
    over; [handleGoogleSuccess] deals with every failure itself (at most
    one alert, never the "Google login failed" one), so the button's
    [onError] callback is never run. *)
Theorem google_button_never_reports_failure (disabled : bool) (net : Settled Response)
    (w : World) :
  let result := LoginView.clickGoogle (AppToken.onLoginSuccess JSON_stringify)
                  disabled net w in
  fst result = Normal tt /\
  (disabled = true -> snd result = w) /\
  (disabled = false ->
   requests (effects (snd result)) =
     requests (effects w) ++ [LoginView.googleRequest GoogleLoginButton.mockGoogleResponse] /\
   isLoading (app (snd result)) = false /\
   exists shown : list AlertMsg,
     alerts (effects (snd result)) = alerts (effects w) ++ shown /\
     (length shown <= 1)%nat /\ ~ In GoogleLoginFailed shown).
Proof.
  intros result. subst result. destruct w as [a l st ef].
  cbv [LoginView.clickGoogle GoogleLoginButton.handleGoogleLogin
       LoginView.handleGoogleSuccess LoginView.handleGoogleError
       AppToken.onLoginSuccess].
  destruct disabled.
  - split; [reflexivity|]. split; [reflexivity|]. intros H. discriminate H.
  - settle.
    all: split; [reflexivity|]; split; [intros H; discriminate H|]; intros _.
    all: effects_norm; rewrite requests_app, alerts_app; cbn [requests alerts omap].
    all: split; [reflexivity|]; split; [reflexivity|].
    all: eexists; split; [reflexivity|]; split; [cbn; lia|].
    all: cbn; intros H; repeat destruct H as [H|H]; try discriminate H; exact H.
Qed.

End LoginSuccess.

(* ===================================================================== *)
(** ** The stored login of the token variant *)
(* ===================================================================== *)

Section TokenPersistence.
Import Model.

Variable JSON_stringify : Js.val -> jsstr.

(** What [onLoginSuccess] leaves, for a token that is a non-empty string
    and a truthy user record. *)
Lemma onLoginSuccess_stores (userData : Js.val) (t : jsstr) (w : World) :
  t <> [] -> Js.truthy userData = true ->
  snd (AppToken.onLoginSuccess JSON_stringify userData (Js.Str t) w) =
  mkWorld
    (mkApp userData chat (chatMessages (app w)) (currentMessage (app w))
       (isLoading (app w)) (userHistory (app w)) (suggestions (app w))
       (uploadedFile (app w)) (fileProcessing (app w)) (userSessionId (app w)))
    (loginView w)
    (<["user" := JSON_stringify userData]> (<["token" := t]> (localStorage w)))
    (effects w ++ [ConsoleLog]).
Proof.
  intros Ht Hu. open_world w. cbv [AppToken.onLoginSuccess]. eff_run.
  rewrite Hu. destruct t as [|c t]; [contradiction|]. reflexivity.
Qed.

(** A page load with both items stored. *)
Lemma mount_with_credentials (parsed : Settled Js.val) (t u : jsstr) (w : World) :
  localStorage w !! "token" = Some t -> localStorage w !! "user" = Some u ->
  t <> [] -> u <> [] ->
  snd (AppToken.mount parsed w) =
  match parsed with
  | Fulfilled userData =>
      mkWorld
        (mkApp userData chat [] [] false (Js.Arr []) [] None false [])
        LoginView.initialState (localStorage w) (effects w)
  | Rejected e =>
      mkWorld AppToken.initialState LoginView.initialState
        (delete "user" (delete "token" (localStorage w)))
        (effects w ++ [ConsoleError e])
  end.
Proof.
  intros Ht Hu Hte Hue. destruct w as [a l st ef]. cbn [localStorage] in Ht, Hu.
  cbv [AppToken.mount AppToken.restoreUser]. eff_run.
  read_storage Ht. read_storage Hu.
  destruct t as [|c t]; [contradiction|]. destruct u as [|c' u]; [contradiction|].
  destruct parsed; reflexivity.
Qed.

(** A page load with the token or the user missing (or empty). *)
Lemma mount_without_credentials (parsed : Settled Js.val) (w : World) :
  localStorage w !! "token" = None \/ localStorage w !! "token" = Some [] \/
  localStorage w !! "user" = None \/ localStorage w !! "user" = Some [] ->
  snd (AppToken.mount parsed w) =
  mkWorld AppToken.initialState LoginView.initialState (localStorage w) (effects w).
Proof.
  intros H. destruct w as [a l st ef]. cbn [localStorage] in H.
  cbv [AppToken.mount AppToken.restoreUser]. eff_run.
  destruct (st !! "token") as [[|c t]|] eqn:Et;
    destruct (st !! "user") as [[|c' u]|] eqn:Eu; try reflexivity.
  exfalso. destruct H as [H|[H|[H|H]]]; discriminate H.
Qed.

(** After [onLoginSuccess] with a non-empty token and a truthy user the
    chat screen is shown and both are stored. A reload then restores the
    user as [JSON.parse] reads it and shows the chat view; if the stored
    user does not parse, both items are removed and the page stays logged
    out. After [handleLogout] both items are gone, every other stored key
    is as before the login, and a reload shows the login screen. *)
Theorem login_survives_reload_until_logout (userData : Js.val) (t : jsstr)
    (parsed : Settled Js.val) (w : World) :
  t <> [] -> Js.truthy userData = true -> JSON_stringify userData <> [] ->
  let w1 := snd (AppToken.onLoginSuccess JSON_stringify userData (Js.Str t) w) in
  let reloaded := snd (AppToken.mount parsed w1) in
  let w2 := run AppToken.handleLogout w1 in
  AppToken.render (app w1) = ChatScreen /\
  localStorage w1 !! "token" = Some t /\
  localStorage w1 !! "user" = Some (JSON_stringify userData) /\
  (forall u : Js.val,
      parsed = Fulfilled u ->
      user (app reloaded) = u /\ currentView (app reloaded) = chat /\
      localStorage reloaded = localStorage w1) /\
  (forall e : Js.error,
      parsed = Rejected e ->
      app reloaded = AppToken.initialState /\
      localStorage reloaded !! "token" = None /\
      localStorage reloaded !! "user" = None /\
      effects reloaded = effects w1 ++ [ConsoleError e]) /\
  localStorage w2 !! "token" = None /\ localStorage w2 !! "user" = None /\
  (forall k : string, k <> "token" -> k <> "user" ->
      localStorage w2 !! k = localStorage w !! k) /\
  app (snd (AppToken.mount parsed w2)) = AppToken.initialState /\
  AppToken.render (app (snd (AppToken.mount parsed w2))) = LoginScreen.
Proof.
  intros Ht Hu Hs w1 reloaded w2.
  assert (H1 : w1 = _) by (exact (onLoginSuccess_stores userData t w Ht Hu)).
  assert (Htok : localStorage w1 !! "token" = Some t).
  { rewrite H1. cbn [localStorage].
    rewrite lookup_insert_ne by discriminate. apply lookup_insert_eq. }
  assert (Husr : localStorage w1 !! "user" = Some (JSON_stringify userData)).
  { rewrite H1. cbn [localStorage]. apply lookup_insert_eq. }
  assert (Hre : reloaded = _)
    by (exact (mount_with_credentials parsed t _ w1 Htok Husr Ht Hs)).
  assert (H2 : w2 = _) by (exact (token_logout w1)).
  assert (Hout : localStorage w2 !! "token" = None).
  { rewrite H2. cbn [localStorage].
    rewrite lookup_delete_ne by discriminate. apply lookup_delete_eq. }
  split; [rewrite H1; cbv [AppToken.render]; cbn [app user currentView];
          rewrite Hu; reflexivity|].
  split; [exact Htok|]. split; [exact Husr|].
  split; [intros u E; rewrite Hre, E; repeat split|].
  split.
  { intros e E. rewrite Hre, E. cbn [app localStorage effects].
    split; [reflexivity|].
    split; [rewrite lookup_delete_ne by discriminate; apply lookup_delete_eq|].
    split; [apply lookup_delete_eq|reflexivity]. }
  split; [exact Hout|].
  split; [rewrite H2; cbn [localStorage]; apply lookup_delete_eq|].
  split.
  { intros k Hk1 Hk2. rewrite H2, H1. cbn [localStorage].
    rewrite !lookup_delete_ne by congruence.
    rewrite !lookup_insert_ne by congruence. reflexivity. }
  rewrite (mount_without_credentials parsed w2 (or_introl Hout)).
  split; reflexivity.
Qed.

(** [fetchUserHistory] of the token variant, with and without a user. *)
Lemma token_history_fetch (net : Settled Response) (w : World) :
  Js.truthy (user (app w)) = true ->
  requests (effects (run (AppToken.fetchUserHistory net) w)) =
    requests (effects w) ++ [AppToken.historyRequest (localStorage w !! "token")] /\
  isLoading (app (run (AppToken.fetchUserHistory net) w)) = false.
Proof.
  intros Hu. open_world w. cbv [AppToken.fetchUserHistory]. eff_run.
  rewrite Hu. settle; effects_norm; rewrite requests_app; split; reflexivity.
Qed.

Lemma token_history_without_user (net : Settled Response) (w : World) :
  Js.truthy (user (app w)) = false -> run (AppToken.fetchUserHistory net) w = w.
Proof.
  intros Hu. destruct w as [a l st ef]. cbn [app] in Hu.
  cbv [AppToken.fetchUserHistory run]. cbn [app]. rewrite Hu. reflexivity.
Qed.

(** The history effect of the token variant fetches exactly when a user
    is logged in and the view is history: then one GET goes out with the
    stored token and loading ends; otherwise the page is untouched. And
    [fetchUserHistory] itself, called without a user, does nothing. *)
Theorem token_history_needs_user (net : Settled Response) (w : World) :
  let w' := run (AppToken.historyEffect net) w in
  (Js.truthy (user (app w)) = true /\ currentView (app w) = history ->
   requests (effects w') =
     requests (effects w) ++ [AppToken.historyRequest (localStorage w !! "token")] /\
   isLoading (app w') = false) /\
  (Js.truthy (user (app w)) = false \/ currentView (app w) <> history -> w' = w) /\
  (Js.truthy (user (app w)) = false -> run (AppToken.fetchUserHistory net) w = w).
Proof.
  intros w'. subst w'.
  assert (Hrun : run (AppToken.historyEffect net) w =
                 match currentView (app w) with
                 | history =>
                     if Js.truthy (user (app w))
                     then run (AppToken.fetchUserHistory net) w else w
                 | _ => w
                 end).
  { destruct w as [a l st ef]. cbv [run AppToken.historyEffect]. cbn [app].
    destruct (currentView a); try reflexivity.
    destruct (Js.truthy (user a)); reflexivity. }
  rewrite Hrun. split; [|split].
  - intros [Hu Hv]. rewrite Hv, Hu. apply token_history_fetch. exact Hu.
  - intros [Hu|Hv].
    + rewrite Hu. destruct (currentView (app w)); reflexivity.
    + destruct (currentView (app w)); try reflexivity. contradiction.
  - apply token_history_without_user.
Qed.

End TokenPersistence.

(* ===================================================================== *)
(** ** What the history view shows *)
(* ===================================================================== *)

Section HistoryScreen.
Import Model.

(** The [|| []] of the session variants changes nothing in what the view
    shows. *)
Lemma content_or_empty (h : Js.val) :
  HistoryView.content false (Js.or_else h (Js.Arr [])) = HistoryView.content false h.
Proof.
  unfold Js.or_else, HistoryView.content.
  destruct (Js.truthy h) eqn:Hh; cbn [negb]; [rewrite Hh|]; reflexivity.
Qed.

(** What [HistoryView] shows once [fetchUserHistory] has run, in every
    variant (a user being logged in, in the token variant): one GET went
    out; after a failed call the empty-history panel is shown, as for a
    user without history; after a 2xx JSON object the view shows what it
    would show for the response's [history] itself (the [|| []] of the
    session variants makes no difference): the list when it is a
    non-empty array, the empty-history panel when it is missing. *)
Theorem history_view_after_fetch (v : Variants.Variant) (net : Settled Response)
    (w : World) :
  (v = Variants.Token -> Js.truthy (user (app w)) = true) ->
  let w' := run (Variants.fetchUserHistory v net) w in
  let shown := HistoryView.content (isLoading (app w')) (userHistory (app w')) in
  requests (effects w') = requests (effects w) ++ [Variants.historyRequest v w] /\
  (Spec.failed net -> shown = inr HistoryView.EmptyHistory) /\
  (forall (r : Response) (fields : list (jsstr * Js.val)),
      net = Fulfilled r -> ok r = true -> json r = Fulfilled (Js.Obj fields) ->
      shown = HistoryView.content false (Js.lookup_field (Js.lit "history") fields)) /\
  (forall (r : Response) (fields : list (jsstr * Js.val)) (x : Js.val) (items : list Js.val),
      net = Fulfilled r -> ok r = true -> json r = Fulfilled (Js.Obj fields) ->
      Js.lookup_field (Js.lit "history") fields = Js.Arr (x :: items) ->
      shown = inr (HistoryView.HistoryList (x :: items))).
Proof.
  intros Hu w' shown. subst w' shown.
  assert (Hok : forall (r : Response) (fields : list (jsstr * Js.val)),
             net = Fulfilled r -> ok r = true -> json r = Fulfilled (Js.Obj fields) ->
             HistoryView.content
               (isLoading (app (run (Variants.fetchUserHistory v net) w)))
               (userHistory (app (run (Variants.fetchUserHistory v net) w)))
             = HistoryView.content false (Js.lookup_field (Js.lit "history") fields)).
  { intros r fields -> Hok Hjson. open_world w.
    destruct v;
      cbv [Variants.fetchUserHistory AppSession.fetchUserHistory
           AppSessionV1.fetchUserHistory AppToken.fetchUserHistory
           AppNoAuth.fetchUserHistory]; eff_run;
      rewrite ?(Hu eq_refl); eff_run; rewrite Hok; eff_run; rewrite Hjson; eff_run;
      cbn [Js.get]; eff_run; rewrite ?content_or_empty; reflexivity. }
  split; [|split; [|split]].
  - open_world w.
    destruct v;
      cbv [Variants.fetchUserHistory Variants.historyRequest
           AppSession.fetchUserHistory AppSessionV1.fetchUserHistory
           AppToken.fetchUserHistory AppNoAuth.fetchUserHistory
           AppSession.email AppSessionV1.email]; eff_run;
      rewrite ?(Hu eq_refl); settle; effects_norm; rewrite requests_app; reflexivity.
  - intros Hfail. open_world w.
    destruct net as [r|e]; cbn [Spec.failed] in Hfail;
      destruct v;
      cbv [Variants.fetchUserHistory AppSession.fetchUserHistory
           AppSessionV1.fetchUserHistory AppToken.fetchUserHistory
           AppNoAuth.fetchUserHistory]; eff_run;
      rewrite ?(Hu eq_refl); eff_run; rewrite ?Hfail; settle; reflexivity.
  - exact Hok.
  - intros r fields x items Hnet Hokr Hjson Hh.
    rewrite (Hok r fields Hnet Hokr Hjson), Hh. reflexivity.
Qed.

(** Membership after a toggle. *)
Lemma toggleExpanded_elem (index j : nat) (expandedItems : gset nat) :
  j ∈ HistoryView.toggleExpanded index expandedItems <->
  (j = index /\ index ∉ expandedItems) \/ (j <> index /\ j ∈ expandedItems).
Proof.
  unfold HistoryView.toggleExpanded. cbv zeta.
  destruct (bool_decide (index ∈ expandedItems)) eqn:E.
  - apply bool_decide_eq_true in E.
    rewrite elem_of_difference, elem_of_singleton.
    destruct (decide (j = index)) as [->|Hj]; tauto.
  - apply bool_decide_eq_false in E.
    rewrite elem_of_union, elem_of_singleton.
    destruct (decide (j = index)) as [->|Hj]; tauto.
Qed.

(** [toggleExpanded] flips the entry clicked and no other; clicking twice
    restores the set. *)
Theorem toggleExpanded_flips_one (index : nat) (expandedItems : gset nat) :
  HistoryView.toggleExpanded index (HistoryView.toggleExpanded index expandedItems)
    = expandedItems /\
  (index ∈ HistoryView.toggleExpanded index expandedItems <-> index ∉ expandedItems) /\
  (forall j : nat,
      j <> index ->
      (j ∈ HistoryView.toggleExpanded index expandedItems <-> j ∈ expandedItems)).
Proof.
  split; [|split].
  - apply set_eq. intros x. rewrite !toggleExpanded_elem.
    destruct (decide (x = index)) as [->|Hx];
      destruct (decide (index ∈ expandedItems)); tauto.
  - rewrite toggleExpanded_elem. tauto.
  - intros j Hj. rewrite toggleExpanded_elem. tauto.
Qed.

End HistoryScreen.

(* ===================================================================== *)
(** ** The session page over a sequence of events *)
(* ===================================================================== *)

Section SessionTrace.
Import Model.

Variable toLowerCase : jsstr -> jsstr.



End SessionTrace.

(* ===================================================================== *)
(** ** Suggestions while typing *)
(* ===================================================================== *)

Section Suggestions.
Import Model.

Variable toLowerCase : jsstr -> jsstr.

(** [startsWith] decides whether the string begins with the text. *)
Lemma startsWith_spec (sub : jsstr) :
  forall s : jsstr, Js.startsWith s sub = true <-> exists post : jsstr, s = sub ++ post.
Proof.
  induction sub as [|c sub IH]; intros s.
  - split; [intros _; exists s; reflexivity|]. intros _. destruct s; reflexivity.
  - destruct s as [|d s]; cbn.
    + split; [discriminate|]. intros [post E]. discriminate E.
    + rewrite andb_true_iff, N.eqb_eq, IH. split.
      * intros [-> [post ->]]. exists post. reflexivity.
      * intros [post E]. injection E as -> ->. split; [reflexivity|].
        exists post. reflexivity.
Qed.

(** [includes] decides whether the text occurs in the string. *)
Lemma includes_spec (sub : jsstr) :
  forall s : jsstr, Js.includes s sub = true <-> Spec.occursIn sub s.
Proof.
  unfold Spec.occursIn.
  induction s as [|d s IH]; cbn [Js.includes]; rewrite orb_true_iff, startsWith_spec.
  - split.
    + intros [[post E]|H]; [|discriminate H]. exists [], post. exact E.
    + intros (pre & post & E). left.
      destruct pre as [|p pre]; [exists post; exact E|discriminate E].
  - rewrite IH. split.
    + intros [[post E]|(pre & post & E)].
      * exists [], post. exact E.
      * exists (d :: pre), post. rewrite E. reflexivity.
    + intros (pre & post & E). destruct pre as [|p pre].
      * left. exists post. exact E.
      * right. injection E as -> E. exists pre, post. exact E.
Qed.

(** Filtering keeps the order. *)
Lemma List_filter_sublist {A : Type} (f : A -> bool) (l : list A) :
  sublist (List.filter f l) l.
Proof.
  induction l as [|a l IH]; cbn.
  - constructor.
  - destruct (f a); [apply sublist_skip|apply sublist_cons]; exact IH.
Qed.

(** Typing: the input holds the text; the suggestions offered are exactly
    the quick suggestions in which the text occurs, case ignored (both
    sides through [toLowerCase]), in their original order, and none when
    the text is empty; transcript, file, effects and storage are
    untouched. *)
Theorem typing_offers_matching_suggestions (value : jsstr) (w : World) :
  let w' := run (AppSession.handleInputChange toLowerCase value) w in
  currentMessage (app w') = value /\
  (forall s : jsstr,
      In s (suggestions (app w')) <->
      value <> [] /\ In s AppSession.quickSuggestions /\
      Spec.occursIn (toLowerCase value) (toLowerCase s)) /\
  sublist (suggestions (app w')) AppSession.quickSuggestions /\
  chatMessages (app w') = chatMessages (app w) /\
  uploadedFile (app w') = uploadedFile (app w) /\
  effects w' = effects w /\ localStorage w' = localStorage w.
Proof.
  intros w'. subst w'. open_world w.
  cbv [AppSession.handleInputChange]. eff_run.
  destruct (Js.eqb value []) eqn:Ev; eff_run.
  - apply eqb_eq in Ev. split; [reflexivity|]. split; [|split; [|repeat split]].
    + intros s. split; [intros []|]. intros (H & _). contradiction.
    + apply sublist_nil_l.
  - apply eqb_neq in Ev. split; [reflexivity|]. split; [|split; [|repeat split]].
    + intros s. rewrite filter_In, includes_spec. tauto.
    + apply List_filter_sublist.
Qed.

End Suggestions.

(* ===================================================================== *)
(** ** The tabs of the login form *)
(* ===================================================================== *)

Section Tabs.
Import Model.

(** Switching to the registration tab empties the login form and
    switching back empties the registration form: after the round trip
    nothing typed survives. Switching to the tab already shown a second
    time changes nothing more. *)
Theorem tab_round_trip_clears_both_forms (w : World) :
  let there := snd (LoginView.handleTabSwitch register w) in
  let back := snd (LoginView.handleTabSwitch traditional there) in
  loginView there = mkLogin (mkCredentials [] []) (registerData (loginView w)) register /\
  loginView back = LoginView.initialState /\
  app back = app w /\ localStorage back = localStorage w /\ effects back = effects w /\
  (forall mode : LoginMode,
      let once := snd (LoginView.handleTabSwitch mode w) in
      snd (LoginView.handleTabSwitch mode once) = once /\
      loginMode (loginView once) = mode).
Proof.
  open_world w. cbv [LoginView.handleTabSwitch]. eff_run.
  repeat split; destruct mode; reflexivity.
Qed.

End Tabs.

(* ===================================================================== *)
(** ** Answers that lack what the client reads *)
(* ===================================================================== *)

Section EdgeAnswers.
Import Model.

(** An upload answered 2xx with a JSON object that has no (truthy)
    [file_id]: the session variant of App.js treats it as a failure
    ("invalid response" in the upload-failed alert, no file); the three
    other variants do not look and install a descriptor whose identifier
    is that missing value, with the "processed" alert. *)
Theorem upload_answer_without_file_id (v : Variants.Variant) (file : File.t)
    (r : Response) (fields : list (jsstr * Js.val)) now w :
  File.type file = Js.lit "application/pdf" ->
  ok r = true ->
  json r = Fulfilled (Js.Obj fields) ->
  Js.truthy (Js.lookup_field (Js.lit "file_id") fields) = false ->
  let w' := run (Variants.handleFileUpload v (Some file) (Fulfilled r) now) w in
  match v with
  | Variants.Session =>
      uploadedFile (app w') = None /\
      alerts (effects w') = alerts (effects w) ++ [UploadFailed AppSession.invalidResponse]
  | _ =>
      alerts (effects w') = alerts (effects w) ++ [FileProcessed (File.name file)] /\
      exists d : UploadedFile.t,
        uploadedFile (app w') = Some d /\
        UploadedFile.id d = Js.lookup_field (Js.lit "file_id") fields
  end.
Proof.
  intros Hty Hok Hjson Hid w'. subst w'.
  apply eqb_eq in Hty. open_world w.
  destruct v;
    cbv [Variants.handleFileUpload
         AppSession.handleFileUpload AppSessionV1.handleFileUpload
         AppToken.handleFileUpload AppNoAuth.handleFileUpload];
    rewrite ?Hty, ?negated_type_test_is_false; eff_run; rewrite ?Hok; eff_run;
    rewrite ?Hjson; eff_run; cbn [Js.get]; rewrite ?Hid; eff_run;
    effects_norm; rewrite alerts_app; (split; [reflexivity|]);
    try reflexivity; eexists; split; reflexivity.
Qed.

(** A chat call answered 2xx with a readable JSON body, in every variant:
    the transcript gains the question and one reply. The reply is the
    error-flagged apology exactly when the body is [null] (reading
    [data.answer] throws); it is then numbered [n + 3], and [n + 2]
    otherwise, [n] being the length of the transcript before. For a JSON
    object the reply carries its [answer] (possibly absent) and its
    [sources], or the empty list; for any other body (a number, a string,
    an array) the reply is a message without text. *)
Theorem answered_reply_is_error_iff_body_null (v : Variants.Variant) (w : World)
    (file : UploadedFile.t) (r : Response) (data : Js.val) sentAt settledAt :
  Js.trim (currentMessage (app w)) <> [] ->
  isLoading (app w) = false ->
  uploadedFile (app w) = Some file ->
  ok r = true ->
  json r = Fulfilled data ->
  let w' := run (Variants.handleSendMessage v sentAt (Fulfilled r) settledAt) w in
  let n := length (chatMessages (app w)) in
  exists reply : Message.t,
    chatMessages (app w') =
      chatMessages (app w) ++
        [Message.mk (n + 1) (Js.Str (currentMessage (app w))) User sentAt (Js.Arr []) false;
         reply] /\
    (Message.isError reply = true <-> data = Js.Null \/ data = Js.Undefined) /\
    (Message.isError reply = true -> Message.id reply = (n + 3)%nat) /\
    (Message.isError reply = false ->
     Message.id reply = (n + 2)%nat /\
     forall fields : list (jsstr * Js.val),
       data = Js.Obj fields ->
       Message.text reply = Js.lookup_field (Js.lit "answer") fields /\
       Message.sources reply =
         Js.or_else (Js.lookup_field (Js.lit "sources") fields) (Js.Arr [])) /\
    ((forall fields : list (jsstr * Js.val), data <> Js.Obj fields) ->
     Message.isError reply = false -> Message.text reply = Js.Undefined).
Proof.
  intros Htxt Hload Hfile Hok Hjson w' n. subst w' n.
  apply eqb_neq in Htxt. open_world w. subst.
  assert (Hid : forall (l : list Message.t) (m : Message.t),
             (length (l ++ [m]) + 2 = length l + 3)%nat).
  { intros l m. rewrite length_app. cbn. lia. }
  destruct v;
    cbv [Variants.handleSendMessage
         AppSession.handleSendMessage AppSessionV1.handleSendMessage
         AppToken.handleSendMessage AppNoAuth.handleSendMessage];
    eff_run; rewrite Htxt; cbn [orb]; eff_run; rewrite Hok; eff_run;
    rewrite Hjson; eff_run;
    destruct data; cbn [Js.get]; eff_run; rewrite <- app_assoc; cbn [Datatypes.app];
    eexists; (split; [reflexivity|]); cbn [Message.isError Message.id Message.text
                                           Message.sources].
  all: split; [split; [intros H; try discriminate H; tauto
                      |intros [H|H]; try discriminate H; reflexivity]|].
  all: split; [intros H; try discriminate H; apply Hid|].
  all: split;
    [intros H;
     first [discriminate H
           |split; [reflexivity|]; intros fs E;
            first [discriminate E|injection E as <-; split; reflexivity]]|].
  all: intros Hno H; try discriminate H; try reflexivity.
  all: exfalso; eapply Hno; reflexivity.
Qed.

End EdgeAnswers.

Section EdgeLogin.
Import Model.

Variable JSON_stringify : Js.val -> jsstr.

(** The three calls of the login form read the body as JSON before they
    look at the status. When the body cannot be read as JSON (an HTML
    error page, an empty body), whatever the status, 2xx included, the
    user is shown the connection-error alert (its Google form for the
    Google login): the page stays logged out, nothing is stored, the forms
    keep what was typed, and loading ends. *)
Theorem unreadable_body_reports_connection_error (r : Response) (e : Js.error)
    (w : World) :
  json r = Rejected e ->
  (Spec.loginFormOk (credentials (loginView w)) ->
   let w' := LoginView.run
               (LoginView.handleLogin (AppToken.onLoginSuccess JSON_stringify)
                  (Fulfilled r)) w in
   alerts (effects w') = alerts (effects w) ++ [ConnectionError] /\
   user (app w') = user (app w) /\ currentView (app w') = currentView (app w) /\
   localStorage w' = localStorage w /\ loginView w' = loginView w /\
   isLoading (app w') = false) /\
  (forall toLowerCase : jsstr -> jsstr,
      Spec.registerFormOk (registerData (loginView w)) ->
      let w' := LoginView.run (LoginView.handleRegister toLowerCase (Fulfilled r)) w in
      alerts (effects w') = alerts (effects w) ++ [ConnectionError] /\
      loginView w' = loginView w /\ isLoading (app w') = false) /\
  (forall userData : Js.val,
      let w' := snd (LoginView.handleGoogleSuccess (AppToken.onLoginSuccess JSON_stringify)
                       userData (Fulfilled r) w) in
      alerts (effects w') = alerts (effects w) ++ [GoogleConnectionError] /\
      user (app w') = user (app w) /\ localStorage w' = localStorage w /\
      isLoading (app w') = false).
Proof.
  intros Hjson. destruct w as [a l st ef]. cbn [loginView].
  split; [|split].
  - intros Hform. cbv [LoginView.handleLogin]. eff_run.
    rewrite (validateLoginForm_passes l _ Hform). eff_run. rewrite Hjson. eff_run.
    effects_norm. rewrite alerts_app. repeat split.
  - intros toLowerCase Hform. cbv [LoginView.handleRegister]. eff_run.
    rewrite (validateRegisterForm_accepts l _ Hform). eff_run. rewrite Hjson. eff_run.
    effects_norm. rewrite alerts_app. repeat split.
  - intros userData. cbv [LoginView.handleGoogleSuccess]. eff_run.
    rewrite Hjson. eff_run. effects_norm. rewrite alerts_app. repeat split.
Qed.

(** Token variant, a logout followed by the login of another user on the
    same page: transcript and file are gone, the new user is in place on
    the chat view, and the text in the input, the suggestions and the
    history mirror are still those of the page before the logout:
    [handleLogout] does not clear them. *)
Theorem token_logout_keeps_draft_and_history (userData token : Js.val) (w : World) :
  let w1 := run AppToken.handleLogout w in
  let w2 := snd (AppToken.onLoginSuccess JSON_stringify userData token w1) in
  user (app w2) = userData /\ currentView (app w2) = chat /\
  chatMessages (app w2) = [] /\ uploadedFile (app w2) = None /\
  currentMessage (app w2) = currentMessage (app w) /\
  suggestions (app w2) = suggestions (app w) /\
  userHistory (app w2) = userHistory (app w).
Proof.
  intros w1 w2. subst w1 w2. rewrite token_logout.
  cbv [AppToken.onLoginSuccess]. eff_run.
  destruct (Js.truthy token); destruct (Js.truthy userData); eff_run; repeat split.
Qed.

End EdgeLogin.

(* ===================================================================== *)
(** ** The theorems above at sample pages *)
(* ===================================================================== *)

Section MoreSamples.
Import Model.

(** A question on a no-auth page with a file, the network down. *)
Lemma send_appends_question_and_one_reply_witness :
  let w := Examples.page
             (mkApp Js.Undefined chat [] (Js.lit " What is it about? ") false (Js.Arr [])
                [] (Some Examples.indexed) false [])
             ∅ in
  let w' := run (Variants.handleSendMessage Variants.NoAuth (Js.lit "10:00:00")
                   Examples.offline (Js.lit "10:00:05")) w in
  Js.trim (currentMessage (app w)) <> [] /\
  requests (effects w') =
    requests (effects w) ++
      [Variants.chatRequest Variants.NoAuth w (currentMessage (app w))
         (UploadedFile.id Examples.indexed)] /\
  isLoading (app w') = false /\ currentMessage (app w') = [].
Proof.
  intros w w'.
  assert (Htxt : Js.trim (currentMessage (app w)) <> []) by (intros H; discriminate H).
  destruct (send_appends_question_and_one_reply Variants.NoAuth w Examples.indexed
              (Js.lit "10:00:00") Examples.offline (Js.lit "10:00:05")
              Htxt eq_refl eq_refl) as (H1 & H2 & H3 & _).
  split; [exact Htxt|]. split; [exact H1|]. split; [exact H2|exact H3].
Defined.

(** A PDF uploaded from a logged-in token page, the backend answering 500. *)
Lemma upload_ends_in_one_alert_witness :
  let w := Examples.loggedIn chat [] [] in
  let w' := run (Variants.handleFileUpload Variants.Token (Some Examples.report_pdf)
                   Examples.serverError (Js.lit "2025-01-02T00:00:00.000Z")) w in
  File.type Examples.report_pdf = Js.lit "application/pdf" /\
  requests (effects w') =
    requests (effects w) ++ [Variants.uploadRequest Variants.Token w Examples.report_pdf] /\
  fileProcessing (app w') = false.
Proof.
  intros w w'.
  destruct (upload_ends_in_one_alert Variants.Token Examples.report_pdf
              Examples.serverError (Js.lit "2025-01-02T00:00:00.000Z") w eq_refl)
    as (H1 & H2 & _).
  split; [reflexivity|]. split; [exact H1|exact H2].
Defined.


(** Ana registers with a capitalised address, then logs in. *)
Lemma register_then_login_posts_email_as_typed_witness :
  let d := mkRegisterData (Js.lit " Ana ") (Js.lit "Ana@Example.com")
             (Js.lit "s3cret!") (Js.lit "s3cret!") in
  let w := mkWorld AppToken.initialState
             (mkLogin (mkCredentials [] []) d register) ∅ [] in
  let w1 := LoginView.run
              (LoginView.handleRegister Examples.asciiLower
                 (Examples.respond 201 "Created" (Js.Obj []))) w in
  let w2 := LoginView.run (LoginView.changeLoginPassword (Js.lit "s3cret!")) w1 in
  let w3 := LoginView.run
              (LoginView.handleLogin (AppToken.onLoginSuccess Examples.show)
                 Examples.unauthorized) w2 in
  Spec.registerFormOk d /\
  requests (effects w3) =
    [ LoginView.registerRequest (Js.lit "Ana") (Js.lit "ana@example.com")
        (Js.lit "s3cret!");
      LoginView.loginRequest (Js.lit "Ana@Example.com") (Js.lit "s3cret!") ].
Proof.
  intros d w w1 w2 w3.
  assert (Hok : Spec.registerFormOk d).
  { unfold Spec.registerFormOk.
    split; [intros H; discriminate H|].
    split; [intros H; discriminate H|].
    split; [intros H; discriminate H|].
    split; [vm_compute; lia|].
    split; [apply test_spec; vm_compute; reflexivity|].
    split; [vm_compute; lia|reflexivity]. }
  split; [exact Hok|].
  exact (proj2 (proj2 (proj2 (proj2 (proj2
           (register_then_login_posts_email_as_typed Examples.show Examples.asciiLower
              (Examples.jsonResponse 201 "Created" (Js.Obj [])) (Js.Obj [])
              Examples.unauthorized w Hok eq_refl eq_refl)))))).
Defined.

(** Alice's login, a reload, a logout. *)
Lemma login_survives_reload_until_logout_witness :
  let w := Examples.page AppToken.initialState ∅ in
  let w1 := snd (AppToken.onLoginSuccess Examples.show Examples.alice
                   (Js.Str (Js.lit "tok-123")) w) in
  let w2 := run AppToken.handleLogout w1 in
  Examples.show Examples.alice <> [] /\
  AppToken.render (app w1) = ChatScreen /\
  localStorage w1 !! "token" = Some (Js.lit "tok-123") /\
  localStorage w2 !! "token" = None /\
  AppToken.render (app (snd (AppToken.mount (Fulfilled Examples.alice) w2))) = LoginScreen.
Proof.
  intros w w1 w2.
  assert (Ht : Js.lit "tok-123" <> []) by (intros H; discriminate H).
  assert (Hs : Examples.show Examples.alice <> []) by (intros H; discriminate H).
  destruct (login_survives_reload_until_logout Examples.show Examples.alice
              (Js.lit "tok-123") (Fulfilled Examples.alice) w Ht eq_refl Hs)
    as (H1 & H2 & _ & _ & _ & H6 & _ & _ & _ & H10).
  split; [exact Hs|]. split; [exact H1|]. split; [exact H2|].
  split; [exact H6|exact H10].
Defined.

(** Alice opens her history while the backend answers 500. *)
Lemma history_view_after_fetch_witness :
  let w := Examples.loggedIn history [] [] in
  let w' := run (Variants.fetchUserHistory Variants.Token Examples.serverError) w in
  Js.truthy (user (app w)) = true /\
  Spec.failed Examples.serverError /\
  HistoryView.content (isLoading (app w')) (userHistory (app w'))
    = inr HistoryView.EmptyHistory.
Proof.
  intros w w'.
  assert (Hfail : Spec.failed Examples.serverError) by reflexivity.
  split; [reflexivity|]. split; [exact Hfail|].
  exact (proj1 (proj2 (history_view_after_fetch Variants.Token Examples.serverError w
                         (fun _ => eq_refl))) Hfail).
Defined.


(** A first-version session page whose upload is answered without an
    identifier. *)
Lemma upload_answer_without_file_id_witness :
  let fields := [ (Js.lit "summary", Js.Str (Js.lit "A book about whales.")) ] in
  let w := Examples.fresh in
  let w' := run (Variants.handleFileUpload Variants.SessionV1 (Some Examples.report_pdf)
                   (Examples.respond 200 "OK" (Js.Obj fields))
                   (Js.lit "2025-01-02T00:00:00.000Z")) w in
  Js.truthy (Js.lookup_field (Js.lit "file_id") fields) = false /\
  alerts (effects w') = alerts (effects w) ++ [FileProcessed (File.name Examples.report_pdf)] /\
  exists d : UploadedFile.t,
    uploadedFile (app w') = Some d /\
    UploadedFile.id d = Js.lookup_field (Js.lit "file_id") fields.
Proof.
  intros fields w w'. split; [reflexivity|].
  exact (upload_answer_without_file_id Variants.SessionV1 Examples.report_pdf
           (Examples.jsonResponse 200 "OK" (Js.Obj fields)) fields
           (Js.lit "2025-01-02T00:00:00.000Z") w eq_refl eq_refl eq_refl eq_refl).
Defined.

(** A question answered 200 with the body [null]. *)
Lemma answered_reply_is_error_iff_body_null_witness :
  let w := Examples.asking [] (Js.lit "What is it about?") in
  let w' := run (Variants.handleSendMessage Variants.Session (Js.lit "10:00:00")
                   (Examples.respond 200 "OK" Js.Null) (Js.lit "10:00:05")) w in
  Js.trim (currentMessage (app w)) <> [] /\
  exists reply : Message.t,
    chatMessages (app w') =
      chatMessages (app w) ++
        [Message.mk (length (chatMessages (app w)) + 1) (Js.Str (currentMessage (app w)))
           User (Js.lit "10:00:00") (Js.Arr []) false;
         reply] /\
    Message.isError reply = true /\
    Message.id reply = (length (chatMessages (app w)) + 3)%nat.
Proof.
  intros w w'.
  assert (Htxt : Js.trim (currentMessage (app w)) <> []) by (intros H; discriminate H).
  split; [exact Htxt|].
  destruct (answered_reply_is_error_iff_body_null Variants.Session w Examples.indexed
              (Examples.jsonResponse 200 "OK" Js.Null) Js.Null
              (Js.lit "10:00:00") (Js.lit "10:00:05")
              Htxt eq_refl eq_refl eq_refl eq_refl)
    as (reply & Hc & Hiff & Hid & _).
  exists reply. split; [exact Hc|].
  pose proof (proj2 Hiff (or_introl eq_refl)) as He.
  split; [exact He|exact (Hid He)].
Defined.

(** The Google login behind a proxy that answers 502 with an HTML page. *)
Lemma unreadable_body_reports_connection_error_witness :
  let r := Examples.textResponse 502 "Bad Gateway" "<html>Bad Gateway</html>" in
  let w := Examples.page AppToken.initialState ∅ in
  let w' := snd (LoginView.handleGoogleSuccess (AppToken.onLoginSuccess Examples.show)
                   GoogleLoginButton.mockGoogleResponse (Fulfilled r) w) in
  json r = Rejected (Js.Error (Js.lit "Unexpected token in JSON at position 0")) /\
  alerts (effects w') = alerts (effects w) ++ [GoogleConnectionError] /\
  user (app w') = user (app w) /\ localStorage w' = localStorage w /\
  isLoading (app w') = false.
Proof.
  intros r w w'. split; [reflexivity|].
  exact (proj2 (proj2 (unreadable_body_reports_connection_error Examples.show r
                         (Js.Error (Js.lit "Unexpected token in JSON at position 0"))
                         w eq_refl))
           GoogleLoginButton.mockGoogleResponse).
Defined.

End MoreSamples.
